(** * The develop engine of darktable: history stack, autosave,
      pipeline hash synchronisation, render jobs, module duplication

    Shallow embedding of [src/develop/develop.c].  Each definition below
    carries the name of the C function it transcribes.

    Conventions of the embedding.
    - A C [int]/[int32_t] is a [Z].  Signed overflow is undefined behaviour
      in C: where the code adds to a number that a module struct or a database
      row supplies (the instance priority and the candidate label of
      [dt_dev_module_duplicate_ext]), the addition is [int_add], which fails
      with [None] when the sum leaves the range of [int].  Positions in the
      history stack and counters are plain [Z].  The 64-bit pipeline hash is
      a [Z] reduced modulo [2^64] at every step.
    - A [gboolean] is a [bool] (any non-zero value is [true]).
    - A [float]/[double] that is only carried around or compared is a
      rational [Q].
    - Parameter blobs are [list byte]; [memcpy]/[memcmp] are written out.
    - A [GList] is a [list]; [NULL] is [nil].
    - Module structs live in a store [gmap nat dt_iop_module_t] indexed by
      their address; history items and [dev->iop] hold addresses, so that
      aliasing between history entries and live modules is preserved.
      Dereferencing an address that is not in the store (or a [NULL]
      back-pointer) makes the operation fail with [None].
    - Functions of the code base that are not part of [develop.c] are the
      fields of the record [externals]. *)

From Stdlib Require Import ZArith QArith Bool Lia.
From Stdlib.Strings Require Import Byte.
From stdpp Require Import gmap strings list sorting pretty.

Local Open Scope Z_scope.

(** ** Bytes and C library helpers *)

Abbreviation bytes := (list byte).

#[global] Instance byte_eq_decision : EqDecision byte := byte_eq_dec.

(** [memcpy(dst, src, n)]: the first [n] bytes of [dst] are replaced by the
    first [n] bytes of [src]. *)
Definition memcpy (dst src : bytes) (n : nat) : bytes :=
  take n src ++ drop n dst.

(** [memcmp(a, b, n) != 0]. *)
Definition memcmp (a b : bytes) (n : nat) : bool :=
  negb (bool_decide (take n a = take n b)).

(** [word & mask] tested for non-zero. *)
Definition has_flag (word mask : Z) : bool := negb (Z.land word mask =? 0).

(** [g_list_nth(list, n)] returns the sub-list starting at position [n].  The
    index is a [guint]: a negative [int] wraps to a huge value, beyond the end
    of any list, and the result is [NULL]. *)
Definition g_list_nth {A} (l : list A) (n : Z) : list A :=
  if n <? 0 then [] else drop (Z.to_nat n) l.

(** ** Constants of headers that are not among the sources *)

(** Modelled from the spec: the pipeline change-flag is a bitset over
    [UNCHANGED], [TOP_CHANGED], [REMOVE], [SYNCH], [ZOOMED]
    (develop/pixelpipe_hb.h is missing); one bit per flag. *)
Definition DT_DEV_PIPE_UNCHANGED : Z := 0.
Definition DT_DEV_PIPE_TOP_CHANGED : Z := 1.
Definition DT_DEV_PIPE_REMOVE : Z := 2.
Definition DT_DEV_PIPE_SYNCH : Z := 4.
Definition DT_DEV_PIPE_ZOOMED : Z := 8.

(** Modelled from the spec: capability flags of an operation type
    (develop/imageop.h is missing); one bit per flag. *)
Definition IOP_FLAGS_SUPPORTS_BLENDING : Z := 2.
Definition IOP_FLAGS_ONE_INSTANCE : Z := 128.
Definition IOP_FLAGS_NO_HISTORY_STACK : Z := 512.

(** Modelled from the spec: bits of [main.images.flags]
    (common/image.h is missing). *)
Definition DT_IMAGE_AUTO_PRESETS_APPLIED : Z := 512.
Definition DT_IMAGE_NO_LEGACY_PRESETS : Z := 1024.

(** Modelled from the spec: format selectors of a preset
    (gui/presets.h is missing). *)
Definition FOR_LDR : Z := 1.
Definition FOR_RAW : Z := 2.
Definition FOR_HDR : Z := 4.
Definition FOR_NOT_MONO : Z := 8.
Definition FOR_NOT_COLOR : Z := 16.
Definition FOR_MATRIX : Z := 32.

(** Modelled from the spec: the transform directions accepted by the
    hash functions (develop/develop.h is missing). *)
Inductive dt_dev_transform_direction_t :=
| DT_DEV_TRANSFORM_DIR_ALL
| DT_DEV_TRANSFORM_DIR_FORW_INCL
| DT_DEV_TRANSFORM_DIR_FORW_EXCL
| DT_DEV_TRANSFORM_DIR_BACK_INCL
| DT_DEV_TRANSFORM_DIR_BACK_EXCL.

Inductive dt_dev_pixelpipe_status_t :=
| DT_DEV_PIXELPIPE_DIRTY
| DT_DEV_PIXELPIPE_RUNNING
| DT_DEV_PIXELPIPE_VALID
| DT_DEV_PIXELPIPE_INVALID.

#[global] Instance status_eq_decision : EqDecision dt_dev_pixelpipe_status_t.
Proof. solve_decision. Defined.

(** ** Data model *)

(** A mask form, referenced by its id. *)
Definition dt_masks_form_t := Z.

Record dt_iop_module_t := Build_module {
  mod_so : nat;  (* address of the shared dt_iop_module_so_t *)
  mod_op : string;  (* op *)
  mod_instance : Z;  (* instance *)
  mod_multi_priority : Z;  (* multi_priority *)
  mod_multi_name : string;  (* multi_name *)
  mod_multi_name_hand_edited : bool;
  mod_enabled : bool;
  mod_default_enabled : bool;
  mod_hide_enable_button : bool;
  mod_flags : Z;  (* result of module->flags() *)
  mod_version : Z;  (* result of module->version() *)
  mod_params : bytes;
  mod_default_params : bytes;
  mod_params_size : nat;
  mod_blend_params : bytes;
  mod_default_blendop_params : bytes;
  mod_iop_order : Z;
  mod_off : bool;  (* the enable button widget exists (module->off != NULL) *)
  mod_write_input_hint : bool
}.

Definition set_mod_instance (v : Z) (d : dt_iop_module_t) : dt_iop_module_t :=
  Build_module (mod_so d) (mod_op d) v (mod_multi_priority d)
    (mod_multi_name d) (mod_multi_name_hand_edited d) (mod_enabled d)
    (mod_default_enabled d) (mod_hide_enable_button d) (mod_flags d)
    (mod_version d) (mod_params d) (mod_default_params d) (mod_params_size d)
    (mod_blend_params d) (mod_default_blendop_params d) (mod_iop_order d)
    (mod_off d) (mod_write_input_hint d).

Definition set_mod_multi_priority (v : Z) (d : dt_iop_module_t) : dt_iop_module_t :=
  Build_module (mod_so d) (mod_op d) (mod_instance d) v (mod_multi_name d)
    (mod_multi_name_hand_edited d) (mod_enabled d) (mod_default_enabled d)
    (mod_hide_enable_button d) (mod_flags d) (mod_version d) (mod_params d)
    (mod_default_params d) (mod_params_size d) (mod_blend_params d)
    (mod_default_blendop_params d) (mod_iop_order d) (mod_off d)
    (mod_write_input_hint d).

Definition set_mod_multi_name (v : string) (d : dt_iop_module_t) : dt_iop_module_t :=
  Build_module (mod_so d) (mod_op d) (mod_instance d) (mod_multi_priority d) v
    (mod_multi_name_hand_edited d) (mod_enabled d) (mod_default_enabled d)
    (mod_hide_enable_button d) (mod_flags d) (mod_version d) (mod_params d)
    (mod_default_params d) (mod_params_size d) (mod_blend_params d)
    (mod_default_blendop_params d) (mod_iop_order d) (mod_off d)
    (mod_write_input_hint d).

Definition set_mod_multi_name_hand_edited (v : bool) (d : dt_iop_module_t) : dt_iop_module_t :=
  Build_module (mod_so d) (mod_op d) (mod_instance d) (mod_multi_priority d)
    (mod_multi_name d) v (mod_enabled d) (mod_default_enabled d)
    (mod_hide_enable_button d) (mod_flags d) (mod_version d) (mod_params d)
    (mod_default_params d) (mod_params_size d) (mod_blend_params d)
    (mod_default_blendop_params d) (mod_iop_order d) (mod_off d)
    (mod_write_input_hint d).

Definition set_mod_enabled (v : bool) (d : dt_iop_module_t) : dt_iop_module_t :=
  Build_module (mod_so d) (mod_op d) (mod_instance d) (mod_multi_priority d)
    (mod_multi_name d) (mod_multi_name_hand_edited d) v
    (mod_default_enabled d) (mod_hide_enable_button d) (mod_flags d)
    (mod_version d) (mod_params d) (mod_default_params d) (mod_params_size d)
    (mod_blend_params d) (mod_default_blendop_params d) (mod_iop_order d)
    (mod_off d) (mod_write_input_hint d).

Definition set_mod_params (v : bytes) (d : dt_iop_module_t) : dt_iop_module_t :=
  Build_module (mod_so d) (mod_op d) (mod_instance d) (mod_multi_priority d)
    (mod_multi_name d) (mod_multi_name_hand_edited d) (mod_enabled d)
    (mod_default_enabled d) (mod_hide_enable_button d) (mod_flags d)
    (mod_version d) v (mod_default_params d) (mod_params_size d)
    (mod_blend_params d) (mod_default_blendop_params d) (mod_iop_order d)
    (mod_off d) (mod_write_input_hint d).

Definition set_mod_blend_params (v : bytes) (d : dt_iop_module_t) : dt_iop_module_t :=
  Build_module (mod_so d) (mod_op d) (mod_instance d) (mod_multi_priority d)
    (mod_multi_name d) (mod_multi_name_hand_edited d) (mod_enabled d)
    (mod_default_enabled d) (mod_hide_enable_button d) (mod_flags d)
    (mod_version d) (mod_params d) (mod_default_params d) (mod_params_size d)
    v (mod_default_blendop_params d) (mod_iop_order d) (mod_off d)
    (mod_write_input_hint d).

Definition set_mod_iop_order (v : Z) (d : dt_iop_module_t) : dt_iop_module_t :=
  Build_module (mod_so d) (mod_op d) (mod_instance d) (mod_multi_priority d)
    (mod_multi_name d) (mod_multi_name_hand_edited d) (mod_enabled d)
    (mod_default_enabled d) (mod_hide_enable_button d) (mod_flags d)
    (mod_version d) (mod_params d) (mod_default_params d) (mod_params_size d)
    (mod_blend_params d) (mod_default_blendop_params d) v (mod_off d)
    (mod_write_input_hint d).

Definition set_mod_write_input_hint (v : bool) (d : dt_iop_module_t) : dt_iop_module_t :=
  Build_module (mod_so d) (mod_op d) (mod_instance d) (mod_multi_priority d)
    (mod_multi_name d) (mod_multi_name_hand_edited d) (mod_enabled d)
    (mod_default_enabled d) (mod_hide_enable_button d) (mod_flags d)
    (mod_version d) (mod_params d) (mod_default_params d) (mod_params_size d)
    (mod_blend_params d) (mod_default_blendop_params d) (mod_iop_order d)
    (mod_off d) v.

#[global] Instance module_inhabited : Inhabited dt_iop_module_t :=
  populate (Build_module 0%nat EmptyString 0 0 EmptyString false false false false 0 0 [] [] 0%nat
              [] [] 0 false false).

Record dt_dev_history_item_t := Build_history_item {
  hist_module : option nat;  (* module back-pointer, None is NULL *)
  hist_op_name : string;
  hist_num : Z;
  hist_focus_hash : Z;
  hist_enabled : bool;
  hist_params : bytes;
  hist_blend_params : bytes;
  hist_iop_order : Z;
  hist_multi_priority : Z;
  hist_multi_name : string;
  hist_multi_name_hand_edited : bool;
  hist_forms : list dt_masks_form_t  (* deep copy of the mask forms, nil is NULL *)
}.

(** An entry of the ordering list: (operation, instance-priority, rank). *)
Record dt_iop_order_entry_t := Build_order_entry {
  ord_operation : string;
  ord_instance : Z;
  ord_iop_order : Z
}.

(** A node of a pipeline. *)
Record dt_dev_pixelpipe_iop_t := Build_piece {
  piece_enabled : bool;
  piece_hash : Z
}.

(** What a finished render run publishes. *)
Record viewport_t := Build_viewport {
  view_scale : Q;
  view_zoom_x : Q;
  view_zoom_y : Q
}.

Record dt_dev_pixelpipe_t := Build_pixelpipe {
  pipe_changed : Z;  (* bitset of DT_DEV_PIPE_* flags *)
  pipe_input_timestamp : Z;
  pipe_shutdown : bool;  (* atomic shutdown request *)
  pipe_backbuf : option viewport_t;  (* back-buffer scale and zoom centre, None before the first publish *)
  pipe_iop : list nat;  (* modules of the pipe *)
  pipe_nodes : list dt_dev_pixelpipe_iop_t  (* pieces, aligned with pipe_iop *)
}.

Definition set_pipe_changed (v : Z) (d : dt_dev_pixelpipe_t) : dt_dev_pixelpipe_t :=
  Build_pixelpipe v (pipe_input_timestamp d) (pipe_shutdown d)
    (pipe_backbuf d) (pipe_iop d) (pipe_nodes d).

Definition set_pipe_input_timestamp (v : Z) (d : dt_dev_pixelpipe_t) : dt_dev_pixelpipe_t :=
  Build_pixelpipe (pipe_changed d) v (pipe_shutdown d) (pipe_backbuf d)
    (pipe_iop d) (pipe_nodes d).

Definition set_pipe_backbuf (v : option viewport_t) (d : dt_dev_pixelpipe_t) : dt_dev_pixelpipe_t :=
  Build_pixelpipe (pipe_changed d) (pipe_input_timestamp d) (pipe_shutdown d)
    v (pipe_iop d) (pipe_nodes d).

Record dt_image_t := Build_image {
  img_id : Z;
  img_flags : Z;
  img_change_timestamp : Z
}.

Definition set_img_flags (v : Z) (d : dt_image_t) : dt_image_t :=
  Build_image (img_id d) v (img_change_timestamp d).

Record dt_develop_t := Build_develop {
  dev_iop : list nat;  (* dev->iop, module addresses in pipeline order *)
  dev_store : gmap nat dt_iop_module_t;  (* memory holding the module structs *)
  dev_history : list dt_dev_history_item_t;
  dev_history_end : Z;
  dev_focus_hash : Z;
  dev_forms : list dt_masks_form_t;
  dev_iop_order_list : list dt_iop_order_entry_t;
  dev_pipe : dt_dev_pixelpipe_t;  (* full pipeline *)
  dev_preview_pipe : dt_dev_pixelpipe_t;
  dev_preview2_pipe : dt_dev_pixelpipe_t;  (* second window *)
  dev_image_storage : dt_image_t;
  dev_requested_id : Z;
  dev_image_loading : bool;
  dev_preview_loading : bool;
  dev_preview2_loading : bool;
  dev_preview_input_changed : bool;
  dev_preview2_input_changed : bool;
  dev_image_force_reload : bool;
  dev_image_status : dt_dev_pixelpipe_status_t;
  dev_preview_status : dt_dev_pixelpipe_status_t;
  dev_preview2_status : dt_dev_pixelpipe_status_t;
  dev_timestamp : Z;
  dev_image_invalid_cnt : Z;
  dev_autosaving : bool;
  dev_gui_attached : bool;
  dev_gui_leaving : bool;
  dev_gui_synch : bool;
  dev_second_window_widget : bool  (* second_window.widget is a live widget *)
}.

Definition set_dev_iop (v : list nat) (d : dt_develop_t) : dt_develop_t :=
  Build_develop v (dev_store d) (dev_history d) (dev_history_end d)
    (dev_focus_hash d) (dev_forms d) (dev_iop_order_list d) (dev_pipe d)
    (dev_preview_pipe d) (dev_preview2_pipe d) (dev_image_storage d)
    (dev_requested_id d) (dev_image_loading d) (dev_preview_loading d)
    (dev_preview2_loading d) (dev_preview_input_changed d)
    (dev_preview2_input_changed d) (dev_image_force_reload d)
    (dev_image_status d) (dev_preview_status d) (dev_preview2_status d)
    (dev_timestamp d) (dev_image_invalid_cnt d) (dev_autosaving d)
    (dev_gui_attached d) (dev_gui_leaving d) (dev_gui_synch d)
    (dev_second_window_widget d).

Definition set_dev_store (v : gmap nat dt_iop_module_t) (d : dt_develop_t) : dt_develop_t :=
  Build_develop (dev_iop d) v (dev_history d) (dev_history_end d)
    (dev_focus_hash d) (dev_forms d) (dev_iop_order_list d) (dev_pipe d)
    (dev_preview_pipe d) (dev_preview2_pipe d) (dev_image_storage d)
    (dev_requested_id d) (dev_image_loading d) (dev_preview_loading d)
    (dev_preview2_loading d) (dev_preview_input_changed d)
    (dev_preview2_input_changed d) (dev_image_force_reload d)
    (dev_image_status d) (dev_preview_status d) (dev_preview2_status d)
    (dev_timestamp d) (dev_image_invalid_cnt d) (dev_autosaving d)
    (dev_gui_attached d) (dev_gui_leaving d) (dev_gui_synch d)
    (dev_second_window_widget d).

Definition set_dev_history (v : list dt_dev_history_item_t) (d : dt_develop_t) : dt_develop_t :=
  Build_develop (dev_iop d) (dev_store d) v (dev_history_end d)
    (dev_focus_hash d) (dev_forms d) (dev_iop_order_list d) (dev_pipe d)
    (dev_preview_pipe d) (dev_preview2_pipe d) (dev_image_storage d)
    (dev_requested_id d) (dev_image_loading d) (dev_preview_loading d)
    (dev_preview2_loading d) (dev_preview_input_changed d)
    (dev_preview2_input_changed d) (dev_image_force_reload d)
    (dev_image_status d) (dev_preview_status d) (dev_preview2_status d)
    (dev_timestamp d) (dev_image_invalid_cnt d) (dev_autosaving d)
    (dev_gui_attached d) (dev_gui_leaving d) (dev_gui_synch d)
    (dev_second_window_widget d).

Definition set_dev_history_end (v : Z) (d : dt_develop_t) : dt_develop_t :=
  Build_develop (dev_iop d) (dev_store d) (dev_history d) v (dev_focus_hash d)
    (dev_forms d) (dev_iop_order_list d) (dev_pipe d) (dev_preview_pipe d)
    (dev_preview2_pipe d) (dev_image_storage d) (dev_requested_id d)
    (dev_image_loading d) (dev_preview_loading d) (dev_preview2_loading d)
    (dev_preview_input_changed d) (dev_preview2_input_changed d)
    (dev_image_force_reload d) (dev_image_status d) (dev_preview_status d)
    (dev_preview2_status d) (dev_timestamp d) (dev_image_invalid_cnt d)
    (dev_autosaving d) (dev_gui_attached d) (dev_gui_leaving d)
    (dev_gui_synch d) (dev_second_window_widget d).

Definition set_dev_forms (v : list dt_masks_form_t) (d : dt_develop_t) : dt_develop_t :=
  Build_develop (dev_iop d) (dev_store d) (dev_history d) (dev_history_end d)
    (dev_focus_hash d) v (dev_iop_order_list d) (dev_pipe d)
    (dev_preview_pipe d) (dev_preview2_pipe d) (dev_image_storage d)
    (dev_requested_id d) (dev_image_loading d) (dev_preview_loading d)
    (dev_preview2_loading d) (dev_preview_input_changed d)
    (dev_preview2_input_changed d) (dev_image_force_reload d)
    (dev_image_status d) (dev_preview_status d) (dev_preview2_status d)
    (dev_timestamp d) (dev_image_invalid_cnt d) (dev_autosaving d)
    (dev_gui_attached d) (dev_gui_leaving d) (dev_gui_synch d)
    (dev_second_window_widget d).

Definition set_dev_iop_order_list (v : list dt_iop_order_entry_t) (d : dt_develop_t) : dt_develop_t :=
  Build_develop (dev_iop d) (dev_store d) (dev_history d) (dev_history_end d)
    (dev_focus_hash d) (dev_forms d) v (dev_pipe d) (dev_preview_pipe d)
    (dev_preview2_pipe d) (dev_image_storage d) (dev_requested_id d)
    (dev_image_loading d) (dev_preview_loading d) (dev_preview2_loading d)
    (dev_preview_input_changed d) (dev_preview2_input_changed d)
    (dev_image_force_reload d) (dev_image_status d) (dev_preview_status d)
    (dev_preview2_status d) (dev_timestamp d) (dev_image_invalid_cnt d)
    (dev_autosaving d) (dev_gui_attached d) (dev_gui_leaving d)
    (dev_gui_synch d) (dev_second_window_widget d).

Definition set_dev_pipe (v : dt_dev_pixelpipe_t) (d : dt_develop_t) : dt_develop_t :=
  Build_develop (dev_iop d) (dev_store d) (dev_history d) (dev_history_end d)
    (dev_focus_hash d) (dev_forms d) (dev_iop_order_list d) v
    (dev_preview_pipe d) (dev_preview2_pipe d) (dev_image_storage d)
    (dev_requested_id d) (dev_image_loading d) (dev_preview_loading d)
    (dev_preview2_loading d) (dev_preview_input_changed d)
    (dev_preview2_input_changed d) (dev_image_force_reload d)
    (dev_image_status d) (dev_preview_status d) (dev_preview2_status d)
    (dev_timestamp d) (dev_image_invalid_cnt d) (dev_autosaving d)
    (dev_gui_attached d) (dev_gui_leaving d) (dev_gui_synch d)
    (dev_second_window_widget d).

Definition set_dev_preview_pipe (v : dt_dev_pixelpipe_t) (d : dt_develop_t) : dt_develop_t :=
  Build_develop (dev_iop d) (dev_store d) (dev_history d) (dev_history_end d)
    (dev_focus_hash d) (dev_forms d) (dev_iop_order_list d) (dev_pipe d) v
    (dev_preview2_pipe d) (dev_image_storage d) (dev_requested_id d)
    (dev_image_loading d) (dev_preview_loading d) (dev_preview2_loading d)
    (dev_preview_input_changed d) (dev_preview2_input_changed d)
    (dev_image_force_reload d) (dev_image_status d) (dev_preview_status d)
    (dev_preview2_status d) (dev_timestamp d) (dev_image_invalid_cnt d)
    (dev_autosaving d) (dev_gui_attached d) (dev_gui_leaving d)
    (dev_gui_synch d) (dev_second_window_widget d).

Definition set_dev_preview2_pipe (v : dt_dev_pixelpipe_t) (d : dt_develop_t) : dt_develop_t :=
  Build_develop (dev_iop d) (dev_store d) (dev_history d) (dev_history_end d)
    (dev_focus_hash d) (dev_forms d) (dev_iop_order_list d) (dev_pipe d)
    (dev_preview_pipe d) v (dev_image_storage d) (dev_requested_id d)
    (dev_image_loading d) (dev_preview_loading d) (dev_preview2_loading d)
    (dev_preview_input_changed d) (dev_preview2_input_changed d)
    (dev_image_force_reload d) (dev_image_status d) (dev_preview_status d)
    (dev_preview2_status d) (dev_timestamp d) (dev_image_invalid_cnt d)
    (dev_autosaving d) (dev_gui_attached d) (dev_gui_leaving d)
    (dev_gui_synch d) (dev_second_window_widget d).

Definition set_dev_image_loading (v : bool) (d : dt_develop_t) : dt_develop_t :=
  Build_develop (dev_iop d) (dev_store d) (dev_history d) (dev_history_end d)
    (dev_focus_hash d) (dev_forms d) (dev_iop_order_list d) (dev_pipe d)
    (dev_preview_pipe d) (dev_preview2_pipe d) (dev_image_storage d)
    (dev_requested_id d) v (dev_preview_loading d) (dev_preview2_loading d)
    (dev_preview_input_changed d) (dev_preview2_input_changed d)
    (dev_image_force_reload d) (dev_image_status d) (dev_preview_status d)
    (dev_preview2_status d) (dev_timestamp d) (dev_image_invalid_cnt d)
    (dev_autosaving d) (dev_gui_attached d) (dev_gui_leaving d)
    (dev_gui_synch d) (dev_second_window_widget d).

Definition set_dev_preview_loading (v : bool) (d : dt_develop_t) : dt_develop_t :=
  Build_develop (dev_iop d) (dev_store d) (dev_history d) (dev_history_end d)
    (dev_focus_hash d) (dev_forms d) (dev_iop_order_list d) (dev_pipe d)
    (dev_preview_pipe d) (dev_preview2_pipe d) (dev_image_storage d)
    (dev_requested_id d) (dev_image_loading d) v (dev_preview2_loading d)
    (dev_preview_input_changed d) (dev_preview2_input_changed d)
    (dev_image_force_reload d) (dev_image_status d) (dev_preview_status d)
    (dev_preview2_status d) (dev_timestamp d) (dev_image_invalid_cnt d)
    (dev_autosaving d) (dev_gui_attached d) (dev_gui_leaving d)
    (dev_gui_synch d) (dev_second_window_widget d).

Definition set_dev_preview2_loading (v : bool) (d : dt_develop_t) : dt_develop_t :=
  Build_develop (dev_iop d) (dev_store d) (dev_history d) (dev_history_end d)
    (dev_focus_hash d) (dev_forms d) (dev_iop_order_list d) (dev_pipe d)
    (dev_preview_pipe d) (dev_preview2_pipe d) (dev_image_storage d)
    (dev_requested_id d) (dev_image_loading d) (dev_preview_loading d) v
    (dev_preview_input_changed d) (dev_preview2_input_changed d)
    (dev_image_force_reload d) (dev_image_status d) (dev_preview_status d)
    (dev_preview2_status d) (dev_timestamp d) (dev_image_invalid_cnt d)
    (dev_autosaving d) (dev_gui_attached d) (dev_gui_leaving d)
    (dev_gui_synch d) (dev_second_window_widget d).

Definition set_dev_preview_input_changed (v : bool) (d : dt_develop_t) : dt_develop_t :=
  Build_develop (dev_iop d) (dev_store d) (dev_history d) (dev_history_end d)
    (dev_focus_hash d) (dev_forms d) (dev_iop_order_list d) (dev_pipe d)
    (dev_preview_pipe d) (dev_preview2_pipe d) (dev_image_storage d)
    (dev_requested_id d) (dev_image_loading d) (dev_preview_loading d)
    (dev_preview2_loading d) v (dev_preview2_input_changed d)
    (dev_image_force_reload d) (dev_image_status d) (dev_preview_status d)
    (dev_preview2_status d) (dev_timestamp d) (dev_image_invalid_cnt d)
    (dev_autosaving d) (dev_gui_attached d) (dev_gui_leaving d)
    (dev_gui_synch d) (dev_second_window_widget d).

Definition set_dev_preview2_input_changed (v : bool) (d : dt_develop_t) : dt_develop_t :=
  Build_develop (dev_iop d) (dev_store d) (dev_history d) (dev_history_end d)
    (dev_focus_hash d) (dev_forms d) (dev_iop_order_list d) (dev_pipe d)
    (dev_preview_pipe d) (dev_preview2_pipe d) (dev_image_storage d)
    (dev_requested_id d) (dev_image_loading d) (dev_preview_loading d)
    (dev_preview2_loading d) (dev_preview_input_changed d) v
    (dev_image_force_reload d) (dev_image_status d) (dev_preview_status d)
    (dev_preview2_status d) (dev_timestamp d) (dev_image_invalid_cnt d)
    (dev_autosaving d) (dev_gui_attached d) (dev_gui_leaving d)
    (dev_gui_synch d) (dev_second_window_widget d).

Definition set_dev_image_force_reload (v : bool) (d : dt_develop_t) : dt_develop_t :=
  Build_develop (dev_iop d) (dev_store d) (dev_history d) (dev_history_end d)
    (dev_focus_hash d) (dev_forms d) (dev_iop_order_list d) (dev_pipe d)
    (dev_preview_pipe d) (dev_preview2_pipe d) (dev_image_storage d)
    (dev_requested_id d) (dev_image_loading d) (dev_preview_loading d)
    (dev_preview2_loading d) (dev_preview_input_changed d)
    (dev_preview2_input_changed d) v (dev_image_status d)
    (dev_preview_status d) (dev_preview2_status d) (dev_timestamp d)
    (dev_image_invalid_cnt d) (dev_autosaving d) (dev_gui_attached d)
    (dev_gui_leaving d) (dev_gui_synch d) (dev_second_window_widget d).

Definition set_dev_image_status (v : dt_dev_pixelpipe_status_t) (d : dt_develop_t) : dt_develop_t :=
  Build_develop (dev_iop d) (dev_store d) (dev_history d) (dev_history_end d)
    (dev_focus_hash d) (dev_forms d) (dev_iop_order_list d) (dev_pipe d)
    (dev_preview_pipe d) (dev_preview2_pipe d) (dev_image_storage d)
    (dev_requested_id d) (dev_image_loading d) (dev_preview_loading d)
    (dev_preview2_loading d) (dev_preview_input_changed d)
    (dev_preview2_input_changed d) (dev_image_force_reload d) v
    (dev_preview_status d) (dev_preview2_status d) (dev_timestamp d)
    (dev_image_invalid_cnt d) (dev_autosaving d) (dev_gui_attached d)
    (dev_gui_leaving d) (dev_gui_synch d) (dev_second_window_widget d).

Definition set_dev_preview_status (v : dt_dev_pixelpipe_status_t) (d : dt_develop_t) : dt_develop_t :=
  Build_develop (dev_iop d) (dev_store d) (dev_history d) (dev_history_end d)
    (dev_focus_hash d) (dev_forms d) (dev_iop_order_list d) (dev_pipe d)
    (dev_preview_pipe d) (dev_preview2_pipe d) (dev_image_storage d)
    (dev_requested_id d) (dev_image_loading d) (dev_preview_loading d)
    (dev_preview2_loading d) (dev_preview_input_changed d)
    (dev_preview2_input_changed d) (dev_image_force_reload d)
    (dev_image_status d) v (dev_preview2_status d) (dev_timestamp d)
    (dev_image_invalid_cnt d) (dev_autosaving d) (dev_gui_attached d)
    (dev_gui_leaving d) (dev_gui_synch d) (dev_second_window_widget d).

Definition set_dev_preview2_status (v : dt_dev_pixelpipe_status_t) (d : dt_develop_t) : dt_develop_t :=
  Build_develop (dev_iop d) (dev_store d) (dev_history d) (dev_history_end d)
    (dev_focus_hash d) (dev_forms d) (dev_iop_order_list d) (dev_pipe d)
    (dev_preview_pipe d) (dev_preview2_pipe d) (dev_image_storage d)
    (dev_requested_id d) (dev_image_loading d) (dev_preview_loading d)
    (dev_preview2_loading d) (dev_preview_input_changed d)
    (dev_preview2_input_changed d) (dev_image_force_reload d)
    (dev_image_status d) (dev_preview_status d) v (dev_timestamp d)
    (dev_image_invalid_cnt d) (dev_autosaving d) (dev_gui_attached d)
    (dev_gui_leaving d) (dev_gui_synch d) (dev_second_window_widget d).

Definition set_dev_timestamp (v : Z) (d : dt_develop_t) : dt_develop_t :=
  Build_develop (dev_iop d) (dev_store d) (dev_history d) (dev_history_end d)
    (dev_focus_hash d) (dev_forms d) (dev_iop_order_list d) (dev_pipe d)
    (dev_preview_pipe d) (dev_preview2_pipe d) (dev_image_storage d)
    (dev_requested_id d) (dev_image_loading d) (dev_preview_loading d)
    (dev_preview2_loading d) (dev_preview_input_changed d)
    (dev_preview2_input_changed d) (dev_image_force_reload d)
    (dev_image_status d) (dev_preview_status d) (dev_preview2_status d) v
    (dev_image_invalid_cnt d) (dev_autosaving d) (dev_gui_attached d)
    (dev_gui_leaving d) (dev_gui_synch d) (dev_second_window_widget d).

Definition set_dev_image_invalid_cnt (v : Z) (d : dt_develop_t) : dt_develop_t :=
  Build_develop (dev_iop d) (dev_store d) (dev_history d) (dev_history_end d)
    (dev_focus_hash d) (dev_forms d) (dev_iop_order_list d) (dev_pipe d)
    (dev_preview_pipe d) (dev_preview2_pipe d) (dev_image_storage d)
    (dev_requested_id d) (dev_image_loading d) (dev_preview_loading d)
    (dev_preview2_loading d) (dev_preview_input_changed d)
    (dev_preview2_input_changed d) (dev_image_force_reload d)
    (dev_image_status d) (dev_preview_status d) (dev_preview2_status d)
    (dev_timestamp d) v (dev_autosaving d) (dev_gui_attached d)
    (dev_gui_leaving d) (dev_gui_synch d) (dev_second_window_widget d).

Definition set_dev_autosaving (v : bool) (d : dt_develop_t) : dt_develop_t :=
  Build_develop (dev_iop d) (dev_store d) (dev_history d) (dev_history_end d)
    (dev_focus_hash d) (dev_forms d) (dev_iop_order_list d) (dev_pipe d)
    (dev_preview_pipe d) (dev_preview2_pipe d) (dev_image_storage d)
    (dev_requested_id d) (dev_image_loading d) (dev_preview_loading d)
    (dev_preview2_loading d) (dev_preview_input_changed d)
    (dev_preview2_input_changed d) (dev_image_force_reload d)
    (dev_image_status d) (dev_preview_status d) (dev_preview2_status d)
    (dev_timestamp d) (dev_image_invalid_cnt d) v (dev_gui_attached d)
    (dev_gui_leaving d) (dev_gui_synch d) (dev_second_window_widget d).

Definition set_dev_gui_synch (v : bool) (d : dt_develop_t) : dt_develop_t :=
  Build_develop (dev_iop d) (dev_store d) (dev_history d) (dev_history_end d)
    (dev_focus_hash d) (dev_forms d) (dev_iop_order_list d) (dev_pipe d)
    (dev_preview_pipe d) (dev_preview2_pipe d) (dev_image_storage d)
    (dev_requested_id d) (dev_image_loading d) (dev_preview_loading d)
    (dev_preview2_loading d) (dev_preview_input_changed d)
    (dev_preview2_input_changed d) (dev_image_force_reload d)
    (dev_image_status d) (dev_preview_status d) (dev_preview2_status d)
    (dev_timestamp d) (dev_image_invalid_cnt d) (dev_autosaving d)
    (dev_gui_attached d) (dev_gui_leaving d) v (dev_second_window_widget d).

Definition set_dev_gui_leaving (v : bool) (d : dt_develop_t) : dt_develop_t :=
  Build_develop (dev_iop d) (dev_store d) (dev_history d) (dev_history_end d)
    (dev_focus_hash d) (dev_forms d) (dev_iop_order_list d) (dev_pipe d)
    (dev_preview_pipe d) (dev_preview2_pipe d) (dev_image_storage d)
    (dev_requested_id d) (dev_image_loading d) (dev_preview_loading d)
    (dev_preview2_loading d) (dev_preview_input_changed d)
    (dev_preview2_input_changed d) (dev_image_force_reload d)
    (dev_image_status d) (dev_preview_status d) (dev_preview2_status d)
    (dev_timestamp d) (dev_image_invalid_cnt d) (dev_autosaving d)
    (dev_gui_attached d) v (dev_gui_synch d) (dev_second_window_widget d).

(** A row of [main.history] / [memory.history]; [None] is SQL [NULL]. *)
Record db_row := Build_row {
  row_imgid : Z;
  row_num : Z;
  row_module : Z;  (* schema version of the parameters *)
  row_operation : option string;
  row_op_params : bytes;
  row_enabled : Z;
  row_blendop_params : option bytes;
  row_blendop_version : Z;
  row_multi_priority : Z;
  row_multi_name : option string;
  row_multi_name_hand_edited : Z
}.

(** Calls into services outside the develop engine that only matter as
    observable effects. *)
Inductive event :=
| EvWriteHistory (imgid : Z)      (* dt_dev_write_history *)
| EvWriteSidecar (imgid : Z)      (* dt_image_write_sidecar_file *)
| EvControlLog (msg : string)     (* dt_control_log *)
| EvRedrawCenter                  (* dt_control_queue_redraw_center *)
| EvSignal (name : string).       (* DT_DEBUG_CONTROL_SIGNAL_RAISE *)

#[global] Instance event_eq_decision : EqDecision event.
Proof. solve_decision. Defined.

(** The process-wide state ([darktable.*], the database, function statics)
    that the develop engine reads and writes. *)
Record darktable_t := Build_darktable {
  dt_image_cache : dt_image_t;        (* cache entry of the edited image *)
  dt_main_history : list db_row;      (* main.history of the image, by num *)
  dt_memory_history : list db_row;    (* memory.history *)
  dt_images_history_end : Z;          (* main.images.history_end *)
  dt_autosave_last : Q;               (* static [last] of _dev_auto_save *)
  dt_events : list event              (* effects, oldest first *)
}.

Definition set_dt_image_cache (v : dt_image_t) (g : darktable_t) : darktable_t :=
  Build_darktable v (dt_main_history g) (dt_memory_history g)
    (dt_images_history_end g) (dt_autosave_last g) (dt_events g).

Definition set_dt_main_history (v : list db_row) (g : darktable_t) : darktable_t :=
  Build_darktable (dt_image_cache g) v (dt_memory_history g)
    (dt_images_history_end g) (dt_autosave_last g) (dt_events g).

Definition set_dt_memory_history (v : list db_row) (g : darktable_t) : darktable_t :=
  Build_darktable (dt_image_cache g) (dt_main_history g) v
    (dt_images_history_end g) (dt_autosave_last g) (dt_events g).

Definition set_dt_autosave_last (v : Q) (g : darktable_t) : darktable_t :=
  Build_darktable (dt_image_cache g) (dt_main_history g) (dt_memory_history g)
    (dt_images_history_end g) v (dt_events g).

Definition emit (e : event) (g : darktable_t) : darktable_t :=
  Build_darktable (dt_image_cache g) (dt_main_history g) (dt_memory_history g)
    (dt_images_history_end g) (dt_autosave_last g) (dt_events g ++ [e]).

(** The three pipelines of a develop state. *)
Inductive pipe_kind := Full | Preview | Secondary.

Definition dev_pipe_of (k : pipe_kind) (dev : dt_develop_t) : dt_dev_pixelpipe_t :=
  match k with
  | Full => dev_pipe dev
  | Preview => dev_preview_pipe dev
  | Secondary => dev_preview2_pipe dev
  end.

Definition dev_status_of (k : pipe_kind) (dev : dt_develop_t)
  : dt_dev_pixelpipe_status_t :=
  match k with
  | Full => dev_image_status dev
  | Preview => dev_preview_status dev
  | Secondary => dev_preview2_status dev
  end.

(** ** Functions of the code base outside [develop.c] *)

Record externals := Build_externals {
  (* common/image.h, control/conf.h *)
  dt_is_valid_imgid : Z -> bool;
  conf_autosave_interval : Z;
  conf_auto_module_name_update : bool;
  conf_workflow : string;
  dt_is_scene_referred : bool;
  dt_is_display_referred : bool;
  dt_image_is_raw : dt_image_t -> bool;
  dt_image_is_hdr : dt_image_t -> bool;
  dt_image_is_matrix_correction_supported : dt_image_t -> bool;
  dt_image_monochrome_flags : dt_image_t -> bool;
  (* develop/imageop.c, develop/blend.c *)
  blend_params_size : nat;    (* sizeof(dt_develop_blend_params_t) *)
  dt_develop_blend_version : Z;
  dt_iop_is_hidden : dt_iop_module_t -> bool;
  dt_iop_load_module : nat -> option dt_iop_module_t;  (* by so; None on failure *)
  dt_iop_reload_defaults : string -> dt_iop_module_t -> dt_iop_module_t;
  dt_iop_legacy_params :
    dt_iop_module_t -> bytes -> Z -> option bytes;     (* None: returns 1 *)
  dt_develop_blend_legacy_params :
    dt_iop_module_t -> bytes -> Z -> option bytes;     (* None: non-zero *)
  (* gui/presets.c *)
  dt_presets_get_module_label :
    string -> bytes -> nat -> bool -> bytes -> option string;
  (* the auto-apply INSERT ... SELECT of _dev_auto_apply_presets, as a
     transformer of memory.history: image, format, excluded, legacy table *)
  sql_insert_auto_presets :
    dt_image_t -> Z -> Z -> bool -> list db_row -> list db_row;
  dt_history_check_module_exists : darktable_t -> Z -> string -> bool;
  (* common/iop_order.c *)
  dt_ioppr_get_iop_order : list dt_iop_order_entry_t -> string -> Z -> Z;
  dt_ioppr_resync_modules_order : dt_develop_t -> dt_develop_t;
  dt_ioppr_check_duplicate_iop_order : dt_develop_t -> dt_develop_t;
  dt_ioppr_insert_module_instance :
    dt_develop_t -> dt_iop_module_t -> dt_develop_t * Z;  (* and the new rank *)
  dt_ioppr_move_iop_after : dt_develop_t -> nat -> nat -> bool * dt_develop_t;
  dt_ioppr_set_default_iop_order : dt_develop_t -> dt_develop_t;
  dt_ioppr_auto_apply_order : dt_develop_t -> dt_develop_t;
  dt_sort_iop_by_order : dt_iop_module_t -> dt_iop_module_t -> Z;
  (* develop/pixelpipe_hb.c; the develop state returned by
     dt_dev_pixelpipe_process also carries what other threads did to it
     while the call ran *)
  dt_dev_pixelpipe_change : pipe_kind -> dt_develop_t -> dt_develop_t;
  dt_dev_pixelpipe_process : pipe_kind -> dt_develop_t -> bool * dt_develop_t;
  dt_mipmap_cache_get : pipe_kind -> dt_develop_t -> bool;  (* buf.buf != NULL *)
  dt_current_viewport : pipe_kind -> dt_develop_t -> viewport_t
}.

Definition INT_MAX : Z := 2147483647.
Definition INT_MIN : Z := -2147483648.

(** [a + b] on [int]: the sum is defined when it lies within the range. *)
Definition int_add (a b : Z) : option Z :=
  let r := a + b in
  if (INT_MIN <=? r) && (r <=? INT_MAX) then Some r else None.

(** Modelled from the spec: [dt_iop_commit_blend_params] (develop/blend.c is
    missing) installs the given blend parameters as the live blend parameters
    of the module. *)
Definition dt_iop_commit_blend_params (m : dt_iop_module_t) (bp : bytes)
  : dt_iop_module_t :=
  set_mod_blend_params bp m.

(** Modelled from the spec: [dt_iop_update_multi_priority] (develop/imageop.c
    is missing) sets the instance-priority of a module. *)
Definition dt_iop_update_multi_priority (m : dt_iop_module_t) (p : Z)
  : dt_iop_module_t :=
  set_mod_multi_priority p m.

(** Modelled from the spec: [dt_dev_pixelpipe_rebuild]
    (develop/pixelpipe_hb.c is missing) schedules a [REMOVE] rebuild of the
    three pipelines. *)
Definition or_changed (flag : Z) (p : dt_dev_pixelpipe_t) : dt_dev_pixelpipe_t :=
  set_pipe_changed (Z.lor (pipe_changed p) flag) p.

Definition or_changed_all (flag : Z) (dev : dt_develop_t) : dt_develop_t :=
  set_dev_pipe (or_changed flag (dev_pipe dev))
    (set_dev_preview_pipe (or_changed flag (dev_preview_pipe dev))
       (set_dev_preview2_pipe (or_changed flag (dev_preview2_pipe dev)) dev)).

Definition dt_dev_pixelpipe_rebuild (dev : dt_develop_t) : dt_develop_t :=
  or_changed_all DT_DEV_PIPE_REMOVE dev.

(** Modelled from the spec: the ordering code (common/iop_order.c is missing)
    owns the ordering list, the order of [dev->iop] and the rank of each
    module struct; the rest of a develop state is out of its reach.  [f] is
    the function of that file, [ordering_effect f] what it does to a develop
    state. *)
Definition ordering_effect (f : dt_develop_t -> dt_develop_t)
    (dev : dt_develop_t) : dt_develop_t :=
  let r := f dev in
  let rank a m :=
    match dev_store r !! a with
    | Some m' => mod_iop_order m'
    | None => mod_iop_order m
    end in
  set_dev_iop (dev_iop r)
    (set_dev_iop_order_list (dev_iop_order_list r)
       (set_dev_store
          (map_imap (fun a m => Some (set_mod_iop_order (rank a m) m))
             (dev_store dev)) dev)).

(** Modelled from the spec: [dt_masks_replace_current_forms] (develop/masks.c
    is missing) refreshes the current mask list from the given forms. *)
Definition dt_masks_replace_current_forms (dev : dt_develop_t)
    (forms : list dt_masks_form_t) : dt_develop_t :=
  set_dev_forms forms dev.

(** Modelled from the spec: reloading the defaults of a module instance
    (develop/imageop.c is missing) recomputes what depends on the image, the
    default parameter blobs, [default_enabled], [hide_enable_button] and the
    live state of the instance; what identifies the instance and its type
    ([so], [op], [instance], [multi_priority], [flags()], [version()],
    [params_size]) stays.  [workflow] is the value of
    [plugins/darkroom/workflow] in force during the call. *)
Definition reload_defaults (X : externals) (workflow : string)
    (m : dt_iop_module_t) : dt_iop_module_t :=
  let r := dt_iop_reload_defaults X workflow m in
  Build_module (mod_so m) (mod_op m) (mod_instance m) (mod_multi_priority m)
    (mod_multi_name r) (mod_multi_name_hand_edited r) (mod_enabled r)
    (mod_default_enabled r) (mod_hide_enable_button r) (mod_flags m)
    (mod_version m) (mod_params r) (mod_default_params r) (mod_params_size m)
    (mod_blend_params r) (mod_default_blendop_params r) (mod_iop_order r)
    (mod_off r) (mod_write_input_hint r).

(** [*p] for a module address, and for a possibly-[NULL] back-pointer. *)
Definition deref (dev : dt_develop_t) (p : option nat) : option dt_iop_module_t :=
  a ← p; dev_store dev !! a.

Definition store_module (a : nat) (m : dt_iop_module_t) (dev : dt_develop_t)
  : dt_develop_t :=
  set_dev_store (<[a := m]> (dev_store dev)) dev.

Definition malloc (n : nat) : bytes := replicate n x00.

(** ** Invalidation *)

(** [dt_dev_invalidate_all] *)
Definition dt_dev_invalidate_all (dev : dt_develop_t) : dt_develop_t :=
  set_dev_timestamp (dev_timestamp dev + 1)
    (set_dev_image_status DT_DEV_PIXELPIPE_DIRTY
       (set_dev_preview_status DT_DEV_PIXELPIPE_DIRTY
          (set_dev_preview2_status DT_DEV_PIXELPIPE_DIRTY dev))).

(** ** Autosave *)

Definition Qlt_bool (a b : Q) : bool := negb (Qle_bool b a).

(** The condition [saving] computed by [_dev_auto_save]; [now] is the value
    read from the wall clock on entry. *)
Definition auto_save_due (X : externals) (dev : dt_develop_t) (g : darktable_t)
    (now : Q) : bool :=
  let user_delay := inject_Z (conf_autosave_interval X) in
  let imgid := img_id (dev_image_storage dev) in
  Qle_bool 1%Q user_delay
  && Qlt_bool user_delay (now - dt_autosave_last g)%Q
  && negb (dev_image_loading dev)
  && (dev_requested_id dev =? imgid)
  && dt_is_valid_imgid X imgid.

Definition slow_drive_notice : string :=
  "autosaving history has been disabled for this session because of a slow drive used".

(** [_dev_auto_save]; [now] and [now_after] are the two readings of
    [dt_get_wtime()], before and after the write. *)
Definition _dev_auto_save (X : externals) (dev : dt_develop_t) (g : darktable_t)
    (now now_after : Q) : dt_develop_t * darktable_t :=
  if auto_save_due X dev g now then
    let imgid := img_id (dev_image_storage dev) in
    let g1 := emit (EvWriteSidecar imgid) (emit (EvWriteHistory imgid) g) in
    let g2 := set_dt_autosave_last now g1 in
    let spent := (now_after - now)%Q in
    if Qlt_bool (1 # 2)%Q spent
    then (set_dev_autosaving false dev, emit (EvControlLog slow_drive_notice) g2)
    else (dev, g2)
  else (dev, g).

(** ** Appending to the history stack *)

(** [_dev_auto_module_label]: the update of the GUI header is not modelled. *)
Definition _dev_auto_module_label (X : externals) (m : dt_iop_module_t)
  : dt_iop_module_t :=
  if negb (dt_iop_is_hidden X m)
     && negb (mod_multi_name_hand_edited m)
     && conf_auto_module_name_update X
  then
    let is_default_params :=
      negb (memcmp (mod_params m) (mod_default_params m) (mod_params_size m)) in
    match dt_presets_get_module_label X (mod_op m) (mod_params m)
            (mod_params_size m) is_default_params (mod_blend_params m) with
    | Some preset_name => set_mod_multi_name preset_name m
    | None =>
        if negb (mod_multi_priority m =? 0)
        then set_mod_multi_name (pretty (mod_multi_priority m)) m
        else set_mod_multi_name EmptyString m
    end
  else m.

(** The inner loop of the clean-up in [_dev_add_history_item_ext]: walk from
    the node at [history_end - 1] towards the head and stop at the first entry
    whose module has the shared object [so]. *)
Fixpoint earlier_entry (dev : dt_develop_t) (prior : list dt_dev_history_item_t)
    (so : nat) : option bool :=
  match prior with
  | [] => Some false
  | prior_hist :: prev =>
      pm ← deref dev (hist_module prior_hist);
      if bool_decide (mod_so pm = so) then Some true
      else earlier_entry dev prev so
  end.

(** The nodes visited by that walk, nearest first. *)
Definition prior_entries (history : list dt_dev_history_item_t) (history_end : Z)
  : list dt_dev_history_item_t :=
  match g_list_nth history (history_end - 1) with
  | [] => []
  | _ :: _ => reverse (take (Z.to_nat history_end) history)
  end.

(** The outer loop: [done] are the nodes before the cursor, [rest] the cursor
    and what follows it; [dev->history] is [done ++ rest] throughout.  Returns
    the new [dev->history] and [kept_module]. *)
Fixpoint drop_obsolete (dev : dt_develop_t) (history_end : Z)
    (done rest : list dt_dev_history_item_t) (kept_module : Z)
  : option (list dt_dev_history_item_t * Z) :=
  match rest with
  | [] => Some (done, kept_module)
  | hist :: next =>
      hm ← deref dev (hist_module hist);
      earlier ← earlier_entry dev (prior_entries (done ++ rest) history_end)
                  (mod_so hm);
      if (negb (mod_hide_enable_button hm) && negb (mod_default_enabled hm))
         || earlier
      then drop_obsolete dev history_end done next kept_module
      else drop_obsolete dev history_end (done ++ [hist]) next (kept_module + 1)
  end.

(** [while((dev->history_end>0) && (! g_list_nth(...))) dev->history_end--;] *)
Fixpoint remove_nil_items (fuel : nat) (history : list dt_dev_history_item_t)
    (history_end : Z) : Z :=
  match fuel with
  | O => history_end
  | S fuel' =>
      match g_list_nth history (history_end - 1) with
      | [] => if 0 <? history_end
              then remove_nil_items fuel' history (history_end - 1)
              else history_end
      | _ :: _ => history_end
      end
  end.

(** The first part of [_dev_add_history_item_ext]: obsolete items above
    [history_end] are removed and [history_end] is moved. *)
Definition cleanup_history_top (dev : dt_develop_t) : option dt_develop_t :=
  let history := dev_history dev in
  let rest := g_list_nth history (dev_history_end dev) in
  let done := take (length history - length rest)%nat history in
  '(history', kept_module) ← drop_obsolete dev (dev_history_end dev) done rest 0;
  let history_end' :=
    remove_nil_items (Z.to_nat (dev_history_end dev)) history'
      (dev_history_end dev) in
  Some (set_dev_history history'
          (set_dev_history_end (history_end' + kept_module) dev)).

(** The test that decides between pushing a new item and updating the top
    one.  [hist] is the node at [history_end - 1]; the disjunction is
    evaluated left to right, so the fields of [hist->module] are read only when
    [hist->module == module], and then they are the fields of [m]. *)
Definition needs_new_item (dev : dt_develop_t) (module : nat)
    (m : dt_iop_module_t) (new_item include_masks : bool)
    (hist : dt_dev_history_item_t) : bool :=
  new_item
  || negb (bool_decide (hist_module hist = Some module))
  || (let hm := m in
      negb (mod_instance m =? mod_instance hm)
      || negb (mod_multi_priority m =? mod_multi_priority hm)
      || (negb (dev_focus_hash dev =? hist_focus_hash hist)
          && (negb (bool_decide (mod_params_size m = mod_params_size hm))
              || include_masks
              || (bool_decide (mod_params_size m = mod_params_size hm)
                  && memcmp (hist_params hist) (mod_params m)
                       (mod_params_size m))))).

(** The item built by the "push new item" branch. *)
Definition new_history_item (X : externals) (dev : dt_develop_t) (module : nat)
    (m : dt_iop_module_t) (include_masks : bool) : dt_dev_history_item_t :=
  Build_history_item (Some module) (mod_op m) 0 (dev_focus_hash dev)
    (mod_enabled m)
    (memcpy (malloc (mod_params_size m)) (mod_params m) (mod_params_size m))
    (memcpy (malloc (blend_params_size X)) (mod_blend_params m)
       (blend_params_size X))
    (mod_iop_order m) (mod_multi_priority m) (mod_multi_name m)
    (mod_multi_name_hand_edited m)
    (if include_masks then dev_forms dev else []).

(** The item left by the "same operation, change params" branch. *)
Definition updated_history_item (X : externals) (dev : dt_develop_t)
    (m : dt_iop_module_t) (include_masks : bool) (hist : dt_dev_history_item_t)
  : dt_dev_history_item_t :=
  Build_history_item (hist_module hist) (hist_op_name hist) (hist_num hist)
    (hist_focus_hash hist) (mod_enabled m)
    (memcpy (hist_params hist) (mod_params m) (mod_params_size m))
    (if has_flag (mod_flags m) IOP_FLAGS_SUPPORTS_BLENDING
     then memcpy (hist_blend_params hist) (mod_blend_params m)
            (blend_params_size X)
     else hist_blend_params hist)
    (mod_iop_order m) (mod_multi_priority m) (mod_multi_name m)
    (mod_multi_name_hand_edited m)
    (if include_masks then dev_forms dev else hist_forms hist).

(** The second part of [_dev_add_history_item_ext], from the enabling of the
    module to the write-input hint. *)
Definition push_or_update (X : externals) (dev : dt_develop_t) (module : nat)
    (enable new_item no_image include_masks : bool) : option dt_develop_t :=
  m0 ← dev_store dev !! module;
  let history := g_list_nth (dev_history dev) (dev_history_end dev - 1) in
  let m := if enable then set_mod_enabled true m0 else m0 in
  let dev := store_module module m dev in
  let push :=
    let dev1 :=
      set_dev_history
        (dev_history dev ++ [new_history_item X dev module m include_masks])
        (set_dev_history_end (dev_history_end dev + 1) dev) in
    if no_image then dev1 else or_changed_all DT_DEV_PIPE_SYNCH dev1 in
  let dev2 :=
    match history with
    | [] => push
    | hist :: _ =>
        if needs_new_item dev module m new_item include_masks hist then push
        else
          let dev1 :=
            set_dev_history
              (<[Z.to_nat (dev_history_end dev - 1) :=
                   updated_history_item X dev m include_masks hist]>
                 (dev_history dev)) dev in
          if no_image then dev1 else or_changed_all DT_DEV_PIPE_TOP_CHANGED dev1
    end in
  Some (if mod_enabled m && negb no_image
        then store_module module (set_mod_write_input_hint true m) dev2
        else dev2).

(** [_dev_add_history_item_ext] *)
Definition _dev_add_history_item_ext (X : externals) (dev : dt_develop_t)
    (g : darktable_t) (module : nat)
    (enable new_item no_image include_masks auto_name_module : bool)
    (now now_after : Q) : option (dt_develop_t * darktable_t) :=
  m0 ← dev_store dev !! module;
  let dev :=
    if auto_name_module
    then store_module module (_dev_auto_module_label X m0) dev
    else dev in
  dev1 ← cleanup_history_top dev;
  dev2 ← push_or_update X dev1 module enable new_item no_image include_masks;
  Some (if dev_autosaving dev2 then _dev_auto_save X dev2 g now now_after
        else (dev2, g)).

(** [dt_dev_add_history_item_ext] *)
Definition dt_dev_add_history_item_ext (X : externals) (dev : dt_develop_t)
    (g : darktable_t) (module : nat) (enable no_image : bool)
    (now now_after : Q) : option (dt_develop_t * darktable_t) :=
  _dev_add_history_item_ext X dev g module enable false no_image false true
    now now_after.

(** ** Popping the history stack *)

(** Body of the first loop of [dt_dev_pop_history_items_ext]. *)
Definition reset_module (X : externals) (dev : dt_develop_t)
    (m : dt_iop_module_t) : dt_iop_module_t :=
  let m1 :=
    set_mod_params
      (memcpy (mod_params m) (mod_default_params m) (mod_params_size m)) m in
  let m2 := dt_iop_commit_blend_params m1 (mod_default_blendop_params m1) in
  let m3 := set_mod_enabled (mod_default_enabled m2) m2 in
  if mod_multi_priority m3 =? 0
  then set_mod_iop_order
         (dt_ioppr_get_iop_order X (dev_iop_order_list dev) (mod_op m3)
            (mod_multi_priority m3)) m3
  else set_mod_iop_order INT_MAX m3.

(** "reset gui params for all modules" *)
Fixpoint reset_modules (X : externals) (dev : dt_develop_t) (modules : list nat)
  : option dt_develop_t :=
  match modules with
  | [] => Some dev
  | a :: next =>
      m ← dev_store dev !! a;
      reset_modules X (store_module a (reset_module X dev m) dev) next
  end.

(** Body of the second loop: what one history item writes into its module. *)
Definition replay_item (hist : dt_dev_history_item_t) (m : dt_iop_module_t)
  : dt_iop_module_t :=
  let m1 :=
    if bool_decide (mod_params_size m = 0%nat)
    then set_mod_params
           (memcpy (mod_params m) (mod_default_params m) (mod_params_size m)) m
    else set_mod_params
           (memcpy (mod_params m) (hist_params hist) (mod_params_size m)) m in
  let m2 := dt_iop_commit_blend_params m1 (hist_blend_params hist) in
  let m3 := set_mod_iop_order (hist_iop_order hist) m2 in
  let m4 := set_mod_enabled (hist_enabled hist) m3 in
  let m5 := set_mod_multi_name (hist_multi_name hist) m4 in
  set_mod_multi_name_hand_edited (hist_multi_name_hand_edited hist) m5.

(** "go through history and set gui params":
    [for(int i = 0; i < cnt && history; i++)]; [forms] is the last non-[NULL]
    form list met. *)
Fixpoint replay_history (dev : dt_develop_t)
    (history : list dt_dev_history_item_t) (i cnt : Z)
    (forms : list dt_masks_form_t)
  : option (dt_develop_t * list dt_masks_form_t) :=
  match history with
  | [] => Some (dev, forms)
  | hist :: next =>
      if i <? cnt then
        a ← hist_module hist;
        m ← dev_store dev !! a;
        replay_history (store_module a (replay_item hist m) dev) next (i + 1) cnt
          (match hist_forms hist with [] => forms | _ :: _ => hist_forms hist end)
      else Some (dev, forms)
  end.

(** The part of [dt_dev_pop_history_items_ext] that precedes the resync of
    the ordering. *)
Definition pop_reset_and_replay (X : externals) (dev : dt_develop_t) (cnt : Z)
  : option (dt_develop_t * list dt_masks_form_t) :=
  let dev0 := set_dev_history_end cnt dev in
  dev1 ← reset_modules X dev0 (dev_iop dev0);
  replay_history dev1 (dev_history dev1) 0 cnt [].

(** "check if masks have changed": [i] runs from [MIN(cnt, end_prev)] to
    [MAX(cnt, end_prev)]. *)
Fixpoint masks_changed_loop (history : list dt_dev_history_item_t) (i hi : Z)
  : bool :=
  match history with
  | [] => false
  | hist :: next =>
      if i <? hi then
        match hist_forms hist with
        | [] => masks_changed_loop next (i + 1) hi
        | _ :: _ => true
        end
      else false
  end.

(** [dt_dev_pop_history_items_ext] *)
Definition dt_dev_pop_history_items_ext (X : externals) (dev : dt_develop_t)
    (cnt : Z) : option dt_develop_t :=
  let end_prev := dev_history_end dev in
  '(dev2, forms) ← pop_reset_and_replay X dev cnt;
  let dev3 := ordering_effect (dt_ioppr_resync_modules_order X) dev2 in
  let dev4 := ordering_effect (dt_ioppr_check_duplicate_iop_order X) dev3 in
  let history :=
    if cnt <? end_prev then g_list_nth (dev_history dev4) cnt
    else if end_prev <? cnt then g_list_nth (dev_history dev4) end_prev
    else [] in
  let masks_changed :=
    masks_changed_loop history (Z.min cnt end_prev) (Z.max cnt end_prev) in
  Some (if masks_changed then dt_masks_replace_current_forms dev4 forms
        else dev4).

(** "check if the order of modules has changed": the walk over the current
    and the saved copy of [dev->iop].  The saved copy holds addresses, so both
    ranks are read from the current module structs. *)
Fixpoint iop_order_differs (dev : dt_develop_t) (modules modules_old : list nat)
  : option bool :=
  match modules, modules_old with
  | a :: next, a_old :: next_old =>
      module ← dev_store dev !! a;
      module_old ← dev_store dev !! a_old;
      if negb (mod_iop_order module =? mod_iop_order module_old) then Some true
      else iop_order_differs dev next next_old
  | _, _ => Some false
  end.

(** [dt_dev_pop_history_items]; the refresh of the module widgets is not
    modelled. *)
Definition dt_dev_pop_history_items (X : externals) (dev : dt_develop_t)
    (g : darktable_t) (cnt : Z) : option (dt_develop_t * darktable_t) :=
  let dev_iop_saved := dev_iop dev in
  dev1 ← dt_dev_pop_history_items_ext X dev cnt;
  dev_iop_changed ←
    (if negb (bool_decide (length dev_iop_saved = length (dev_iop dev1)))
     then Some true
     else iop_order_differs dev1 (dev_iop dev1) dev_iop_saved);
  let dev2 :=
    if negb dev_iop_changed then or_changed_all DT_DEV_PIPE_SYNCH dev1
    else dt_dev_pixelpipe_rebuild dev1 in
  Some (dt_dev_invalidate_all dev2, emit EvRedrawCenter g).

(** ** Reading the history: default modules and auto-applied presets *)

Fixpoint reload_modules (X : externals) (modules : list nat)
    (dev : dt_develop_t) : option dt_develop_t :=
  match modules with
  | [] => Some dev
  | a :: next =>
      m ← dev_store dev !! a;
      reload_modules X next
        (store_module a (reload_defaults X (conf_workflow X) m) dev)
  end.

(** [_dt_dev_load_pipeline_defaults]: from the last module to the first. *)
Definition _dt_dev_load_pipeline_defaults (X : externals) (dev : dt_develop_t)
  : option dt_develop_t :=
  reload_modules X (reverse (dev_iop dev)) dev.

(** [_dev_get_module_nb_records] *)
Definition _dev_get_module_nb_records (g : darktable_t) : Z :=
  Z.of_nat (length (dt_memory_history g)).

(** The row that [_dev_insert_module] adds to [memory.history]. *)
Definition default_module_row (X : externals) (m : dt_iop_module_t) (imgid : Z)
  : db_row :=
  let preset_name :=
    dt_presets_get_module_label X (mod_op m) (mod_default_params m)
      (mod_params_size m) true (mod_blend_params m) in
  Build_row imgid 0 (mod_version m) (Some (mod_op m))
    (take (mod_params_size m) (mod_default_params m)) 1 None 0 0
    (Some (default EmptyString preset_name)) 0.

(** [_dev_insert_module] *)
Definition _dev_insert_module (X : externals) (g : darktable_t)
    (m : dt_iop_module_t) (imgid : Z) : darktable_t :=
  set_dt_memory_history (dt_memory_history g ++ [default_module_row X m imgid]) g.

(** One of the two loops of [_dev_add_default_modules]; [hide] is the value
    of [hide_enable_button] that the loop selects. *)
Fixpoint add_default_modules_loop (X : externals) (dev : dt_develop_t)
    (hide : bool) (imgid : Z) (modules : list nat) (g : darktable_t)
  : option darktable_t :=
  match modules with
  | [] => Some g
  | a :: next =>
      m ← dev_store dev !! a;
      add_default_modules_loop X dev hide imgid next
        (if negb (dt_history_check_module_exists X g imgid (mod_op m))
            && mod_default_enabled m
            && Bool.eqb (mod_hide_enable_button m) hide
            && negb (has_flag (mod_flags m) IOP_FLAGS_NO_HISTORY_STACK)
         then _dev_insert_module X g m imgid
         else g)
  end.

(** [_dev_add_default_modules] *)
Definition _dev_add_default_modules (X : externals) (dev : dt_develop_t)
    (g : darktable_t) (imgid : Z) : option darktable_t :=
  g1 ← add_default_modules_loop X dev true imgid (dev_iop dev) g;
  add_default_modules_loop X dev false imgid (dev_iop dev) g1.

(** The loop of [_dev_auto_apply_presets] that recovers the white balance of
    old edits. *)
Fixpoint recover_mandatory_modules (X : externals) (image : dt_image_t)
    (imgid : Z) (modules : list nat) (dev : dt_develop_t) (g : darktable_t)
  : option (dt_develop_t * darktable_t) :=
  match modules with
  | [] => Some (dev, g)
  | a :: next =>
      m ← dev_store dev !! a;
      if mod_default_enabled m
         && negb (has_flag (mod_flags m) IOP_FLAGS_NO_HISTORY_STACK)
         && negb (dt_history_check_module_exists X g imgid (mod_op m))
         && String.eqb (mod_op m) "temperature"
         && (img_change_timestamp image =? -1)
      then
        let m1 := reload_defaults X "display-referred (legacy)" m in
        let g1 := _dev_insert_module X g m1 imgid in
        let m2 := reload_defaults X (conf_workflow X) m1 in
        recover_mandatory_modules X image imgid next (store_module a m2 dev) g1
      else recover_mandatory_modules X image imgid next dev g
  end.

(** The filters [iformat] and [excluded] and the choice of the preset table
    in [_dev_auto_apply_presets], and the INSERT they parametrise. *)
Definition preset_iformat (X : externals) (image : dt_image_t) : Z :=
  Z.lor (Z.lor (if dt_image_is_raw X image then FOR_RAW else FOR_LDR)
           (if dt_image_is_matrix_correction_supported X image
            then FOR_MATRIX else 0))
    (if dt_image_is_hdr X image then FOR_HDR else 0).

Definition preset_excluded (X : externals) (image : dt_image_t) : Z :=
  if dt_image_monochrome_flags X image then FOR_NOT_MONO else FOR_NOT_COLOR.

Definition insert_auto_presets (X : externals) (image : dt_image_t)
    (memory_history : list db_row) : list db_row :=
  sql_insert_auto_presets X image (preset_iformat X image)
    (preset_excluded X image)
    (negb (has_flag (img_flags image) DT_IMAGE_NO_LEGACY_PRESETS))
    memory_history.

(** [_dev_auto_apply_presets]; the result is [(first_run, dev, darktable)].
    The block that auto-applies an ordering list consists of calls into
    common/iop_order.c only; it is the external [dt_ioppr_auto_apply_order]. *)
Definition _dev_auto_apply_presets (X : externals) (dev : dt_develop_t)
    (g : darktable_t) : option (bool * dt_develop_t * darktable_t) :=
  let imgid := img_id (dev_image_storage dev) in
  if negb (dt_is_valid_imgid X imgid) then Some (false, dev, g) else
  let image := dt_image_cache g in
  let run := negb (has_flag (img_flags image) DT_IMAGE_AUTO_PRESETS_APPLIED) in
  let is_raw := dt_image_is_raw X image in
  let is_modern_chroma := dt_is_scene_referred X in
  if negb run || negb (dt_is_valid_imgid X (img_id image)) then
    '(dev1, g1) ←
      (if is_modern_chroma && is_raw
       then recover_mandatory_modules X image imgid (dev_iop dev) dev g
       else Some (dev, g));
    Some (false, dev1, g1)
  else
    let g1 :=
      set_dt_memory_history (insert_auto_presets X image (dt_memory_history g))
        g in
    let dev1 := ordering_effect (dt_ioppr_auto_apply_order X) dev in
    let image' :=
      set_img_flags
        (Z.lor (img_flags image)
           (Z.lor DT_IMAGE_AUTO_PRESETS_APPLIED DT_IMAGE_NO_LEGACY_PRESETS))
        image in
    Some (true, dev1, set_dt_image_cache image' g1).

Definition set_row_num (v : Z) (r : db_row) : db_row :=
  Build_row (row_imgid r) v (row_module r) (row_operation r) (row_op_params r)
    (row_enabled r) (row_blendop_params r) (row_blendop_version r)
    (row_multi_priority r) (row_multi_name r) (row_multi_name_hand_edited r).

(** [_dev_merge_history]: the rows of [memory.history] are renumbered from 0
    in insertion order, the rows of the image in [main.history] are shifted by
    their count, and the renumbered rows are copied into [main.history]. *)
Definition _dev_merge_history (g : darktable_t) (imgid : Z) : darktable_t :=
  let cnt := Z.of_nat (length (dt_memory_history g)) in
  if 0 <? cnt then
    let memory' := imap (fun i r => set_row_num (Z.of_nat i) r)
                     (dt_memory_history g) in
    let main' :=
      map (fun r => if row_imgid r =? imgid
                    then set_row_num (row_num r + cnt) r else r)
        (dt_main_history g) in
    Build_darktable (dt_image_cache g) (main' ++ memory') memory'
      (dt_images_history_end g + cnt) (dt_autosave_last g) (dt_events g)
  else g.

(** The first part of [dt_dev_read_history_ext], run when [no_image] is
    false: [memory.history] is rebuilt from the default modules and the
    auto-applied presets and merged into [main.history].  The result carries
    [first_run] and [auto_apply_modules_count].  The import of Lightroom
    sidecars is not modelled. *)
Definition read_history_prelude (X : externals) (dev : dt_develop_t)
    (g : darktable_t) (imgid : Z)
  : option (dt_develop_t * darktable_t * bool * Z) :=
  let g0 := set_dt_memory_history [] g in
  dev0 ← _dt_dev_load_pipeline_defaults X dev;
  g1 ← _dev_add_default_modules X dev0 g0 imgid;
  let default_modules_count := _dev_get_module_nb_records g1 in
  '(first_run, dev1, g2) ← _dev_auto_apply_presets X dev0 g1;
  let auto_apply_modules_count :=
    _dev_get_module_nb_records g2 - default_modules_count in
  Some (dev1, _dev_merge_history g2 imgid, first_run, auto_apply_modules_count).

(** ** Reading the history: the rows of [main.history] *)

(** The scan of [dev->iop] for the module of a row.  The result is
    [(hist->module, find_op)]. *)
Fixpoint find_row_module (dev : dt_develop_t) (module_name : string)
    (multi_priority : Z) (modules : list nat) (find_op : option nat)
  : option (option nat * option nat) :=
  match modules with
  | [] => Some (None, find_op)
  | a :: next =>
      m ← dev_store dev !! a;
      if String.eqb (mod_op m) module_name then
        if (mod_multi_priority m =? multi_priority)
           || has_flag (mod_flags m) IOP_FLAGS_ONE_INSTANCE
        then Some (Some a, find_op)
        else if 0 <? multi_priority
             then find_row_module dev module_name multi_priority next (Some a)
             else find_row_module dev module_name multi_priority next find_op
      else find_row_module dev module_name multi_priority next find_op
  end.

(** The variables that the row loop of [dt_dev_read_history_ext] carries. *)
Record read_state := Build_read_state {
  rs_dev : dt_develop_t;
  rs_temperature : option nat;
  rs_channelmixerrgb : option nat;
  rs_legacy_params : bool
}.

(** The module of a row: an existing instance (whose label is overwritten),
    or a new instance of [find_op], or [NULL]. *)
Definition resolve_row_module (X : externals) (dev : dt_develop_t)
    (row : db_row) (module_name : string) (iop_order : Z)
  : option (dt_develop_t * option nat) :=
  let multi_priority := row_multi_priority row in
  let hand_edited := negb (row_multi_name_hand_edited row =? 0) in
  '(found, find_op) ←
    find_row_module dev module_name multi_priority (dev_iop dev) None;
  match found with
  | Some a =>
      m ← dev_store dev !! a;
      Some (store_module a
              (set_mod_multi_name_hand_edited hand_edited
                 (set_mod_multi_name (default EmptyString (row_multi_name row)) m)) dev,
            Some a)
  | None =>
      match find_op with
      | Some f =>
          fm ← dev_store dev !! f;
          match dt_iop_load_module X (mod_so fm) with
          | Some new_module =>
              let a := fresh (dom (dev_store dev)) in
              let m1 := dt_iop_update_multi_priority new_module multi_priority in
              let m2 := set_mod_iop_order iop_order m1 in
              let m3 :=
                match row_multi_name row with
                | Some s => set_mod_multi_name s m2
                | None => m2
                end in
              let m4 := set_mod_multi_name_hand_edited hand_edited m3 in
              let m5 := set_mod_instance (mod_instance fm) m4 in
              Some (set_dev_iop (dev_iop dev ++ [a]) (store_module a m5 dev),
                    Some a)
          | None => Some (dev, None)
          end
      | None => Some (dev, None)
      end
  end.

(** The body of the row loop. *)
Definition read_history_row (X : externals) (imgid snapshot_id : Z)
    (history_end_current : Z) (st : read_state) (row : db_row)
  : option read_state :=
  let is_valid_id := (row_imgid row =? imgid) || negb (snapshot_id =? -1) in
  match row_operation row with
  | None => Some st
  | Some module_name =>
    if negb is_valid_id then Some st else
    let dev := rs_dev st in
    let modversion := row_module row in
    let module_params := row_op_params row in
    let param_length := length module_params in
    let iop_order :=
      dt_ioppr_get_iop_order X (dev_iop_order_list dev) module_name
        (row_multi_priority row) in
    '(dev1, hist_module) ← resolve_row_module X dev row module_name iop_order;
    match hist_module with
    | None => Some (Build_read_state dev1 (rs_temperature st)
                      (rs_channelmixerrgb st) (rs_legacy_params st))
    | Some a =>
      m ← dev_store dev1 !! a;
      let is_workflow_none := String.eqb (conf_workflow X) "none" in
      let temperature :=
        if is_workflow_none && mod_enabled m && String.eqb (mod_op m) "temperature"
        then Some a else rs_temperature st in
      let channelmixerrgb :=
        if is_workflow_none && mod_enabled m
           && String.eqb (mod_op m) "channelmixerrgb"
        then Some a else rs_channelmixerrgb st in
      if has_flag (mod_flags m) IOP_FLAGS_NO_HISTORY_STACK
      then Some (Build_read_state dev1 temperature channelmixerrgb
                   (rs_legacy_params st))
      else
      let is_valid_module_name := String.eqb module_name (mod_op m) in
      let is_valid_blendop_version :=
        row_blendop_version row =? dt_develop_blend_version X in
      let is_valid_blendop_size bp :=
        bool_decide (length bp = blend_params_size X) in
      let is_valid_module_version := modversion =? mod_version m in
      let is_valid_params_size :=
        bool_decide (param_length = mod_params_size m) in
      let enabled := negb (row_enabled row =? 0) in
      let multi_priority :=
        if has_flag (mod_flags m) IOP_FLAGS_ONE_INSTANCE then 0
        else row_multi_priority row in
      (* update module iop_order only on active history entries *)
      let m' :=
        if dev_history_end dev1 <? history_end_current
        then set_mod_iop_order iop_order m else m in
      let dev2 := store_module a m' dev1 in
      let '(blend, legacy1) :=
        match row_blendop_params row with
        | Some bp =>
            if is_valid_blendop_version && is_valid_blendop_size bp
            then (memcpy (malloc (blend_params_size X)) bp (blend_params_size X),
                  rs_legacy_params st)
            else
              match dt_develop_blend_legacy_params X m' bp
                      (row_blendop_version row) with
              | Some converted => (converted, true)
              | None =>
                  (memcpy (malloc (blend_params_size X))
                     (mod_default_blendop_params m') (blend_params_size X),
                   rs_legacy_params st)
              end
        | None =>
            (memcpy (malloc (blend_params_size X))
               (mod_default_blendop_params m') (blend_params_size X),
             rs_legacy_params st)
        end in
      let fresh_params := malloc (mod_params_size m') in
      (* [Some (params, blend, enabled, legacy)], or [None] when the entry is
         dropped because the legacy conversion failed *)
      let converted :=
        if bool_decide (param_length = 0%nat)
        then Some (memcpy fresh_params (mod_default_params m')
                     (mod_params_size m'), blend, enabled, legacy1)
        else if is_valid_module_version && is_valid_params_size
                && is_valid_module_name
        then Some (memcpy fresh_params module_params (mod_params_size m'),
                   blend, enabled, legacy1)
        else
          match dt_iop_legacy_params X m' module_params modversion with
          | None => None
          | Some new_params =>
              let blend' :=
                if String.eqb (mod_op m') "spots" && (modversion =? 1)
                then memcpy blend (mod_blend_params m') (blend_params_size X)
                else blend in
              if String.eqb (mod_op m') "flip" && negb enabled
                 && (Z.abs modversion =? 1)
              then Some (memcpy new_params (mod_default_params m')
                           (mod_params_size m'), blend', true, true)
              else Some (new_params, blend', enabled, true)
          end in
      match converted with
      | None => Some (Build_read_state dev2 temperature channelmixerrgb legacy1)
      | Some (params, blend', enabled', legacy2) =>
          (* make sure that always-on modules are always on *)
          let enabled'' :=
            if mod_default_enabled m' && mod_hide_enable_button m' then true
            else enabled' in
          let hist :=
            Build_history_item (Some a) (mod_op m') (row_num row) 0 enabled''
              params blend' iop_order multi_priority
              (default EmptyString (row_multi_name row))
              (negb (row_multi_name_hand_edited row =? 0)) [] in
          Some (Build_read_state
                  (set_dev_history (dev_history dev2 ++ [hist])
                     (set_dev_history_end (dev_history_end dev2 + 1) dev2))
                  temperature channelmixerrgb legacy2)
      end
    end
  end.

(** [while(sqlite3_step(stmt) == SQLITE_ROW)] *)
Fixpoint read_history_rows (X : externals) (imgid snapshot_id : Z)
    (history_end_current : Z) (rows : list db_row) (st : read_state)
  : option read_state :=
  match rows with
  | [] => Some st
  | row :: next =>
      st' ← read_history_row X imgid snapshot_id history_end_current st row;
      read_history_rows X imgid snapshot_id history_end_current next st'
  end.

(** ** Reading the history: the whole of [dt_dev_read_history_ext] *)

(** The row that [_dev_write_history_item] leaves in [main.history]. *)
Definition history_item_row (X : externals) (dev : dt_develop_t) (imgid num : Z)
    (h : dt_dev_history_item_t) : option db_row :=
  m ← deref dev (hist_module h);
  Some (Build_row imgid num (mod_version m) (Some (mod_op m))
          (take (mod_params_size m) (hist_params h))
          (if hist_enabled h then 1 else 0)
          (Some (take (blend_params_size X) (hist_blend_params h)))
          (dt_develop_blend_version X) (hist_multi_priority h)
          (Some (hist_multi_name h))
          (if hist_multi_name_hand_edited h then 1 else 0)).

Fixpoint write_history_items (X : externals) (dev : dt_develop_t) (imgid i : Z)
    (history : list dt_dev_history_item_t) : option (list db_row) :=
  match history with
  | [] => Some []
  | hist :: next =>
      r ← history_item_row X dev imgid i hist;
      rs ← write_history_items X dev imgid (i + 1) next;
      Some (r :: rs)
  end.

(** [_dev_write_history]; the masks table is not modelled. *)
Definition _dev_write_history (X : externals) (dev : dt_develop_t)
    (g : darktable_t) (imgid : Z) : option darktable_t :=
  rows ← write_history_items X dev imgid 0 (dev_history dev);
  Some (set_dt_main_history
          (filter (fun r => row_imgid r ≠ imgid) (dt_main_history g) ++ rows) g).

Definition row_num_le (a b : db_row) : Prop := row_num a <= row_num b.

#[global] Instance row_num_le_dec : RelDecision row_num_le.
Proof. intros a b. unfold row_num_le. apply _. Defined.

(** [SELECT ... FROM main.history WHERE imgid = ?1 ORDER BY num] *)
Definition select_history (g : darktable_t) (imgid : Z) : list db_row :=
  merge_sort row_num_le
    (filter (fun r => row_imgid r = imgid) (dt_main_history g)).

(** [dt_dev_read_history_ext] with [snapshot_id == -1], as
    [dt_dev_read_history] calls it.  The undo records, the masks table and
    the history hash are not modelled. *)
Definition dt_dev_read_history_ext (X : externals) (dev : dt_develop_t)
    (g : darktable_t) (imgid : Z) (no_image : bool)
  : option (dt_develop_t * darktable_t) :=
  if negb (dt_is_valid_imgid X imgid) then Some (dev, g) else
  match dev_iop dev with
  | [] => Some (dev, g)
  | _ :: _ =>
    let dev0 := ordering_effect (dt_ioppr_set_default_iop_order X) dev in
    '(dev1, g1, first_run, auto_apply_modules_count) ←
      (if no_image then Some (dev0, g, false, 0)
       else read_history_prelude X dev0 g imgid);
    let history_end_current := dt_images_history_end g1 in
    st ← read_history_rows X imgid (-1) history_end_current
           (select_history g1 imgid)
           (Build_read_state (set_dev_history_end 0 dev1) None None false);
    dev3 ←
      match rs_temperature st, rs_channelmixerrgb st with
      | Some t, Some _ =>
          m ← dev_store (rs_dev st) !! t;
          Some (store_module t (reload_defaults X (conf_workflow X) m)
                  (rs_dev st))
      | _, _ => Some (rs_dev st)
      end;
    let dev4 := ordering_effect (dt_ioppr_resync_modules_order X) dev3 in
    let dev5 := set_dev_history_end (dt_images_history_end g1) dev4 in
    let dev6 :=
      if dev_gui_attached dev5 && negb no_image
      then dt_dev_invalidate_all (or_changed_all DT_DEV_PIPE_SYNCH dev5)
      else dev5 in
    g2 ← _dev_write_history X dev6 g1 imgid;
    Some (dev6, g2)
  end.

(** [dt_dev_read_history] *)
Definition dt_dev_read_history (X : externals) (dev : dt_develop_t)
    (g : darktable_t) : option (dt_develop_t * darktable_t) :=
  dt_dev_read_history_ext X dev g (img_id (dev_image_storage dev)) false.

(** ** Waiting for a pipeline hash *)

Definition two_64 : Z := 2 ^ 64.

(** The test on the rank of a module in [dt_dev_hash_plus]. *)
Definition direction_selects (transf_direction : dt_dev_transform_direction_t)
    (module_iop_order : Z) (iop_order : Q) : bool :=
  match transf_direction with
  | DT_DEV_TRANSFORM_DIR_ALL => true
  | DT_DEV_TRANSFORM_DIR_FORW_INCL =>
      Qle_bool iop_order (inject_Z module_iop_order)
  | DT_DEV_TRANSFORM_DIR_FORW_EXCL =>
      Qlt_bool iop_order (inject_Z module_iop_order)
  | DT_DEV_TRANSFORM_DIR_BACK_INCL =>
      Qle_bool (inject_Z module_iop_order) iop_order
  | DT_DEV_TRANSFORM_DIR_BACK_EXCL =>
      Qlt_bool (inject_Z module_iop_order) iop_order
  end.

(** The loop of [dt_dev_hash_plus]; both lists are given last node first. *)
Fixpoint hash_walk (dev : dt_develop_t) (modules : list nat)
    (pieces : list dt_dev_pixelpipe_iop_t) (iop_order : Q)
    (transf_direction : dt_dev_transform_direction_t) (hash : Z) : option Z :=
  match modules with
  | [] => Some hash
  | a :: prev =>
      match pieces with
      | [] => Some 0
      | piece :: pieces_prev =>
          selected ←
            (if piece_enabled piece then
               match transf_direction with
               | DT_DEV_TRANSFORM_DIR_ALL => Some true
               | _ =>
                   module ← dev_store dev !! a;
                   Some (direction_selects transf_direction
                           (mod_iop_order module) iop_order)
               end
             else Some false);
          hash_walk dev prev pieces_prev iop_order transf_direction
            (if selected : bool
             then Z.lxor ((Z.shiftl hash 5 + hash) mod two_64)
                    (piece_hash piece mod two_64)
             else hash)
      end
  end.

(** [dt_dev_hash_plus] *)
Definition dt_dev_hash_plus (dev : dt_develop_t) (pipe : dt_dev_pixelpipe_t)
    (iop_order : Q) (transf_direction : dt_dev_transform_direction_t)
  : option Z :=
  hash_walk dev (reverse (pipe_iop pipe)) (reverse (pipe_nodes pipe)) iop_order
    transf_direction 5381.

(** One pass through the loop of [dt_dev_wait_hash]: [Some true] when the
    wait stops there (the pipe shuts down, or the hashes agree).  Other threads
    run while the loop polls: [world n] is the develop state and [hash n] the
    value of [*hash] at the [n]-th pass. *)
Definition poll_once (world : nat -> dt_develop_t) (k : pipe_kind)
    (iop_order : Q) (transf_direction : dt_dev_transform_direction_t)
    (hash : nat -> Z) (n : nat) : option bool :=
  let dev := world n in
  let pipe := dev_pipe_of k dev in
  if pipe_shutdown pipe then Some true
  else
    h ← dt_dev_hash_plus dev pipe iop_order transf_direction;
    Some (hash n =? h).

(** [for(int n = 0; n < nloop; n++)] *)
Fixpoint wait_hash_loop (world : nat -> dt_develop_t) (k : pipe_kind)
    (iop_order : Q) (transf_direction : dt_dev_transform_direction_t)
    (hash : nat -> Z) (n remaining : nat) : option bool :=
  match remaining with
  | O => Some false
  | S remaining' =>
      stop ← poll_once world k iop_order transf_direction hash n;
      if stop : bool then Some true
      else wait_hash_loop world k iop_order transf_direction hash (S n)
             remaining'
  end.

(** [dt_dev_wait_hash]; [nloop] is the configured synchronisation timeout
    (that of OpenCL when the pipe runs on a device). *)
Definition dt_dev_wait_hash (world : nat -> dt_develop_t) (k : pipe_kind)
    (iop_order : Q) (transf_direction : dt_dev_transform_direction_t)
    (hash : nat -> Z) (nloop : Z) : option bool :=
  if nloop <=? 0 then Some true
  else wait_hash_loop world k iop_order transf_direction hash 0
         (Z.to_nat nloop).

Definition history_changed_mask : Z :=
  Z.lor (Z.lor DT_DEV_PIPE_TOP_CHANGED DT_DEV_PIPE_REMOVE) DT_DEV_PIPE_SYNCH.

(** [dt_dev_sync_pixelpipe_hash]; the change flag is read in the state that
    follows the last poll. *)
Definition dt_dev_sync_pixelpipe_hash (world : nat -> dt_develop_t)
    (k : pipe_kind) (iop_order : Q)
    (transf_direction : dt_dev_transform_direction_t) (hash : nat -> Z)
    (nloop : Z) (g : darktable_t) : option (bool * darktable_t) :=
  matched ← dt_dev_wait_hash world k iop_order transf_direction hash nloop;
  if matched : bool then Some (true, g)
  else
    let pipe := dev_pipe_of k (world (Z.to_nat nloop)) in
    if has_flag (pipe_changed pipe) history_changed_mask
    then Some (true, emit EvRedrawCenter g)
    else Some (false, g).

(** ** Render jobs

    The [restart:] loops take a [fuel]: each unit pays for one pass through
    the label.  The calls that build the nodes of a pipe, flush its cache or
    set its input act on parts of the pipe that the model does not hold; the
    write-back of the clamped zoom position goes to the GUI state. *)

(** [dt_dev_process_image_job], from [restart:] on. *)
Fixpoint process_image_restart (X : externals) (fuel : nat) (dev : dt_develop_t)
    (g : darktable_t) : option (dt_develop_t * darktable_t) :=
  match fuel with
  | O => None
  | S fuel' =>
      if dev_gui_leaving dev
      then Some (set_dev_image_status DT_DEV_PIXELPIPE_INVALID dev, g)
      else
        let dev1 :=
          set_dev_pipe
            (set_pipe_input_timestamp (dev_timestamp dev) (dev_pipe dev)) dev in
        let dev2 := dt_dev_pixelpipe_change X Full dev1 in
        let view := dt_current_viewport X Full dev2 in
        let '(interrupted, dev3) := dt_dev_pixelpipe_process X Full dev2 in
        if interrupted : bool then
          if dev_image_force_reload dev3
          then Some (set_dev_image_status DT_DEV_PIXELPIPE_INVALID dev3, g)
          else process_image_restart X fuel' dev3 g
        else if negb (pipe_changed (dev_pipe dev3) =? DT_DEV_PIPE_UNCHANGED)
        then process_image_restart X fuel' dev3 g
        else
          let dev4 :=
            set_dev_image_invalid_cnt 0
              (set_dev_image_loading false
                 (set_dev_image_status DT_DEV_PIXELPIPE_VALID
                    (set_dev_pipe (set_pipe_backbuf (Some view) (dev_pipe dev3))
                       dev3))) in
          Some (dev4,
                if dev_gui_attached dev4 && negb (dev_gui_leaving dev4)
                then emit (EvSignal "DT_SIGNAL_DEVELOP_UI_PIPE_FINISHED") g
                else g)
  end.

(** [dt_dev_process_image_job] *)
Definition dt_dev_process_image_job (X : externals) (fuel : nat)
    (dev : dt_develop_t) (g : darktable_t)
  : option (dt_develop_t * darktable_t) :=
  if dev_gui_leaving dev then Some (dev, g) else
  let dev1 := set_dev_image_status DT_DEV_PIXELPIPE_RUNNING dev in
  if negb (dt_mipmap_cache_get X Full dev1)
  then Some (set_dev_image_invalid_cnt (dev_image_invalid_cnt dev1 + 1)
               (set_dev_image_status DT_DEV_PIXELPIPE_DIRTY dev1), g)
  else
    let dev2 :=
      if dev_image_loading dev1 then
        let d := set_dev_image_force_reload false dev1 in
        let d :=
          if dev_gui_attached d then
            set_dev_preview2_pipe
              (or_changed DT_DEV_PIPE_SYNCH (dev_preview2_pipe d))
              (set_dev_preview_pipe
                 (or_changed DT_DEV_PIPE_SYNCH (dev_preview_pipe d))
                 (set_dev_gui_synch true
                    (set_dev_preview2_status DT_DEV_PIXELPIPE_DIRTY
                       (set_dev_preview2_input_changed true
                          (set_dev_preview_status DT_DEV_PIXELPIPE_DIRTY
                             (set_dev_preview_input_changed true d))))))
          else d in
        set_dev_pipe (or_changed DT_DEV_PIPE_SYNCH (dev_pipe d)) d
      else dev1 in
    process_image_restart X fuel dev2 g.

(** [dt_dev_process_preview_job], from [restart:] on. *)
Fixpoint process_preview_restart (X : externals) (fuel : nat)
    (dev : dt_develop_t) (g : darktable_t)
  : option (dt_develop_t * darktable_t) :=
  match fuel with
  | O => None
  | S fuel' =>
      if dev_gui_leaving dev
      then Some (set_dev_preview_status DT_DEV_PIXELPIPE_INVALID dev, g)
      else
        let dev1 := dt_dev_pixelpipe_change X Preview dev in
        let '(interrupted, dev2) := dt_dev_pixelpipe_process X Preview dev1 in
        if interrupted : bool then
          if dev_preview_loading dev2 || dev_preview_input_changed dev2
          then Some (set_dev_preview_status DT_DEV_PIXELPIPE_INVALID dev2, g)
          else process_preview_restart X fuel' dev2 g
        else
          Some (set_dev_preview_status DT_DEV_PIXELPIPE_VALID dev2,
                emit (EvSignal "DT_SIGNAL_DEVELOP_PREVIEW_PIPE_FINISHED") g)
  end.

(** [dt_dev_process_preview_job] *)
Definition dt_dev_process_preview_job (X : externals) (fuel : nat)
    (dev : dt_develop_t) (g : darktable_t)
  : option (dt_develop_t * darktable_t) :=
  if dev_image_loading dev then Some (dev, g) else
  if dev_gui_leaving dev then Some (dev, g) else
  let dev1 :=
    set_dev_preview_status DT_DEV_PIXELPIPE_RUNNING
      (set_dev_preview_pipe
         (set_pipe_input_timestamp (dev_timestamp dev) (dev_preview_pipe dev))
         dev) in
  if negb (dt_mipmap_cache_get X Preview dev1)
  then Some (set_dev_preview_status DT_DEV_PIXELPIPE_DIRTY dev1, g)
  else
    let dev2 :=
      if dev_preview_loading dev1 then set_dev_preview_loading false dev1
      else dev1 in
    let dev3 :=
      if dev_preview_input_changed dev2
      then set_dev_preview_input_changed false dev2 else dev2 in
    process_preview_restart X fuel dev3 g.

(** [dt_dev_process_preview2_job], from [restart:] on. *)
Fixpoint process_preview2_restart (X : externals) (fuel : nat)
    (dev : dt_develop_t) (g : darktable_t)
  : option (dt_develop_t * darktable_t) :=
  match fuel with
  | O => None
  | S fuel' =>
      if dev_gui_leaving dev
      then Some (set_dev_preview2_status DT_DEV_PIXELPIPE_INVALID dev, g)
      else
        let dev1 := dt_dev_pixelpipe_change X Secondary dev in
        let view := dt_current_viewport X Secondary dev1 in
        let '(interrupted, dev2) :=
          dt_dev_pixelpipe_process X Secondary dev1 in
        if interrupted : bool then
          if dev_preview2_loading dev2 || dev_preview2_input_changed dev2
          then Some (set_dev_preview2_status DT_DEV_PIXELPIPE_INVALID dev2, g)
          else process_preview2_restart X fuel' dev2 g
        else
          Some (set_dev_preview2_status DT_DEV_PIXELPIPE_VALID
                  (set_dev_preview2_pipe
                     (set_pipe_backbuf (Some view) (dev_preview2_pipe dev2))
                     dev2),
                emit (EvSignal "DT_SIGNAL_DEVELOP_PREVIEW2_PIPE_FINISHED") g)
  end.

(** [dt_dev_process_preview2_job] *)
Definition dt_dev_process_preview2_job (X : externals) (fuel : nat)
    (dev : dt_develop_t) (g : darktable_t)
  : option (dt_develop_t * darktable_t) :=
  if dev_image_loading dev then Some (dev, g) else
  if negb (dev_second_window_widget dev) then Some (dev, g) else
  if dev_gui_leaving dev then Some (dev, g) else
  let dev1 :=
    set_dev_preview2_status DT_DEV_PIXELPIPE_RUNNING
      (set_dev_preview2_pipe
         (set_pipe_input_timestamp (dev_timestamp dev) (dev_preview2_pipe dev))
         dev) in
  if negb (dt_mipmap_cache_get X Secondary dev1)
  then Some (set_dev_preview2_status DT_DEV_PIXELPIPE_DIRTY dev1, g)
  else
    let dev2 :=
      if dev_preview2_loading dev1 then set_dev_preview2_loading false dev1
      else dev1 in
    let dev3 :=
      if dev_preview2_input_changed dev2
      then set_dev_preview2_input_changed false dev2 else dev2 in
    process_preview2_restart X fuel dev3 g.

(** The render job of a pipeline, and its loop. *)
Definition render_job (X : externals) (k : pipe_kind) (fuel : nat)
    (dev : dt_develop_t) (g : darktable_t)
  : option (dt_develop_t * darktable_t) :=
  match k with
  | Full => dt_dev_process_image_job X fuel dev g
  | Preview => dt_dev_process_preview_job X fuel dev g
  | Secondary => dt_dev_process_preview2_job X fuel dev g
  end.

Definition render_restart (X : externals) (k : pipe_kind) (fuel : nat)
    (dev : dt_develop_t) (g : darktable_t)
  : option (dt_develop_t * darktable_t) :=
  match k with
  | Full => process_image_restart X fuel dev g
  | Preview => process_preview_restart X fuel dev g
  | Secondary => process_preview2_restart X fuel dev g
  end.

(** ** Duplicating a module instance *)

(** "we set the multi-instance priority": the loop that computes [pmax]. *)
Fixpoint max_multi_priority (dev : dt_develop_t) (instance : Z)
    (modules : list nat) (pmax : Z) : option Z :=
  match modules with
  | [] => Some pmax
  | a :: next =>
      md ← dev_store dev !! a;
      max_multi_priority dev instance next
        (if (mod_instance md =? instance) && (pmax <? mod_multi_priority md)
         then mod_multi_priority md else pmax)
  end.

(** The inner loop of the naming: is [mname] the label of an instance? *)
Fixpoint name_in_use (dev : dt_develop_t) (instance : Z) (mname : string)
    (modules : list nat) : option bool :=
  match modules with
  | [] => Some false
  | a :: next =>
      md ← dev_store dev !! a;
      if (mod_instance md =? instance) && String.eqb mname (mod_multi_name md)
      then Some true
      else name_in_use dev instance mname next
  end.

(** The [do ... while(1)] loop of the naming; [snprintf("%d")] is [pretty]. *)
Fixpoint unique_multi_name (fuel : nat) (dev : dt_develop_t) (instance : Z)
    (pname : Z) : option string :=
  match fuel with
  | O => None
  | S fuel' =>
      let mname := pretty pname in
      dup ← name_in_use dev instance mname (dev_iop dev);
      if dup : bool
      then pname' ← int_add pname 1; unique_multi_name fuel' dev instance pname'
      else Some mname
  end.

(** [g_list_insert_sorted(dev->iop, module, dt_sort_iop_by_order)]: the new
    node goes before the first node that does not compare below it. *)
Fixpoint insert_sorted_by_order (X : externals) (dev : dt_develop_t)
    (l : list nat) (a : nat) (m : dt_iop_module_t) : option (list nat) :=
  match l with
  | [] => Some [a]
  | e :: next =>
      em ← dev_store dev !! e;
      if 0 <? dt_sort_iop_by_order X m em
      then r ← insert_sorted_by_order X dev next a m; Some (e :: r)
      else Some (a :: e :: next)
  end.

(** [dt_dev_module_duplicate_ext]; [base->dev] is [dev].  The result is the
    address of the new module ([None] is [NULL]) and the new state. *)
Definition dt_dev_module_duplicate_ext (X : externals) (fuel : nat)
    (dev : dt_develop_t) (g : darktable_t) (base : nat) (reorder_iop : bool)
  : option (option nat * dt_develop_t * darktable_t) :=
  b ← dev_store dev !! base;
  let a := fresh (dom (dev_store dev)) in
  match dt_iop_load_module X (mod_so b) with
  | None => Some (None, dev, g)
  | Some module0 =>
      let module1 := set_mod_instance (mod_instance b) module0 in
      pmax ← max_multi_priority dev (mod_instance b) (dev_iop dev) 0;
      pmax1 ← int_add pmax 1;
      let module2 := dt_iop_update_multi_priority module1 pmax1 in
      let dev1 :=
        ordering_effect
          (fun d => fst (dt_ioppr_insert_module_instance X d module2)) dev in
      let module3 :=
        set_mod_iop_order (snd (dt_ioppr_insert_module_instance X dev module2))
          module2 in
      mname ← unique_multi_name fuel dev1 (mod_instance b)
                (mod_multi_priority module3);
      let module4 :=
        set_mod_multi_name_hand_edited false
          (set_mod_multi_name mname module3) in
      iop' ← insert_sorted_by_order X dev1 (dev_iop dev1) a module4;
      let dev2 := set_dev_iop iop' (store_module a module4 dev1) in
      if reorder_iop then
        let r := dt_ioppr_move_iop_after X dev2 a base in
        let dev3 :=
          ordering_effect (fun d => snd (dt_ioppr_move_iop_after X d a base))
            dev2 in
        Some (Some a, dev3,
              if fst r then g
              else emit (EvControlLog
                           "module duplicate, can't move new instance after the base one")
                     g)
      else Some (Some a, dev2, g)
  end.

(** ** More of the history stack *)

(** [dt_dev_get_history_item]: the walk from [g_list_last(dev->history)]
    towards the head; [items] is given last node first. *)
Fixpoint history_item_walk (op : string) (items : list dt_dev_history_item_t)
  : option dt_dev_history_item_t :=
  match items with
  | [] => None
  | item :: prev =>
      if String.eqb (hist_op_name item) op then Some item
      else history_item_walk op prev
  end.

Definition dt_dev_get_history_item (dev : dt_develop_t) (op : string)
  : option dt_dev_history_item_t :=
  history_item_walk op (reverse (dev_history dev)).

Definition set_hist_module (v : option nat) (h : dt_dev_history_item_t)
  : dt_dev_history_item_t :=
  Build_history_item v (hist_op_name h) (hist_num h) (hist_focus_hash h)
    (hist_enabled h) (hist_params h) (hist_blend_params h) (hist_iop_order h)
    (hist_multi_priority h) (hist_multi_name h)
    (hist_multi_name_hand_edited h) (hist_forms h).

(** [dt_dev_invalidate_history_module] *)
Fixpoint dt_dev_invalidate_history_module
    (items : list dt_dev_history_item_t) (module : nat)
  : list dt_dev_history_item_t :=
  match items with
  | [] => []
  | hitem :: next =>
      (if bool_decide (hist_module hitem = Some module)
       then set_hist_module None hitem else hitem)
      :: dt_dev_invalidate_history_module next module
  end.

(** [dt_dev_undo_start_record] and [dt_dev_undo_end_record]; [darkroom]
    tells whether the current view is the darkroom
    ([cv->view(cv) == DT_VIEW_DARKROOM]).  [gui_previous_target] is a field of
    the GUI state. *)
Definition dt_dev_undo_start_record (darkroom : bool) (dev : dt_develop_t)
    (g : darktable_t) : darktable_t :=
  if dev_gui_attached dev && darkroom
  then emit (EvSignal "DT_SIGNAL_DEVELOP_HISTORY_WILL_CHANGE") g else g.

Definition dt_dev_undo_end_record (darkroom : bool) (dev : dt_develop_t)
    (g : darktable_t) : darktable_t :=
  if dev_gui_attached dev && darkroom
  then emit (EvSignal "DT_SIGNAL_DEVELOP_HISTORY_CHANGE") g else g.

(** The first loop of [dt_dev_module_remove]: the result is the new
    [dev->history], the new [dev->history_end] and [del]. *)
Fixpoint remove_module_items (module : nat) (elems : list dt_dev_history_item_t)
    (history_end : Z) (del : bool)
  : list dt_dev_history_item_t * Z * bool :=
  match elems with
  | [] => ([], history_end, del)
  | hist :: next =>
      if bool_decide (hist_module hist = Some module)
      then remove_module_items module next (history_end - 1) true
      else
        let '(kept, history_end', del') :=
          remove_module_items module next history_end del in
        (hist :: kept, history_end', del')
  end.

(** The second loop: [g_list_remove_link] of the first node that holds the
    module. *)
Fixpoint remove_first_link (module : nat) (modules : list nat) : list nat :=
  match modules with
  | [] => []
  | a :: next =>
      if bool_decide (a = module) then next
      else a :: remove_first_link module next
  end.

(** [dt_dev_module_remove] *)
Definition dt_dev_module_remove (darkroom : bool) (dev : dt_develop_t)
    (g : darktable_t) (module : nat) : dt_develop_t * darktable_t :=
  let '(dev1, g1, del) :=
    if dev_gui_attached dev then
      let g1 := dt_dev_undo_start_record darkroom dev g in
      let '(history, history_end, del) :=
        remove_module_items module (dev_history dev) (dev_history_end dev)
          false in
      (set_dev_history history (set_dev_history_end history_end dev), g1, del)
    else (dev, g, false) in
  let dev2 := set_dev_iop (remove_first_link module (dev_iop dev1)) dev1 in
  if dev_gui_attached dev2 && del
  then (dev2,
        emit EvRedrawCenter
          (emit (EvSignal "DT_SIGNAL_DEVELOP_MODULE_REMOVE")
             (dt_dev_undo_end_record darkroom dev2 g1)))
  else (dev2, g1).

(** [_cleanup_history]; the masks table is not modelled. *)
Definition _cleanup_history (g : darktable_t) (imgid : Z) : darktable_t :=
  set_dt_main_history
    (filter (fun r => row_imgid r ≠ imgid) (dt_main_history g)) g.

(** [dt_dev_write_history_ext]: after [_cleanup_history] no row of the image
    is left, so that [_dev_write_history_item] inserts a row for each entry.
    [main.images] is held for the edited image only.  The ordering list and
    the history hash are written by other files. *)
Definition dt_dev_write_history_ext (X : externals) (dev : dt_develop_t)
    (g : darktable_t) (imgid : Z) : option darktable_t :=
  let g1 := _cleanup_history g imgid in
  rows ← write_history_items X dev imgid 0 (dev_history dev);
  let g2 := set_dt_main_history (dt_main_history g1 ++ rows) g1 in
  Some (if imgid =? img_id (dt_image_cache g2)
        then Build_darktable (dt_image_cache g2) (dt_main_history g2)
               (dt_memory_history g2) (dev_history_end dev)
               (dt_autosave_last g2) (dt_events g2)
        else g2).

(** [dt_dev_write_history] *)
Definition dt_dev_write_history (X : externals) (dev : dt_develop_t)
    (g : darktable_t) : option darktable_t :=
  dt_dev_write_history_ext X dev g (img_id (dev_image_storage dev)).

(** The search for the mask manager in [dt_dev_add_masks_history_item_ext]. *)
Fixpoint find_mask_manager (dev : dt_develop_t) (modules : list nat)
  : option (option nat) :=
  match modules with
  | [] => Some None
  | a :: next =>
      md ← dev_store dev !! a;
      if String.eqb (mod_op md) "mask_manager" then Some (Some a)
      else find_mask_manager dev next
  end.


(** ** Reloading the history *)

Definition set_dev_focus_hash (v : Z) (d : dt_develop_t) : dt_develop_t :=
  Build_develop (dev_iop d) (dev_store d) (dev_history d) (dev_history_end d)
    v (dev_forms d) (dev_iop_order_list d) (dev_pipe d) (dev_preview_pipe d)
    (dev_preview2_pipe d) (dev_image_storage d) (dev_requested_id d)
    (dev_image_loading d) (dev_preview_loading d) (dev_preview2_loading d)
    (dev_preview_input_changed d) (dev_preview2_input_changed d)
    (dev_image_force_reload d) (dev_image_status d) (dev_preview_status d)
    (dev_preview2_status d) (dev_timestamp d) (dev_image_invalid_cnt d)
    (dev_autosaving d) (dev_gui_attached d) (dev_gui_leaving d)
    (dev_gui_synch d) (dev_second_window_widget d).

(** "remove unused history items": what the loop of
    [dt_dev_reload_history_items] does to the modules of the items it
    deletes. *)
Fixpoint forget_labels (dev : dt_develop_t)
    (items : list dt_dev_history_item_t) : option dt_develop_t :=
  match items with
  | [] => Some dev
  | hist :: next =>
      a ← hist_module hist;
      m ← dev_store dev !! a;
      forget_labels
        (store_module a
           (set_mod_multi_name EmptyString
              (set_mod_multi_name_hand_edited false m)) dev) next
  end.

(** "we have to add new module instances first": [expanders] holds the
    modules that have a widget in the right panel ([module->expander]); the
    widgets themselves belong to the GUI. *)
Fixpoint add_new_instances (X : externals) (modules : list nat)
    (dev : dt_develop_t) (expanders : gset nat)
  : option (dt_develop_t * gset nat) :=
  match modules with
  | [] => Some (dev, expanders)
  | a :: next =>
      m ← dev_store dev !! a;
      if (0 <? mod_multi_priority m)
         && negb (dt_iop_is_hidden X m)
         && negb (bool_decide (a ∈ expanders))
      then
        add_new_instances X next
          (or_changed_all DT_DEV_PIPE_REMOVE
             (store_module a (reload_defaults X (conf_workflow X) m) dev))
          ({[a]} ∪ expanders)
      else add_new_instances X next dev expanders
  end.

(** [dt_dev_reload_history_items]; [resync_iop_list] is
    [dt_ioppr_resync_iop_list] of the ordering code. *)
Definition dt_dev_reload_history_items (X : externals)
    (resync_iop_list : dt_develop_t -> dt_develop_t) (dev : dt_develop_t)
    (g : darktable_t) (expanders : gset nat)
  : option (dt_develop_t * darktable_t * gset nat) :=
  let dev0 := set_dev_focus_hash 0 dev in
  let dev1 := ordering_effect (dt_ioppr_set_default_iop_order X) dev0 in
  '(dev2, g2) ← dt_dev_pop_history_items X dev1 g 0;
  let unused := g_list_nth (dev_history dev2) (dev_history_end dev2) in
  dev3 ← forget_labels dev2 unused;
  let dev4 :=
    set_dev_history
      (take (length (dev_history dev3) - length unused)%nat (dev_history dev3))
      dev3 in
  '(dev5, g5) ← dt_dev_read_history X dev4 g2;
  '(dev6, expanders') ← add_new_instances X (dev_iop dev5) dev5 expanders;
  '(dev7, g7) ← dt_dev_pop_history_items X dev6 g5 (dev_history_end dev6);
  Some (ordering_effect resync_iop_list dev7, g7, expanders').

(** ** Notions used by the statements *)

Definition set_dev_status_of (k : pipe_kind) (v : dt_dev_pixelpipe_status_t)
    (dev : dt_develop_t) : dt_develop_t :=
  match k with
  | Full => set_dev_image_status v dev
  | Preview => set_dev_preview_status v dev
  | Secondary => set_dev_preview2_status v dev
  end.

(** The image carries [AUTO_PRESETS_APPLIED]. *)
Definition presets_applied (g : darktable_t) : bool :=
  has_flag (img_flags (dt_image_cache g)) DT_IMAGE_AUTO_PRESETS_APPLIED.

(** What the program does between two runs of the first part of a load: the
    rest of the load (the row loop and the write-back) and whatever follows
    until the image is loaded again. *)
Definition interlude : Type :=
  dt_develop_t * darktable_t -> dt_develop_t * darktable_t.

(** An interlude that does not clear [AUTO_PRESETS_APPLIED]. *)
Definition keeps_presets_applied (e : interlude) : Prop :=
  forall dev g, presets_applied g = true -> presets_applied (e (dev, g)).2 = true.

(** Successive loads of one image, each preceded by an interlude; a load is
    followed here up to the merge of [memory.history], the part that holds the
    preset resolver.  The result lists [first_run] of each load. *)
Fixpoint successive_loads (X : externals) (interludes : list interlude)
    (dev : dt_develop_t) (g : darktable_t) : option (list bool) :=
  match interludes with
  | [] => Some []
  | e :: next =>
      let '(dev1, g1) := e (dev, g) in
      '(dev2, g2, first_run, _) ←
        read_history_prelude X dev1 g1 (img_id (dev_image_storage dev1));
      runs ← successive_loads X next dev2 g2;
      Some (first_run :: runs)
  end.

(** A row of [memory.history] that the recovery of old edits inserts: the
    default white balance. *)
Definition recovered_row (X : externals) (imgid : Z) (r : db_row) : Prop :=
  row_operation r = Some "temperature"
  /\ exists m, r = default_module_row X m imgid.

(** Every history entry points to a module struct of the store. *)
Definition history_modules_live (dev : dt_develop_t) : Prop :=
  forall h, h ∈ dev_history dev -> is_Some (deref dev (hist_module h)).

(** The cursor lies within the stack. *)
Definition cursor_in_range (dev : dt_develop_t) : Prop :=
  0 <= dev_history_end dev <= Z.of_nat (length (dev_history dev)).

(** The active entries [[0, history_end)] and the redo tail. *)
Definition active_entries (dev : dt_develop_t) : list dt_dev_history_item_t :=
  take (Z.to_nat (dev_history_end dev)) (dev_history dev).

Definition redo_tail (dev : dt_develop_t) : list dt_dev_history_item_t :=
  drop (Z.to_nat (dev_history_end dev)) (dev_history dev).

(** The entry [p] belongs to an instance of the operation [so]. *)
Definition same_so (dev : dt_develop_t) (so : nat) (p : dt_dev_history_item_t)
  : bool :=
  match deref dev (hist_module p) with
  | Some pm => bool_decide (mod_so pm = so)
  | None => false
  end.

(** An entry that the clean-up before an append keeps, [prefix] being the
    entries before the cursor: its module has [hide_enable_button] or
    [default_enabled] set, and no entry of [prefix] belongs to the same
    operation. *)
Definition survives (dev : dt_develop_t) (prefix : list dt_dev_history_item_t)
    (hist : dt_dev_history_item_t) : bool :=
  match deref dev (hist_module hist) with
  | Some hm =>
      (mod_hide_enable_button hm || mod_default_enabled hm)
      && negb (existsb (same_so dev (mod_so hm)) prefix)
  | None => false
  end.

Definition survives_cleanup (dev : dt_develop_t) (hist : dt_dev_history_item_t)
  : bool :=
  survives dev (active_entries dev) hist.

(** The fields of a develop state that the autosave policy reads. *)
Definition autosave_inputs (dev : dt_develop_t)
  : bool * bool * Z * dt_image_t :=
  (dev_autosaving dev, dev_image_loading dev, dev_requested_id dev,
   dev_image_storage dev).

(** The append updates the top entry in place: there is an entry at
    [history_end - 1], no new item is requested, the entry belongs to the
    module, and either the focus hash is the one of the entry, or the masks
    are not included and the parameter bytes are those of the entry. *)
Definition updates_in_place (dev : dt_develop_t) (module : nat)
    (m : dt_iop_module_t) (new_item include_masks : bool) : bool :=
  match g_list_nth (dev_history dev) (dev_history_end dev - 1) with
  | [] => false
  | hist :: _ =>
      negb new_item
      && bool_decide (hist_module hist = Some module)
      && ((dev_focus_hash dev =? hist_focus_hash hist)
          || (negb include_masks
              && negb (memcmp (hist_params hist) (mod_params m)
                         (mod_params_size m))))
  end.

(** The change flag of each of the three pipelines carries [flag]. *)
Definition all_pipes_flagged (flag : Z) (dev : dt_develop_t) : Prop :=
  forall k, has_flag (pipe_changed (dev_pipe_of k dev)) flag = true.

(** The addresses of a list point to module structs of the store. *)
Definition modules_live (dev : dt_develop_t) (l : list nat) : Prop :=
  forall a, a ∈ l -> is_Some (dev_store dev !! a).




(** The ordering code reorders [dev->iop]: it neither adds nor removes a
    module. *)
Definition ordering_reorders (X : externals) : Prop :=
  (forall d, dev_iop (dt_ioppr_resync_modules_order X d) ≡ₚ dev_iop d)
  /\ (forall d, dev_iop (dt_ioppr_check_duplicate_iop_order X d) ≡ₚ dev_iop d)
  /\ (forall d, dev_iop (dt_ioppr_set_default_iop_order X d) ≡ₚ dev_iop d)
  /\ (forall d, dev_iop (dt_ioppr_auto_apply_order X d) ≡ₚ dev_iop d)
  /\ (forall d m, dev_iop (dt_ioppr_insert_module_instance X d m).1 ≡ₚ dev_iop d)
  /\ (forall d a b, dev_iop (dt_ioppr_move_iop_after X d a b).2 ≡ₚ dev_iop d).



(** An instance of the operation [instance] among the modules of [l]. *)
Definition instance_in (dev : dt_develop_t) (instance : Z) (l : list nat)
    (mc : dt_iop_module_t) : Prop :=
  exists c, c ∈ l /\ dev_store dev !! c = Some mc /\ mod_instance mc = instance.


(** A module that is always on: [DEFAULT_ENABLED] and [HIDE_ENABLE_BUTTON]. *)
Definition always_on (m : dt_iop_module_t) : bool :=
  mod_default_enabled m && mod_hide_enable_button m.

(** A module whose operation carries [NO_HISTORY_STACK]. *)
Definition no_history_stack (m : dt_iop_module_t) : bool :=
  has_flag (mod_flags m) IOP_FLAGS_NO_HISTORY_STACK.

(** P2: every entry of an always-on module is enabled. *)
Definition always_on_entries_enabled (dev : dt_develop_t) : Prop :=
  forall h m,
    h ∈ dev_history dev -> deref dev (hist_module h) = Some m ->
    always_on m = true -> hist_enabled h = true.

(** Every always-on module of [dev->iop] is enabled. *)
Definition always_on_modules_enabled (dev : dt_develop_t) : Prop :=
  forall a m,
    a ∈ dev_iop dev -> dev_store dev !! a = Some m ->
    always_on m = true -> mod_enabled m = true.

(** P1: no entry belongs to an operation that carries [NO_HISTORY_STACK]. *)
Definition history_free_of_no_history_stack (dev : dt_develop_t) : Prop :=
  forall h m,
    h ∈ dev_history dev -> deref dev (hist_module h) = Some m ->
    no_history_stack m = false.

(** The states of the history stack that the engine reaches.  A load reads
    the rows of the image into an empty stack; from then on the stack is
    popped to a cursor and modules are appended, in any order.  The appends
    are those that [may_append] admits: [may_append enable m] is asked for the
    argument [enable] of the call and the module struct [m] that the call
    finds. *)
Inductive reachable (X : externals)
    (may_append : bool -> dt_iop_module_t -> Prop) : dt_develop_t -> Prop :=
| reach_load dev g imgid no_image dev' g' :
    dev_history dev = [] ->
    dt_dev_read_history_ext X dev g imgid no_image = Some (dev', g') ->
    reachable X may_append dev'
| reach_pop dev g cnt dev' g' :
    reachable X may_append dev ->
    dt_dev_pop_history_items X dev g cnt = Some (dev', g') ->
    reachable X may_append dev'
| reach_append dev g module m enable new_item no_image include_masks
    auto_name_module now now_after dev' g' :
    reachable X may_append dev ->
    dev_store dev !! module = Some m ->
    may_append enable m ->
    _dev_add_history_item_ext X dev g module enable new_item no_image
      include_masks auto_name_module now now_after = Some (dev', g') ->
    reachable X may_append dev'.

(** An append that keeps P2: an always-on module is enabled by the call, or
    the call finds it enabled. *)
Definition appends_always_on_enabled (enable : bool) (m : dt_iop_module_t)
  : Prop :=
  always_on m = true -> enable || mod_enabled m = true.

(** Reloading the defaults of the white balance does not make it an
    always-on module. *)
Definition reload_keeps_white_balance_optional (X : externals) : Prop :=
  forall workflow m,
    mod_op m = "temperature" ->
    always_on (reload_defaults X workflow m) = true -> always_on m = true.

(** Relations between the states of a module struct before and after an
    operation: the type of the module is kept, and, when [track] is set, the
    operation does not make it an always-on module. *)
Definition keeps_type (m m' : dt_iop_module_t) : Prop :=
  mod_flags m' = mod_flags m /\ mod_op m' = mod_op m.

Definition keeps_kind (track : bool) (m m' : dt_iop_module_t) : Prop :=
  keeps_type m m'
  /\ (track = true -> always_on m' = true -> always_on m = true).

(** Every module struct of [s] is a module struct of [s'], related by [R]. *)
Definition store_le (R : dt_iop_module_t -> dt_iop_module_t -> Prop)
    (s s' : gmap nat dt_iop_module_t) : Prop :=
  forall a m, s !! a = Some m -> exists m', s' !! a = Some m' /\ R m m'.

(** The invariant of the history stack: the entries point to module structs,
    no entry belongs to a module that is [barred] from the stack, and, when
    [track] is set, the entries of always-on modules are enabled. *)
Definition stack_invariant (track : bool) (barred : dt_iop_module_t -> bool)
    (dev : dt_develop_t) : Prop :=
  history_modules_live dev
  /\ (track = true -> always_on_entries_enabled dev)
  /\ (forall h m,
        h ∈ dev_history dev -> deref dev (hist_module h) = Some m ->
        barred m = false).

(** [barred] is told from [flags()], and bars [NO_HISTORY_STACK] modules at
    most. *)
Definition bars_by_flags (barred : dt_iop_module_t -> bool) : Prop :=
  (forall m m', mod_flags m' = mod_flags m -> barred m' = barred m)
  /\ (forall m, no_history_stack m = false -> barred m = false).

(** The module remembered as [temperature] by the row loop is a white
    balance. *)
Definition is_white_balance (s : gmap nat dt_iop_module_t) (p : option nat)
  : Prop :=
  forall t, p = Some t -> exists m, s !! t = Some m /\ mod_op m = "temperature".

(** An always-on module is enabled; an operation on a module struct keeps
    that. *)
Definition enabled_if_always_on (m : dt_iop_module_t) : Prop :=
  always_on m = true -> mod_enabled m = true.

Definition keeps_enabled (m m' : dt_iop_module_t) : Prop :=
  keeps_kind true m m' /\ (enabled_if_always_on m -> enabled_if_always_on m').

(** What a pop establishes for the modules of [dev->iop]. *)
Definition popped_invariant (dev : dt_develop_t) : Prop :=
  modules_live dev (dev_iop dev) /\ always_on_modules_enabled dev.

(** Rows numbered upwards from [i], one after the other. *)
Definition numbered_from (i : Z) (rows : list db_row) : Prop :=
  forall k r, rows !! k = Some r -> row_num r = i + Z.of_nat k.

(** The shutdown protocol of the pipelines: a run of
    [dt_dev_pixelpipe_process] that ends with [gui_leaving] set reports an
    interruption. *)
Definition interrupts_when_leaving (X : externals) : Prop :=
  forall k d,
    dev_gui_leaving (dt_dev_pixelpipe_process X k d).2 = true ->
    (dt_dev_pixelpipe_process X k d).1 = true.

(** ** The specification's words

    The conditions under which the specification lets the engine act, written
    after its sentences; they are compared with the conditions of the code. *)

(** An append replaces the tail entry: no new item is requested, the tail
    entry is for the same module instance, with identical parameter bytes,
    mask set (when included) and focus hash. *)
Definition spec_replaces_tail (dev : dt_develop_t) (module : nat)
    (m : dt_iop_module_t) (new_item include_masks : bool) : bool :=
  match g_list_nth (dev_history dev) (dev_history_end dev - 1) with
  | [] => false
  | hist :: _ =>
      negb new_item
      && bool_decide (hist_module hist = Some module)
      && negb (memcmp (hist_params hist) (mod_params m) (mod_params_size m))
      && (negb include_masks || bool_decide (hist_forms hist = dev_forms dev))
      && (dev_focus_hash dev =? hist_focus_hash hist)
  end.

(** The clean-up preserves an entry of the redo tail: its operation is
    always-on ([DEFAULT_ENABLED] without [HIDE_ENABLE_BUTTON]), or it has an
    earlier occurrence in the history. *)
Definition spec_preserves (dev : dt_develop_t) (hist : dt_dev_history_item_t)
  : bool :=
  match deref dev (hist_module hist) with
  | Some hm =>
      (mod_default_enabled hm && negb (mod_hide_enable_button hm))
      || existsb (same_so dev (mod_so hm)) (active_entries dev)
  | None => false
  end.

(** The history is persisted: [now - last >= user_delay], the image is not
    loading, and the requested image is the current one. *)
Definition spec_persist_due (X : externals) (dev : dt_develop_t)
    (g : darktable_t) (now : Q) : bool :=
  Qle_bool (inject_Z (conf_autosave_interval X)) (now - dt_autosave_last g)
  && negb (dev_image_loading dev)
  && (dev_requested_id dev =? img_id (dev_image_storage dev)).

(** A render job publishes nothing: the status of the pipeline is
    [INVALID] or the one before the job, and the back-buffer is the one
    before the job. *)
Definition spec_publishes_nothing (k : pipe_kind) (dev dev' : dt_develop_t)
  : Prop :=
  (dev_status_of k dev' = DT_DEV_PIXELPIPE_INVALID
   \/ dev_status_of k dev' = dev_status_of k dev)
  /\ pipe_backbuf (dev_pipe_of k dev') = pipe_backbuf (dev_pipe_of k dev).

(** ** Sample states

    A darkroom with four module instances: an ordinary one, an always-on one,
    one that stays out of the history stack, and one that is enabled by
    default. *)
Definition sample_module (so : nat) (op : string)
    (default_enabled hide_enable_button : bool) (flags : Z) : dt_iop_module_t :=
  Build_module so op (Z.of_nat so) 0 EmptyString false default_enabled default_enabled
    hide_enable_button flags 1 [x01; x02] [x00; x00] 2%nat
    [x00; x00; x00; x00] [x00; x00; x00; x00] (Z.of_nat (String.length op))
    false false.

Definition sample_externals (autosave_interval : Z) : externals :=
  Build_externals
    (fun id => 0 <? id) autosave_interval false "scene-referred" true false
    (fun _ => true) (fun _ => false) (fun _ => false) (fun _ => false)
    4%nat 11 (fun _ => false)
    (fun so => Some (sample_module so "exposure" false false 0))
    (fun _ m => m)
    (fun _ _ _ => None) (fun _ _ _ => None)
    (fun _ _ _ _ _ => None)
    (fun _ _ _ _ t => t)
    (fun _ _ _ => false)
    (fun _ op _ => Z.of_nat (String.length op))
    (fun d => d) (fun d => d)
    (fun d m => (d, mod_iop_order m))
    (fun d _ _ => (true, d))
    (fun d => d) (fun d => d)
    (fun a b => mod_iop_order a - mod_iop_order b)
    (fun _ d => d)
    (fun _ d => (false, d))
    (fun _ _ => true)
    (fun _ _ => Build_viewport 1 0 0).

(** The same functions, with a darkroom that is left while a pipeline is
    processed: [dt_dev_pixelpipe_process] returns with [gui_leaving] set by
    the GUI thread, and, when [shutdown] is set, it reports the interruption
    that a shutdown of the pipeline causes. *)
Definition leaving_while_processing (shutdown : bool) (X : externals)
  : externals :=
  Build_externals
    (dt_is_valid_imgid X) (conf_autosave_interval X)
    (conf_auto_module_name_update X) (conf_workflow X)
    (dt_is_scene_referred X) (dt_is_display_referred X) (dt_image_is_raw X)
    (dt_image_is_hdr X) (dt_image_is_matrix_correction_supported X)
    (dt_image_monochrome_flags X) (blend_params_size X)
    (dt_develop_blend_version X) (dt_iop_is_hidden X) (dt_iop_load_module X)
    (dt_iop_reload_defaults X) (dt_iop_legacy_params X)
    (dt_develop_blend_legacy_params X) (dt_presets_get_module_label X)
    (sql_insert_auto_presets X) (dt_history_check_module_exists X)
    (dt_ioppr_get_iop_order X) (dt_ioppr_resync_modules_order X)
    (dt_ioppr_check_duplicate_iop_order X) (dt_ioppr_insert_module_instance X)
    (dt_ioppr_move_iop_after X) (dt_ioppr_set_default_iop_order X)
    (dt_ioppr_auto_apply_order X) (dt_sort_iop_by_order X)
    (dt_dev_pixelpipe_change X)
    (fun k d =>
       let '(interrupted, d') := dt_dev_pixelpipe_process X k d in
       (interrupted || shutdown, set_dev_gui_leaving true d'))
    (dt_mipmap_cache_get X) (dt_current_viewport X).

Definition sample_store : gmap nat dt_iop_module_t :=
  <[0%nat := sample_module 0 "exposure" false false 0]>
    (<[1%nat := sample_module 1 "colorin" true true 0]>
       (<[2%nat := sample_module 2 "overexposed" false false
                     IOP_FLAGS_NO_HISTORY_STACK]>
          (<[3%nat := sample_module 3 "highlights" true false 0]> ∅))).

Definition sample_pipe : dt_dev_pixelpipe_t :=
  Build_pixelpipe 0 0 false None [] [].

Definition sample_image : dt_image_t := Build_image 7 0 0.

Definition sample_develop (history : list dt_dev_history_item_t)
    (history_end : Z) (gui_leaving : bool) : dt_develop_t :=
  Build_develop [0%nat; 1%nat; 2%nat; 3%nat] sample_store history history_end
    0 [] [] sample_pipe sample_pipe sample_pipe sample_image 7
    false false false false false false
    DT_DEV_PIXELPIPE_DIRTY DT_DEV_PIXELPIPE_DIRTY DT_DEV_PIXELPIPE_DIRTY
    0 0 true true gui_leaving false true.

(** The sample darkroom before the first pop: the struct of the always-on
    module is not switched on yet. *)
Definition sample_develop_unpopped : dt_develop_t :=
  store_module 1
    (set_mod_enabled false (sample_module 1 "colorin" true true 0))
    (sample_develop [] 0 false).

Definition sample_entry (a : nat) (op : string) (params : bytes)
    (enabled : bool) : dt_dev_history_item_t :=
  Build_history_item (Some a) op 0 0 enabled params [x00; x00; x00; x00]
    (Z.of_nat (String.length op)) 0 EmptyString false [].

Definition sample_row (num : Z) (op : string) (enabled : Z) : db_row :=
  Build_row 7 num 1 (Some op) [x01; x02] enabled None 11 0 (Some EmptyString) 0.

Definition sample_darktable (rows : list db_row) : darktable_t :=
  Build_darktable sample_image rows [] (Z.of_nat (length rows)) 0%Q [].

(** The develop state and the database that an operation leaves, [dev] and
    [g] when it fails. *)
Definition dev_after (dev : dt_develop_t)
    (r : option (dt_develop_t * darktable_t)) : dt_develop_t :=
  match r with Some (dev', _) => dev' | None => dev end.

Definition darktable_after (g : darktable_t)
    (r : option (dt_develop_t * darktable_t)) : darktable_t :=
  match r with Some (_, g') => g' | None => g end.

(** * Properties *)

Lemma has_flag_lor c a b : has_flag c (Z.lor a b) = has_flag c a || has_flag c b.
Proof.
  unfold has_flag. rewrite Z.land_lor_distr_r.
  destruct (Z.land c a =? 0) eqn:Ea, (Z.land c b =? 0) eqn:Eb; simpl;
    rewrite ?negb_true_iff, ?negb_false_iff, ?Z.eqb_eq, ?Z.eqb_neq in *;
    rewrite ?Z.eqb_eq, ?Z.eqb_neq in *.
  - apply Z.lor_eq_0_iff. done.
  - intros [? ?]%Z.lor_eq_0_iff. done.
  - intros [? ?]%Z.lor_eq_0_iff. done.
  - intros [? ?]%Z.lor_eq_0_iff. done.
Qed.

Lemma has_flag_history_changed c :
  has_flag c history_changed_mask =
  has_flag c DT_DEV_PIPE_TOP_CHANGED || has_flag c DT_DEV_PIPE_REMOVE
  || has_flag c DT_DEV_PIPE_SYNCH.
Proof. unfold history_changed_mask. by rewrite !has_flag_lor. Qed.

Section WaitHash.
Variables (world : nat -> dt_develop_t) (k : pipe_kind) (iop_order : Q)
  (dir : dt_dev_transform_direction_t) (hash : nat -> Z).

Lemma wait_hash_loop_stops rem : forall n0 n,
  (n0 <= n < n0 + rem)%nat ->
  (forall i, (n0 <= i < n)%nat -> poll_once world k iop_order dir hash i = Some false) ->
  poll_once world k iop_order dir hash n = Some true ->
  wait_hash_loop world k iop_order dir hash n0 rem = Some true.
Proof.
  induction rem as [|rem IH]; intros n0 n Hn Hbefore Hstop; [lia|].
  simpl. destruct (decide (n0 = n)) as [->|Hne].
  - by rewrite Hstop.
  - rewrite (Hbefore n0) by lia. simpl.
    apply (IH (S n0) n); [lia| |done]. intros i Hi. apply Hbefore. lia.
Qed.

Lemma wait_hash_loop_times_out rem : forall n0,
  (forall i, (n0 <= i < n0 + rem)%nat -> poll_once world k iop_order dir hash i = Some false) ->
  wait_hash_loop world k iop_order dir hash n0 rem = Some false.
Proof.
  induction rem as [|rem IH]; intros n0 H; [done|].
  simpl. rewrite (H n0) by lia. simpl. apply IH. intros i Hi. apply H. lia.
Qed.

(** C8, as the code has it: [dt_dev_sync_pixelpipe_hash] polls at most [nloop]
    times.  With [nloop <= 0] it reports success at once, without a poll
    and without a redraw, whatever the hash.  When a poll stops the wait (the
    pipe shuts down, or the hashes agree) it reports success with no redraw.
    When no poll stops the wait it reports success and queues a redraw if the
    change flag of the pipe carries [TOP_CHANGED], [REMOVE] or [SYNCH], and
    reports a timeout otherwise. *)
Theorem sync_pixelpipe_hash_spec (nloop : Z) (g : darktable_t) :
  let sync := dt_dev_sync_pixelpipe_hash world k iop_order dir hash nloop g in
  (nloop <= 0 -> sync = Some (true, g))
  /\ (forall n, (n < Z.to_nat nloop)%nat ->
        (forall i, (i < n)%nat -> poll_once world k iop_order dir hash i = Some false) ->
        poll_once world k iop_order dir hash n = Some true ->
        sync = Some (true, g))
  /\ (0 < nloop ->
      (forall i, (i < Z.to_nat nloop)%nat ->
         poll_once world k iop_order dir hash i = Some false) ->
      let changed := pipe_changed (dev_pipe_of k (world (Z.to_nat nloop))) in
      let flagged :=
        has_flag changed DT_DEV_PIPE_TOP_CHANGED
        || has_flag changed DT_DEV_PIPE_REMOVE
        || has_flag changed DT_DEV_PIPE_SYNCH in
      sync = Some (flagged, if flagged then emit EvRedrawCenter g else g)).
Proof.
  intros sync. subst sync. unfold dt_dev_sync_pixelpipe_hash, dt_dev_wait_hash.
  split; [|split].
  - intros H. apply Z.leb_le in H. by rewrite H.
  - intros n Hn Hbefore Hstop.
    destruct (nloop <=? 0) eqn:E; [done|].
    rewrite (wait_hash_loop_stops _ 0%nat n); [done|lia| |done].
    intros i Hi. apply Hbefore. lia.
  - intros Hpos Hall.
    destruct (nloop <=? 0) eqn:E; [apply Z.leb_le in E; lia|].
    rewrite wait_hash_loop_times_out by (intros i Hi; apply Hall; lia).
    simpl. rewrite has_flag_history_changed.
    by destruct (_ || _).
Qed.
End WaitHash.

Lemma sync_pixelpipe_hash_witness :
  let world := fun _ : nat => sample_develop [] 0 false in
  let hash := fun _ : nat => 1 in
  0 < 3
  /\ (forall i, (i < Z.to_nat 3)%nat ->
        poll_once world Preview 0%Q DT_DEV_TRANSFORM_DIR_ALL hash i
        = Some false)
  /\ dt_dev_sync_pixelpipe_hash world Preview 0%Q DT_DEV_TRANSFORM_DIR_ALL hash 3
       (sample_darktable [])
     = Some (false, sample_darktable []).
Proof.
  intros world hash.
  assert (Hpolls : forall i, (i < Z.to_nat 3)%nat ->
            poll_once world Preview 0%Q DT_DEV_TRANSFORM_DIR_ALL hash i
            = Some false) by (intros i _; reflexivity).
  split; [lia|]. split; [exact Hpolls|].
  apply (sync_pixelpipe_hash_spec world Preview 0%Q DT_DEV_TRANSFORM_DIR_ALL
           hash 3 (sample_darktable [])); [lia|exact Hpolls].
Defined.

(** C8, as stated, fails: with [nloop = 0] the wait reports success while the
    hash is stale at every poll, and no redraw is queued. *)
Lemma sync_pixelpipe_hash_stale_success :
  ~ (forall world k iop_order dir hash nloop g g',
       (forall n, poll_once world k iop_order dir hash n = Some false) ->
       dt_dev_sync_pixelpipe_hash world k iop_order dir hash nloop g
       = Some (true, g') ->
       g' = emit EvRedrawCenter g).
Proof.
  intros H.
  specialize (H (fun _ => sample_develop [] 0 false) Preview 0%Q
                DT_DEV_TRANSFORM_DIR_ALL (fun _ => 1) 0 (sample_darktable [])
                (sample_darktable []) (fun _ => eq_refl) eq_refl).
  apply (f_equal dt_events) in H. discriminate H.
Qed.

Lemma Qlt_bool_iff a b : Qlt_bool a b = true <-> (a < b)%Q.
Proof.
  unfold Qlt_bool. rewrite negb_true_iff. split.
  - intros H. apply Qnot_le_lt. intros Hle. apply Qle_bool_iff in Hle. congruence.
  - intros H. destruct (Qle_bool b a) eqn:E; [|done].
    apply Qle_bool_iff in E. exfalso. eapply Qlt_not_le; eauto.
Qed.

Lemma cleanup_history_top_shape dev dev1 :
  cleanup_history_top dev = Some dev1 ->
  exists h e, dev1 = set_dev_history h (set_dev_history_end e dev).
Proof.
  unfold cleanup_history_top. intros H.
  destruct (drop_obsolete _ _ _ _ _) as [[h k]|] eqn:E; simpl in H; [|done].
  injection H as <-. eauto.
Qed.

Lemma cleanup_history_top_inputs dev dev1 :
  cleanup_history_top dev = Some dev1 ->
  autosave_inputs dev1 = autosave_inputs dev.
Proof. intros (h & e & ->)%cleanup_history_top_shape. reflexivity. Qed.

Lemma push_or_update_inputs X dev module enable new_item no_image include_masks dev2 :
  push_or_update X dev module enable new_item no_image include_masks = Some dev2 ->
  autosave_inputs dev2 = autosave_inputs dev.
Proof.
  unfold push_or_update. intros H.
  destruct (dev_store dev !! module) as [m0|]; simpl in H; [|done].
  injection H as <-.
  repeat match goal with
         | |- context [if ?b then _ else _] => destruct b
         | |- context [match ?l with [] => _ | _ :: _ => _ end] => destruct l
         end; reflexivity.
Qed.

Lemma auto_save_due_inputs X dev dev' g now :
  autosave_inputs dev' = autosave_inputs dev ->
  auto_save_due X dev' g now = auto_save_due X dev g now.
Proof.
  unfold autosave_inputs, auto_save_due. intros [= H1 H2 H3 H4].
  by rewrite H2, H3, H4.
Qed.

Lemma auto_save_due_iff X dev g now :
  auto_save_due X dev g now = true <->
  (1 <= inject_Z (conf_autosave_interval X))%Q
  /\ (inject_Z (conf_autosave_interval X) < now - dt_autosave_last g)%Q
  /\ dev_image_loading dev = false
  /\ dev_requested_id dev = img_id (dev_image_storage dev)
  /\ dt_is_valid_imgid X (img_id (dev_image_storage dev)) = true.
Proof.
  unfold auto_save_due.
  rewrite !andb_true_iff, Qle_bool_iff, Qlt_bool_iff, negb_true_iff, Z.eqb_eq.
  tauto.
Qed.

(** C7, as the code has it: whenever [_dev_add_history_item_ext] returns, the
    autosave is due exactly when the configured interval is at least one
    second, strictly less than [now - last], the image is not loading, the
    requested image is the current one and its id is valid; the history and
    the sidecar file are written exactly when autosaving is on and the
    autosave is due; and when such a write takes more than half a second,
    autosaving is switched off and a notice is logged. *)
Theorem autosave_policy X dev g module enable new_item no_image include_masks
    auto_name_module now now_after dev' g' :
  _dev_add_history_item_ext X dev g module enable new_item no_image
    include_masks auto_name_module now now_after = Some (dev', g') ->
  let imgid := img_id (dev_image_storage dev) in
  let due := dev_autosaving dev && auto_save_due X dev g now in
  let slow := Qlt_bool (1 # 2) (now_after - now) in
  (auto_save_due X dev g now = true <->
     (1 <= inject_Z (conf_autosave_interval X))%Q
     /\ (inject_Z (conf_autosave_interval X) < now - dt_autosave_last g)%Q
     /\ dev_image_loading dev = false
     /\ dev_requested_id dev = imgid
     /\ dt_is_valid_imgid X imgid = true)
  /\ dt_events g' =
       dt_events g ++
       (if due
        then [EvWriteHistory imgid; EvWriteSidecar imgid] ++
             (if slow then [EvControlLog slow_drive_notice] else [])
        else [])
  /\ dev_autosaving dev' = dev_autosaving dev && negb (due && slow).
Proof.
  intros H imgid due slow. split; [apply auto_save_due_iff|].
  unfold _dev_add_history_item_ext in H.
  destruct (dev_store dev !! module) as [m0|]; simpl in H; [|done].
  set (dev0 := if auto_name_module then _ else dev) in H.
  assert (Hin0 : autosave_inputs dev0 = autosave_inputs dev)
    by (subst dev0; destruct auto_name_module; reflexivity).
  destruct (cleanup_history_top dev0) as [dev1|] eqn:E1; simpl in H; [|done].
  destruct (push_or_update _ _ _ _ _ _ _) as [dev2|] eqn:E2; simpl in H; [|done].
  apply cleanup_history_top_inputs in E1. apply push_or_update_inputs in E2.
  assert (Hin : autosave_inputs dev2 = autosave_inputs dev) by congruence.
  pose proof (auto_save_due_inputs X dev dev2 g now Hin) as Hdue.
  injection Hin as Ha Hl Hr Hi.
  injection H as H. subst due slow imgid. rewrite <- Ha, <- Hdue, <- Hi.
  destruct (dev_autosaving dev2) eqn:Eauto; simpl.
  - unfold _dev_auto_save in H.
    destruct (auto_save_due X dev2 g now); simpl.
    + destruct (Qlt_bool (1 # 2) (now_after - now));
        injection H as <- <-; simpl; rewrite <- ?app_assoc; auto.
    + injection H as <- <-. rewrite app_nil_r. auto.
  - injection H as <- <-. rewrite app_nil_r. auto.
Qed.

Lemma autosave_policy_witness :
  let X := sample_externals 10 in
  let dev := sample_develop [] 0 false in
  let g := sample_darktable [] in
  let r := _dev_add_history_item_ext X dev g 0%nat true false false false false
             11%Q 12%Q in
  r = Some (dev_after dev r, darktable_after g r)
  /\ dt_events (darktable_after g r)
     = [EvWriteHistory 7; EvWriteSidecar 7; EvControlLog slow_drive_notice]
  /\ dev_autosaving (dev_after dev r) = false.
Proof.
  intros X dev g r.
  assert (Hr : r = Some (dev_after dev r, darktable_after g r))
    by (vm_compute; reflexivity).
  destruct (autosave_policy X dev g 0%nat true false false false false
              11%Q 12%Q _ _ Hr) as (_ & Hev & Hauto).
  split; [exact Hr|]. split; [rewrite Hev|rewrite Hauto]; reflexivity.
Defined.

(** C7, as stated, fails: with an autosave interval of zero seconds the
    specification persists the history on each edit, the code never does. *)
Lemma autosave_interval_below_one :
  ~ (forall X dev g module enable new_item no_image include_masks
       auto_name_module now now_after dev' g',
       dev_autosaving dev = true ->
       _dev_add_history_item_ext X dev g module enable new_item no_image
         include_masks auto_name_module now now_after = Some (dev', g') ->
       (spec_persist_due X dev g now = true
        <-> EvWriteHistory (img_id (dev_image_storage dev)) ∈ dt_events g')).
Proof.
  intros H.
  pose (dev := sample_develop [] 0 false). pose (g := sample_darktable []).
  pose (r := _dev_add_history_item_ext (sample_externals 0) dev g 0%nat true
               false false false false 5%Q 5%Q).
  specialize (H (sample_externals 0) dev g 0%nat true false false false false
                5%Q 5%Q (dev_after dev r) (darktable_after g r) eq_refl).
  destruct H as [H _]; [vm_compute; reflexivity|].
  specialize (H eq_refl). vm_compute in H. by apply elem_of_nil in H.
Qed.

(** C9, as the code has it: if [gui_leaving] is set when the render job of
    one of the three pipelines is entered, the job returns at once and leaves
    the develop state, its status and its back-buffer included, as it is; if
    it is set when a pass of the processing loop starts (the [restart:]
    label), the job marks the status of the pipeline [INVALID] and returns
    without processing and without publishing. *)
Theorem gui_leaving_blocks_publish X k fuel dev g :
  dev_gui_leaving dev = true ->
  render_job X k fuel dev g = Some (dev, g)
  /\ render_restart X k (S fuel) dev g
     = Some (set_dev_status_of k DT_DEV_PIXELPIPE_INVALID dev, g).
Proof.
  intros H. split.
  - destruct k; simpl.
    + unfold dt_dev_process_image_job. by rewrite H.
    + unfold dt_dev_process_preview_job. rewrite H. by destruct (dev_image_loading dev).
    + unfold dt_dev_process_preview2_job. rewrite H.
      by destruct (dev_image_loading dev), (dev_second_window_widget dev).
  - destruct k; simpl; by rewrite H.
Qed.

Lemma gui_leaving_blocks_publish_witness :
  let X := sample_externals 10 in
  let dev := sample_develop [] 0 true in
  let g := sample_darktable [] in
  dev_gui_leaving dev = true
  /\ render_job X Full 3 dev g = Some (dev, g)
  /\ render_restart X Full 4 dev g
     = Some (set_dev_status_of Full DT_DEV_PIXELPIPE_INVALID dev, g).
Proof.
  intros X dev g. split; [reflexivity|].
  apply (gui_leaving_blocks_publish X Full 3 dev g). reflexivity.
Defined.

(** C9, as stated, fails: the flag is read on entry and at the [restart:]
    label only.  A job that is in flight when the darkroom is left, and whose
    [dt_dev_pixelpipe_process] returns 0, goes on to publish [VALID] and a
    new back-buffer with [gui_leaving] set. *)
Lemma in_flight_job_publishes :
  ~ (forall X k fuel dev g dev' g',
       render_job X k fuel dev g = Some (dev', g') ->
       dev_gui_leaving dev' = true ->
       spec_publishes_nothing k dev dev').
Proof.
  intros H.
  pose (X := leaving_while_processing false (sample_externals 10)).
  pose (dev := sample_develop [] 0 false). pose (g := sample_darktable []).
  pose (r := render_job X Full 3 dev g).
  assert (Hr : r = Some (dev_after dev r, darktable_after g r))
    by (vm_compute; reflexivity).
  destruct (H X Full 3%nat dev g _ _ Hr) as [[Hs|Hs] _].
  - vm_compute. reflexivity.
  - vm_compute in Hs. discriminate Hs.
  - vm_compute in Hs. discriminate Hs.
Qed.

Lemma has_flag_lor_l c d f : has_flag (Z.lor c d) f = has_flag c f || has_flag d f.
Proof.
  unfold has_flag. rewrite Z.land_lor_distr_l.
  destruct (Z.land c f =? 0) eqn:Ea, (Z.land d f =? 0) eqn:Eb; simpl;
    rewrite ?negb_true_iff, ?negb_false_iff in *;
    rewrite ?Z.eqb_eq, ?Z.eqb_neq in *.
  - apply Z.lor_eq_0_iff. done.
  - intros [? ?]%Z.lor_eq_0_iff. done.
  - intros [? ?]%Z.lor_eq_0_iff. done.
  - intros [? ?]%Z.lor_eq_0_iff. done.
Qed.

(** The preset resolver. *)

Lemma recover_mandatory_modules_spec X image imgid modules : forall dev g dev' g',
  recover_mandatory_modules X image imgid modules dev g = Some (dev', g') ->
  dt_image_cache g' = dt_image_cache g
  /\ exists rows, dt_memory_history g' = dt_memory_history g ++ rows
                  /\ Forall (recovered_row X imgid) rows.
Proof.
  induction modules as [|a next IH]; intros dev g dev' g' H; simpl in H.
  - injection H as <- <-. split; [done|]. exists []. by rewrite app_nil_r.
  - destruct (dev_store dev !! a) as [m|]; simpl in H; [|done].
    destruct (_ && _) eqn:E in H.
    + apply IH in H as [Hc (rows & Hm & Hr)]. split; [done|].
      simpl in Hm. rewrite <- app_assoc in Hm. eexists. split; [exact Hm|].
      constructor; [|done]. split.
      * simpl. rewrite !andb_true_iff in E. destruct E as [[[_ _] Hop] _].
        apply String.eqb_eq in Hop. by rewrite Hop.
      * eauto.
    + by apply IH in H.
Qed.

Lemma add_default_modules_loop_cache X dev hide imgid modules : forall g g',
  add_default_modules_loop X dev hide imgid modules g = Some g' ->
  dt_image_cache g' = dt_image_cache g.
Proof.
  induction modules as [|a next IH]; intros g g' H; simpl in H.
  - by injection H as <-.
  - destruct (dev_store dev !! a) as [m|]; simpl in H; [|done].
    apply IH in H. rewrite H. by destruct (_ && _).
Qed.

Lemma add_default_modules_cache X dev g imgid g' :
  _dev_add_default_modules X dev g imgid = Some g' ->
  dt_image_cache g' = dt_image_cache g.
Proof.
  unfold _dev_add_default_modules. intros H.
  destruct (add_default_modules_loop X dev true imgid (dev_iop dev) g) as [g1|] eqn:E;
    simpl in H; [|done].
  apply add_default_modules_loop_cache in E, H. congruence.
Qed.

Lemma merge_history_cache g imgid :
  dt_image_cache (_dev_merge_history g imgid) = dt_image_cache g.
Proof. unfold _dev_merge_history. by destruct (0 <? _). Qed.

Lemma presets_applied_after_set flags :
  has_flag (Z.lor flags (Z.lor DT_IMAGE_AUTO_PRESETS_APPLIED DT_IMAGE_NO_LEGACY_PRESETS))
    DT_IMAGE_AUTO_PRESETS_APPLIED = true.
Proof. rewrite has_flag_lor_l. apply orb_true_r. Qed.

Lemma no_rows_recovered X imgid (l : list db_row) :
  exists rows, l = l ++ rows /\ Forall (recovered_row X imgid) rows.
Proof. exists []. by rewrite app_nil_r. Qed.

Lemma auto_apply_presets_single X dev g first_run dev' g' :
  _dev_auto_apply_presets X dev g = Some (first_run, dev', g') ->
  (presets_applied g = true ->
     first_run = false
     /\ dt_image_cache g' = dt_image_cache g
     /\ exists rows,
          dt_memory_history g' = dt_memory_history g ++ rows
          /\ Forall (recovered_row X (img_id (dev_image_storage dev))) rows)
  /\ (first_run = true ->
        presets_applied g = false
        /\ presets_applied g' = true
        /\ dt_memory_history g' =
             insert_auto_presets X (dt_image_cache g) (dt_memory_history g))
  /\ (presets_applied g = true -> presets_applied g' = true).
Proof.
  unfold _dev_auto_apply_presets, presets_applied. intros H.
  destruct (negb (dt_is_valid_imgid X _)) eqn:Ev in H.
  { injection H as <- <- <-.
    split; [intros _; split; [done|split; [done|apply no_rows_recovered]]|].
    split; [done|done]. }
  destruct (has_flag _ DT_IMAGE_AUTO_PRESETS_APPLIED) eqn:Ef; simpl in H.
  - (* the flag is already set *)
    destruct (if _ && _ then _ else _) as [[dev1 g1]|] eqn:E; simpl in H; [|done].
    injection H as <- <- <-.
    assert (dt_image_cache g1 = dt_image_cache g
            /\ exists rows, dt_memory_history g1 = dt_memory_history g ++ rows
                 /\ Forall (recovered_row X (img_id (dev_image_storage dev))) rows)
      as [Hc Hrows].
    { destruct (_ && _) in E.
      - by apply recover_mandatory_modules_spec in E.
      - injection E as <- <-. split; [done|apply no_rows_recovered]. }
    split; [done|]. split; [done|]. by rewrite Hc.
  - destruct (negb (dt_is_valid_imgid X (img_id (dt_image_cache g)))) eqn:Ev2;
      simpl in H.
    + destruct (if _ && _ then _ else _) as [[dev1 g1]|]; simpl in H; [|done].
      injection H as <- <- <-. split; [done|]. split; done.
    + injection H as <- <- <-. split; [done|]. split; [|done].
      intros _. split; [done|]. split; [|done].
      simpl. apply presets_applied_after_set.
Qed.

Lemma read_history_prelude_flag X dev g imgid dev' g' first_run n :
  read_history_prelude X dev g imgid = Some (dev', g', first_run, n) ->
  (presets_applied g = true -> first_run = false /\ presets_applied g' = true)
  /\ (first_run = true -> presets_applied g = false /\ presets_applied g' = true).
Proof.
  unfold read_history_prelude. intros H.
  destruct (_dt_dev_load_pipeline_defaults X dev) as [dev0|]; simpl in H; [|done].
  destruct (_dev_add_default_modules _ _ _ _) as [g1|] eqn:E1; simpl in H; [|done].
  destruct (_dev_auto_apply_presets X dev0 g1) as [[[fr dev1] g2]|] eqn:E2;
    simpl in H; [|done].
  injection H as <- <- <- <-.
  apply add_default_modules_cache in E1. simpl in E1.
  apply auto_apply_presets_single in E2 as (Ha & Hb & Hc).
  unfold presets_applied in *. rewrite merge_history_cache, E1 in *.
  split.
  - intros Hf. destruct (Ha Hf) as (-> & Hcache & _). by rewrite Hcache.
  - intros ->. destruct (Hb eq_refl) as (? & ? & _). done.
Qed.

Lemma successive_loads_once X interludes : forall dev g runs,
  Forall keeps_presets_applied interludes ->
  successive_loads X interludes dev g = Some runs ->
  (length (filter (fun b => b = true) runs) <= 1)%nat
  /\ (presets_applied g = true -> Forall (fun b => b = false) runs).
Proof.
  induction interludes as [|e next IH]; intros dev g runs Hk H; simpl in H.
  - injection H as <-. split; [simpl; lia|done].
  - apply Forall_cons in Hk as [Hke Hk].
    destruct (e (dev, g)) as [dev1 g1] eqn:Ee.
    destruct (read_history_prelude _ _ _ _) as [[[[dev2 g2] fr] n]|] eqn:Ep;
      simpl in H; [|done].
    destruct (successive_loads X next dev2 g2) as [rs|] eqn:Es; simpl in H; [|done].
    injection H as <-.
    apply read_history_prelude_flag in Ep as [Hset Hfirst].
    destruct (IH _ _ _ Hk Es) as [Hcount Hnone].
    assert (Hg1 : presets_applied g = true -> presets_applied g1 = true).
    { intros Hf. specialize (Hke dev g Hf). by rewrite Ee in Hke. }
    split.
    + destruct fr.
      * destruct (Hfirst eq_refl) as [_ Hg2]. specialize (Hnone Hg2).
        rewrite filter_cons_True by done. simpl.
        assert (filter (fun b => b = true) rs = []) as ->; [|simpl; lia].
        clear -Hnone. induction Hnone as [|b l Hb _ IHl]; [done|].
        rewrite filter_cons_False; [done|]. by rewrite Hb.
      * by rewrite filter_cons_False.
    + intros Hf. destruct (Hset (Hg1 Hf)) as [-> Hg2]. constructor; auto.
Qed.

Lemma write_history_cache X dev g imgid g' :
  _dev_write_history X dev g imgid = Some g' ->
  dt_image_cache g' = dt_image_cache g.
Proof.
  unfold _dev_write_history. intros H.
  destruct (write_history_items _ _ _ _ _); simpl in H; [|done].
  by injection H as <-.
Qed.

Lemma read_history_keeps_presets_applied X dev g imgid no_image dev' g' :
  dt_dev_read_history_ext X dev g imgid no_image = Some (dev', g') ->
  presets_applied g = true -> presets_applied g' = true.
Proof.
  unfold dt_dev_read_history_ext. intros H Hf.
  destruct (negb _); [by injection H as _ <-|].
  destruct (dev_iop dev); [by injection H as _ <-|].
  match type of H with
  | (?c ≫= _) = _ => destruct c as [[[[dev1 g1] fr] cnt]|] eqn:Epre
  end; simpl in H; [|done].
  assert (Hf1 : presets_applied g1 = true).
  { destruct no_image.
    - by injection Epre as _ <- _ _.
    - apply read_history_prelude_flag in Epre as [Hset _]. by apply Hset. }
  destruct (read_history_rows _ _ _ _ _ _); simpl in H; [|done].
  match type of H with
  | (?c ≫= _) = _ => destruct c
  end; simpl in H; [|done].
  destruct (_dev_write_history _ _ _ _) as [g2|] eqn:Ew; simpl in H; [|done].
  injection H as _ <-. apply write_history_cache in Ew.
  unfold presets_applied in *. by rewrite Ew.
Qed.

(** C4: across successive loads of an image, whatever happens in between as
    long as it does not clear [AUTO_PRESETS_APPLIED], the preset resolver runs
    at most once, and never when the flag is set at the start.  A run of
    [_dev_auto_apply_presets] that inserts the auto-applied presets into
    [memory.history] finds the flag unset and sets it; with the flag set it
    inserts no preset (it may recover the default white balance of an old
    edit) and leaves the flag set.  [dt_dev_read_history_ext] never clears the
    flag. *)
Theorem auto_presets_applied_once X interludes dev g runs :
  Forall keeps_presets_applied interludes ->
  successive_loads X interludes dev g = Some runs ->
  (length (filter (fun b => b = true) runs) <= 1)%nat
  /\ (presets_applied g = true -> Forall (fun b => b = false) runs)
  /\ (forall dev0 g0 first_run dev1 g1,
        _dev_auto_apply_presets X dev0 g0 = Some (first_run, dev1, g1) ->
        (first_run = true ->
           presets_applied g0 = false /\ presets_applied g1 = true
           /\ dt_memory_history g1
              = insert_auto_presets X (dt_image_cache g0) (dt_memory_history g0))
        /\ (presets_applied g0 = true ->
              first_run = false /\ presets_applied g1 = true
              /\ exists rows,
                   dt_memory_history g1 = dt_memory_history g0 ++ rows
                   /\ Forall (recovered_row X (img_id (dev_image_storage dev0)))
                        rows))
  /\ (forall dev0 g0 imgid no_image dev1 g1,
        dt_dev_read_history_ext X dev0 g0 imgid no_image = Some (dev1, g1) ->
        presets_applied g0 = true -> presets_applied g1 = true).
Proof.
  intros Hk H. destruct (successive_loads_once _ _ _ _ _ Hk H) as [Hc Hn].
  split; [done|]. split; [done|]. split.
  - intros dev0 g0 first_run dev1 g1 Ha.
    apply auto_apply_presets_single in Ha as (Hset & Hfirst & Hmono).
    split; [done|]. intros Hf. destruct (Hset Hf) as (-> & _ & Hrows). auto.
  - intros dev0 g0 imgid no_image dev1 g1.
    apply read_history_keeps_presets_applied.
Qed.

Lemma auto_presets_applied_once_witness :
  let X := sample_externals 10 in
  let interludes : list interlude := [fun s => s; fun s => s] in
  Forall keeps_presets_applied interludes
  /\ successive_loads X interludes (sample_develop [] 0 false)
       (sample_darktable []) = Some [true; false]
  /\ (length (filter (fun b => b = true) [true; false]) <= 1)%nat.
Proof.
  intros X interludes.
  assert (Hk : Forall keeps_presets_applied interludes)
    by (repeat constructor; intros dev g H; exact H).
  assert (Hl : successive_loads X interludes (sample_develop [] 0 false)
                 (sample_darktable []) = Some [true; false])
    by (vm_compute; reflexivity).
  split; [exact Hk|]. split; [exact Hl|].
  exact (proj1 (auto_presets_applied_once X interludes _ _ _ Hk Hl)).
Defined.

Lemma or_changed_all_flagged flag dev :
  has_flag flag flag = true -> all_pipes_flagged flag (or_changed_all flag dev).
Proof.
  intros H k. destruct k; simpl; rewrite has_flag_lor_l, H; apply orb_true_r.
Qed.

Lemma all_pipes_flagged_pipes flag dev dev' :
  dev_pipe dev' = dev_pipe dev ->
  dev_preview_pipe dev' = dev_preview_pipe dev ->
  dev_preview2_pipe dev' = dev_preview2_pipe dev ->
  all_pipes_flagged flag dev -> all_pipes_flagged flag dev'.
Proof. intros H1 H2 H3 H k. specialize (H k). destruct k; simpl in *; congruence. Qed.

Lemma needs_new_item_in_place dev module m new_item include_masks hist :
  needs_new_item dev module m new_item include_masks hist
  = negb (negb new_item
          && bool_decide (hist_module hist = Some module)
          && ((dev_focus_hash dev =? hist_focus_hash hist)
              || (negb include_masks
                  && negb (memcmp (hist_params hist) (mod_params m)
                             (mod_params_size m))))).
Proof.
  unfold needs_new_item. rewrite !Z.eqb_refl.
  rewrite (bool_decide_eq_true_2 (mod_params_size m = mod_params_size m)) by done.
  simpl.
  by destruct new_item, (bool_decide (hist_module hist = Some module)),
    (dev_focus_hash dev =? hist_focus_hash hist), include_masks,
    (memcmp _ _ _).
Qed.

Lemma push_or_update_spec X dev module m0 (enable new_item include_masks : bool) :
  dev_store dev !! module = Some m0 ->
  let m := if enable then set_mod_enabled true m0 else m0 in
  exists dev',
    push_or_update X dev module enable new_item false include_masks = Some dev'
    /\ dev_focus_hash dev' = dev_focus_hash dev
    /\ dev_iop dev' = dev_iop dev
    /\ dev_store dev' =
         <[module := if mod_enabled m then set_mod_write_input_hint true m else m]>
           (dev_store dev)
    /\ (if updates_in_place dev module m new_item include_masks
        then dev_history dev' =
               <[Z.to_nat (dev_history_end dev - 1) :=
                   updated_history_item X (store_module module m dev) m include_masks
                     (default (new_history_item X dev module m include_masks)
                        (head (g_list_nth (dev_history dev) (dev_history_end dev - 1))))]>
                 (dev_history dev)
             /\ dev_history_end dev' = dev_history_end dev
             /\ all_pipes_flagged DT_DEV_PIPE_TOP_CHANGED dev'
        else dev_history dev' =
               dev_history dev
               ++ [new_history_item X (store_module module m dev) module m include_masks]
             /\ dev_history_end dev' = dev_history_end dev + 1
             /\ all_pipes_flagged DT_DEV_PIPE_SYNCH dev').
Proof.
  intros Hm m. unfold push_or_update, updates_in_place. rewrite Hm. simpl.
  fold m. eexists. split; [reflexivity|].
  assert (Hstore : forall d : dt_develop_t,
            dev_store d = <[module := m]> (dev_store dev) ->
            dev_store (if mod_enabled m && negb false
                       then store_module module (set_mod_write_input_hint true m) d
                       else d)
            = <[module := if mod_enabled m then set_mod_write_input_hint true m else m]>
                (dev_store dev)).
  { intros d Hd. destruct (mod_enabled m); simpl; [|done].
    by rewrite Hd, insert_insert_eq. }
  destruct (g_list_nth (dev_history dev) (dev_history_end dev - 1)) as [|hist rest].
  - split; [by destruct (mod_enabled m)|]. split; [by destruct (mod_enabled m)|].
    split; [by apply Hstore|].
    split; [by destruct (mod_enabled m)|]. split; [by destruct (mod_enabled m)|].
    eapply all_pipes_flagged_pipes; [..|apply (or_changed_all_flagged DT_DEV_PIPE_SYNCH); done];
      by destruct (mod_enabled m).
  - rewrite needs_new_item_in_place. simpl.
    destruct (negb new_item && _ && _) eqn:E; simpl.
    + split; [by destruct (mod_enabled m)|]. split; [by destruct (mod_enabled m)|].
      split; [by apply Hstore|].
      split; [by destruct (mod_enabled m)|]. split; [by destruct (mod_enabled m)|].
      eapply all_pipes_flagged_pipes;
        [..|apply (or_changed_all_flagged DT_DEV_PIPE_TOP_CHANGED); done];
        by destruct (mod_enabled m).
    + split; [by destruct (mod_enabled m)|]. split; [by destruct (mod_enabled m)|].
      split; [by apply Hstore|].
      split; [by destruct (mod_enabled m)|]. split; [by destruct (mod_enabled m)|].
      eapply all_pipes_flagged_pipes; [..|apply (or_changed_all_flagged DT_DEV_PIPE_SYNCH); done];
        by destruct (mod_enabled m).
Qed.

(** The clean-up of the redo tail. *)
Lemma g_list_nth_drop {A} (l : list A) (n : Z) :
  0 <= n -> g_list_nth l n = drop (Z.to_nat n) l.
Proof. intros H. unfold g_list_nth. destruct (n <? 0) eqn:E; [lia|done]. Qed.

Lemma g_list_nth_neg {A} (l : list A) (n : Z) : n < 0 -> g_list_nth l n = [].
Proof. intros H. unfold g_list_nth. destruct (n <? 0) eqn:E; [done|lia]. Qed.

Lemma elem_of_take_l {A} (x : A) n l : x ∈ take n l -> x ∈ l.
Proof. intros H. rewrite <- (take_drop n l). apply elem_of_app. by left. Qed.

Lemma elem_of_drop_l {A} (x : A) n l : x ∈ drop n l -> x ∈ l.
Proof. intros H. rewrite <- (take_drop n l). apply elem_of_app. by right. Qed.

Lemma earlier_entry_existsb dev prior so :
  (forall p, p ∈ prior -> is_Some (deref dev (hist_module p))) ->
  earlier_entry dev prior so = Some (existsb (same_so dev so) prior).
Proof.
  induction prior as [|p prev IH]; intros Hlive; [done|].
  simpl. unfold same_so at 1.
  destruct (Hlive p) as [pm Hpm]; [left|]. rewrite Hpm. simpl.
  destruct (bool_decide (mod_so pm = so)); [done|].
  apply IH. intros q Hq. apply Hlive. by right.
Qed.

Lemma existsb_reverse {A} (f : A -> bool) (l : list A) :
  existsb f (reverse l) = existsb f l.
Proof.
  induction l as [|x l IH]; [done|].
  rewrite reverse_cons, existsb_app, IH. simpl. rewrite orb_false_r. apply orb_comm.
Qed.

Lemma prior_entries_prefix (prefix more : list dt_dev_history_item_t) :
  prior_entries (prefix ++ more) (Z.of_nat (length prefix)) = reverse prefix.
Proof.
  unfold prior_entries. destruct prefix as [|x prefix].
  - reflexivity.
  - rewrite g_list_nth_drop by (simpl; lia).
    rewrite Nat2Z.id, take_app_length.
    destruct (drop _ _) eqn:E; [|done].
    apply (f_equal length) in E. rewrite length_drop, length_app in E.
    simpl in E. lia.
Qed.

Section Cleanup.
Variable dev : dt_develop_t.
Variable prefix : list dt_dev_history_item_t.
Hypothesis prefix_live : forall p, p ∈ prefix -> is_Some (deref dev (hist_module p)).

Lemma drop_obsolete_filter he rest : forall kept_items kept,
  he = Z.of_nat (length prefix) ->
  (forall h, h ∈ rest -> is_Some (deref dev (hist_module h))) ->
  drop_obsolete dev he (prefix ++ kept_items) rest kept
  = Some (prefix ++ kept_items ++ filter (fun h => survives dev prefix h = true) rest,
          kept + Z.of_nat (length (filter (fun h => survives dev prefix h = true) rest))).
Proof.
  induction rest as [|hist next IH]; intros kept_items kept Hhe Hlive.
  - simpl. rewrite app_nil_r, Z.add_0_r. done.
  - destruct (Hlive hist) as [hm Hhm]; [left|].
    assert (Hprior : earlier_entry dev
                       (prior_entries ((prefix ++ kept_items) ++ hist :: next) he)
                       (mod_so hm)
                     = Some (existsb (same_so dev (mod_so hm)) prefix)).
    { rewrite <- app_assoc, Hhe, prior_entries_prefix.
      rewrite earlier_entry_existsb
        by (intros p Hp; apply prefix_live; by apply elem_of_reverse).
      by rewrite existsb_reverse. }
    assert (Hnext : forall h, h ∈ next -> is_Some (deref dev (hist_module h)))
      by (intros h Hh; apply Hlive; by right).
    assert (Hs : survives dev prefix hist =
                 negb ((negb (mod_hide_enable_button hm) && negb (mod_default_enabled hm))
                       || existsb (same_so dev (mod_so hm)) prefix)).
    { unfold survives. rewrite Hhm.
      by destruct (mod_hide_enable_button hm), (mod_default_enabled hm), (existsb _ _). }
    cbn [drop_obsolete]. rewrite Hhm. cbn [mbind option_bind]. rewrite Hprior.
    cbn [mbind option_bind].
    destruct (_ || _) eqn:E.
    + rewrite filter_cons_False by (rewrite Hs; simpl; done).
      by apply IH.
    + rewrite filter_cons_True by (rewrite Hs; done).
      rewrite <- (app_assoc prefix). rewrite IH by done.
      cbn [length]. rewrite <- !app_assoc. simpl. f_equal. f_equal. lia.
Qed.
End Cleanup.

Lemma remove_nil_items_in_range fuel (history : list dt_dev_history_item_t) he :
  0 <= he <= Z.of_nat (length history) ->
  remove_nil_items fuel history he = he.
Proof.
  intros H. destruct fuel as [|fuel]; [done|]. simpl.
  destruct (decide (he = 0)) as [->|Hne].
  - simpl. by destruct (g_list_nth history (0 - 1)).
  - rewrite g_list_nth_drop by lia.
    destruct (drop _ _) eqn:E; [|done].
    apply (f_equal length) in E. rewrite length_drop in E. simpl in E. lia.
Qed.

Lemma cleanup_history_top_spec (dev : dt_develop_t) :
  cursor_in_range dev ->
  history_modules_live dev ->
  let kept := filter (fun h => survives_cleanup dev h = true) (redo_tail dev) in
  cleanup_history_top dev
  = Some (set_dev_history (active_entries dev ++ kept)
            (set_dev_history_end (dev_history_end dev + Z.of_nat (length kept))
               dev)).
Proof.
  intros [Hlo Hhi] Hlive kept. unfold cleanup_history_top.
  rewrite g_list_nth_drop by done.
  rewrite length_drop.
  replace (length (dev_history dev) - (length (dev_history dev) - Z.to_nat (dev_history_end dev)))%nat
    with (Z.to_nat (dev_history_end dev)) by lia.
  set (prefix := take (Z.to_nat (dev_history_end dev)) (dev_history dev)).
  assert (Hlen : Z.of_nat (length prefix) = dev_history_end dev).
  { subst prefix. rewrite length_take. lia. }
  pose proof (drop_obsolete_filter dev prefix
                (fun p Hp => Hlive p (elem_of_take_l _ _ _ Hp))
                (dev_history_end dev)
                (drop (Z.to_nat (dev_history_end dev)) (dev_history dev)) [] 0) as Hd.
  rewrite app_nil_r in Hd. rewrite Hd; clear Hd; [|done|].
  2:{ intros h Hh. apply Hlive. eapply elem_of_drop_l; eauto. }
  simpl.
  rewrite remove_nil_items_in_range.
  2:{ rewrite length_app. lia. }
  reflexivity.
Qed.

Ltac sample_members :=
  repeat match goal with
  | H : _ ∈ _ :: _ |- _ => apply elem_of_cons in H as [->|H]
  | H : _ ∈ [] |- _ => by apply elem_of_nil in H
  end.

(** C2, as the code has it: before an append, an entry of the redo tail is
    kept exactly when its module has [hide_enable_button] or
    [default_enabled] set and no entry below the cursor belongs to the same
    operation; the other entries of the redo tail are dropped, the kept ones
    stay in order above the active entries, and [history_end] moves up by the
    number of kept entries. *)
Theorem redo_tail_cleanup (dev : dt_develop_t) :
  cursor_in_range dev ->
  history_modules_live dev ->
  let kept := filter (fun h => survives_cleanup dev h = true) (redo_tail dev) in
  cleanup_history_top dev
  = Some (set_dev_history (active_entries dev ++ kept)
            (set_dev_history_end (dev_history_end dev + Z.of_nat (length kept))
               dev)).
Proof. exact (cleanup_history_top_spec dev). Qed.

Lemma redo_tail_cleanup_witness :
  let exposure := sample_entry 0 "exposure" [x05; x06] true in
  let colorin := sample_entry 1 "colorin" [x01; x02] true in
  let dev := sample_develop [exposure; colorin] 1 false in
  cursor_in_range dev
  /\ history_modules_live dev
  /\ cleanup_history_top dev
     = Some (sample_develop [exposure; colorin] 2 false).
Proof.
  intros exposure colorin dev.
  assert (Hc : cursor_in_range dev) by (unfold cursor_in_range; simpl; lia).
  assert (Hl : history_modules_live dev)
    by (intros h Hh; simpl in Hh; sample_members; vm_compute; eauto).
  split; [exact Hc|]. split; [exact Hl|].
  rewrite (redo_tail_cleanup dev Hc Hl). reflexivity.
Defined.

(** C2, as stated, fails: an entry of the redo tail whose operation is
    enabled by default, shows its enable button and has an earlier entry in
    the history is dropped. *)
Lemma redo_tail_duplicate_dropped :
  ~ (forall dev dev1,
       cursor_in_range dev -> history_modules_live dev ->
       cleanup_history_top dev = Some dev1 ->
       dev_history dev1
       = active_entries dev
         ++ filter (fun h => spec_preserves dev h = true) (redo_tail dev)).
Proof.
  intros H.
  pose (dev := sample_develop [sample_entry 3 "highlights" [x05; x06] true;
                               sample_entry 3 "highlights" [x07; x08] true]
                 1 false).
  specialize (H dev (dev_after dev (option_map (fun d => (d, sample_darktable []))
                                      (cleanup_history_top dev)))).
  apply (f_equal length) in H.
  - vm_compute in H. discriminate H.
  - unfold cursor_in_range. simpl. lia.
  - intros h Hh. simpl in Hh. sample_members; vm_compute; eauto.
  - vm_compute. reflexivity.
Qed.

Lemma survives_cleanup_live dev h :
  survives_cleanup dev h = true -> is_Some (deref dev (hist_module h)).
Proof.
  unfold survives_cleanup, survives.
  destruct (deref dev (hist_module h)); [eauto|done].
Qed.

(** What the clean-up leaves: the cursor is at the top of the stack and the
    entries are entries of the old stack. *)
Lemma cleanup_history_top_result dev :
  cursor_in_range dev -> history_modules_live dev ->
  exists dev1,
    cleanup_history_top dev = Some dev1
    /\ dev_history_end dev1 = Z.of_nat (length (dev_history dev1))
    /\ dev_store dev1 = dev_store dev
    /\ dev_focus_hash dev1 = dev_focus_hash dev
    /\ dev_iop dev1 = dev_iop dev
    /\ (forall h, h ∈ dev_history dev1 -> h ∈ dev_history dev).
Proof.
  intros Hc Hl. eexists. split; [by apply cleanup_history_top_spec|].
  simpl. split; [|split; [done|split; [done|split; [done|]]]].
  - rewrite length_app. unfold active_entries. rewrite length_take.
    destruct Hc. lia.
  - intros h [Hh|Hh]%elem_of_app.
    + by apply elem_of_take_l in Hh.
    + apply list_elem_of_filter in Hh as [_ Hh]. by apply elem_of_drop_l in Hh.
Qed.


Lemma take_memcpy_fresh n (src : bytes) :
  take n (memcpy (malloc n) src n) = take n src.
Proof.
  unfold memcpy, malloc. rewrite (drop_ge (replicate n x00)) by (by rewrite length_replicate).
  rewrite app_nil_r. rewrite take_take. f_equal. lia.
Qed.

Lemma take_memcpy_full n (dst src : bytes) :
  (n <= length src)%nat -> take n (memcpy dst src n) = take n src.
Proof.
  intros H. unfold memcpy. rewrite take_app_le by (rewrite length_take; lia).
  rewrite take_take. f_equal. lia.
Qed.

(** The autosave leaves the stack, the store and the pipes alone. *)
Lemma auto_save_frame X d g now now_after :
  let d' := (_dev_auto_save X d g now now_after).1 in
  dev_history d' = dev_history d
  /\ dev_history_end d' = dev_history_end d
  /\ dev_store d' = dev_store d
  /\ dev_focus_hash d' = dev_focus_hash d
  /\ dev_iop d' = dev_iop d
  /\ dev_pipe d' = dev_pipe d
  /\ dev_preview_pipe d' = dev_preview_pipe d
  /\ dev_preview2_pipe d' = dev_preview2_pipe d.
Proof.
  unfold _dev_auto_save. destruct (auto_save_due X d g now); [|done].
  by destruct (Qlt_bool _ _).
Qed.

Lemma g_list_nth_last {A} (l : list A) (x : A) :
  g_list_nth (l ++ [x]) (Z.of_nat (length l) + 1 - 1) = [x].
Proof.
  rewrite g_list_nth_drop by lia.
  replace (Z.to_nat (Z.of_nat (length l) + 1 - 1)) with (length l) by lia.
  by rewrite drop_app_length.
Qed.

Lemma g_list_nth_top_insert {A} (l : list A) (x y : A) rest :
  g_list_nth l (Z.of_nat (length l) - 1) = y :: rest ->
  g_list_nth (<[Z.to_nat (Z.of_nat (length l) - 1) := x]> l)
    (Z.of_nat (length l) - 1) = [x].
Proof.
  intros H. destruct l as [|a l _] using rev_ind; [done|].
  rewrite length_app in *. simpl in *.
  replace (Z.of_nat (length l + 1) - 1) with (Z.of_nat (length l)) in * by lia.
  rewrite g_list_nth_drop in * by lia. rewrite Nat2Z.id in *.
  rewrite insert_app_r_alt by lia. rewrite Nat.sub_diag. simpl.
  by rewrite drop_app_length.
Qed.

Lemma g_list_nth_lookup {A} (l : list A) (n : Z) (x : A) rest :
  g_list_nth l n = x :: rest -> l !! Z.to_nat n = Some x.
Proof.
  unfold g_list_nth. destruct (n <? 0); [done|]. intros H.
  rewrite <- (Nat.add_0_r (Z.to_nat n)), <- lookup_drop, H. done.
Qed.

Lemma append_result X dev g module m0 (enable new_item include_masks : bool)
    now now_after :
  cursor_in_range dev -> history_modules_live dev ->
  dev_store dev !! module = Some m0 ->
  let m := if enable then set_mod_enabled true m0 else m0 in
  exists dev1 dev' g',
    cleanup_history_top dev = Some dev1
    /\ _dev_add_history_item_ext X dev g module enable new_item false
         include_masks false now now_after = Some (dev', g')
    /\ dev_history_end dev1 = Z.of_nat (length (dev_history dev1))
    /\ (if updates_in_place dev1 module m new_item include_masks
        then exists hist,
               dev_history dev1 !! Z.to_nat (dev_history_end dev1 - 1)
               = Some hist
               /\ dev_history dev' =
                    <[Z.to_nat (dev_history_end dev1 - 1) :=
                        updated_history_item X dev1 m include_masks hist]>
                      (dev_history dev1)
               /\ dev_history_end dev' = dev_history_end dev1
               /\ all_pipes_flagged DT_DEV_PIPE_TOP_CHANGED dev'
        else dev_history dev' =
               dev_history dev1
               ++ [new_history_item X (store_module module m dev1) module m
                     include_masks]
             /\ dev_history_end dev' = dev_history_end dev1 + 1
             /\ all_pipes_flagged DT_DEV_PIPE_SYNCH dev')
    /\ dev_history_end dev' = Z.of_nat (length (dev_history dev'))
    /\ history_modules_live dev'
    /\ dev_focus_hash dev' = dev_focus_hash dev
    /\ dev_store dev' =
         <[module := if mod_enabled m then set_mod_write_input_hint true m
                     else m]> (dev_store dev)
    /\ (exists hist,
          g_list_nth (dev_history dev') (dev_history_end dev' - 1) = [hist]
          /\ hist_module hist = Some module
          /\ ((mod_params_size m0 <= length (mod_params m0))%nat ->
              take (mod_params_size m0) (hist_params hist)
              = take (mod_params_size m0) (mod_params m0))).
Proof.
  intros Hc Hl Hm m.
  destruct (cleanup_history_top_result dev Hc Hl)
    as (dev1 & Eclean & Htop & Hstore1 & Hfocus1 & Hiop1 & Hsub).
  assert (Hm1 : dev_store dev1 !! module = Some m0) by (by rewrite Hstore1).
  destruct (push_or_update_spec X dev1 module m0 enable new_item include_masks Hm1)
    as (dev2 & Epush & Hfocus2 & Hiop2 & Hstore2 & Hcase).
  fold m in Hstore2, Hcase.
  unfold _dev_add_history_item_ext. rewrite Hm. simpl. rewrite Eclean. simpl.
  rewrite Epush. simpl.
  set (r := if dev_autosaving dev2 then _dev_auto_save X dev2 g now now_after
            else (dev2, g)).
  assert (Hframe : dev_history r.1 = dev_history dev2
                   /\ dev_history_end r.1 = dev_history_end dev2
                   /\ dev_store r.1 = dev_store dev2
                   /\ dev_focus_hash r.1 = dev_focus_hash dev2
                   /\ dev_iop r.1 = dev_iop dev2
                   /\ dev_pipe r.1 = dev_pipe dev2
                   /\ dev_preview_pipe r.1 = dev_preview_pipe dev2
                   /\ dev_preview2_pipe r.1 = dev_preview2_pipe dev2).
  { subst r. destruct (dev_autosaving dev2); [apply auto_save_frame|done]. }
  destruct Hframe as (Fh & Fe & Fs & Ff & Fi & Fp1 & Fp2 & Fp3).
  exists dev1, r.1, r.2. split; [done|]. split; [by destruct r|].
  split; [done|].
  assert (Hlive1 : forall h, h ∈ dev_history dev1 ->
            is_Some (deref r.1 (hist_module h))).
  { intros h Hh. apply Hsub, Hl in Hh.
    destruct (hist_module h) as [b|]; simpl in *; [|done].
    rewrite Fs, Hstore2. destruct (decide (module = b)) as [->|Hne].
    - rewrite lookup_insert_eq. eauto.
    - rewrite lookup_insert_ne by done. by rewrite Hstore1. }
  assert (Hlivem : is_Some (deref r.1 (Some module))).
  { simpl. rewrite Fs, Hstore2, lookup_insert_eq. eauto. }
  assert (Hmparams : mod_params m = mod_params m0
                     /\ mod_params_size m = mod_params_size m0)
    by (subst m; by destruct enable).
  destruct Hmparams as [Hmp Hms].
  assert (Hstorem : dev_store r.1 =
            <[module := if mod_enabled m then set_mod_write_input_hint true m
                        else m]> (dev_store dev))
    by (by rewrite Fs, Hstore2, Hstore1).
  rewrite Fh, Fe, Ff, Hfocus2, Hfocus1.
  unfold updates_in_place in *.
  destruct (g_list_nth (dev_history dev1) (dev_history_end dev1 - 1))
    as [|hist rest] eqn:Enth.
  - (* no top entry: push *)
    destruct Hcase as (Hh & He & Hflag).
    split.
    { split; [done|]. split; [done|].
      eapply all_pipes_flagged_pipes; eauto. }
    split; [rewrite Hh, He, Htop, length_app; simpl; lia|].
    split.
    { intros h. unfold history_modules_live. rewrite Fh, Hh.
      intros [Hh1| ->%list_elem_of_singleton]%elem_of_app; [by apply Hlive1|done]. }
    split; [done|]. split; [done|].
    eexists. rewrite Hh, He, Htop. split; [apply g_list_nth_last|].
    split; [done|]. intros _. simpl. rewrite Hms, Hmp. apply take_memcpy_fresh.
  - simpl in Hcase.
    destruct (negb new_item && _ && _) eqn:E.
    + (* update in place *)
      destruct Hcase as (Hh & He & Hflag).
      split.
      { exists hist. split; [by apply g_list_nth_lookup in Enth|].
        split; [exact Hh|]. split; [done|].
        eapply all_pipes_flagged_pipes; eauto. }
      split; [rewrite Hh, He, length_insert; done|].
      apply andb_true_iff in E as [E _]. apply andb_true_iff in E as [_ E].
      apply bool_decide_eq_true in E.
      split.
      { intros h. unfold history_modules_live. rewrite Fh, Hh.
        intros Hin. apply list_elem_of_lookup in Hin as [i Hi].
        destruct (decide (i = Z.to_nat (dev_history_end dev1 - 1))) as [->|Hne].
        - rewrite list_lookup_insert_eq in Hi.
          + injection Hi as <-. simpl. rewrite E. done.
          + apply lookup_lt_Some in Hi. by rewrite length_insert in Hi.
        - rewrite list_lookup_insert_ne in Hi by done.
          apply Hlive1. eapply list_elem_of_lookup_2; eauto. }
      split; [done|]. split; [done|].
      eexists. rewrite Hh, He. rewrite Htop in *.
      split; [eapply g_list_nth_top_insert; eauto|].
      split; [done|]. intros Hlen. simpl. rewrite Hms, Hmp.
      by apply take_memcpy_full.
    + (* push *)
      destruct Hcase as (Hh & He & Hflag).
      split.
      { split; [done|]. split; [done|].
        eapply all_pipes_flagged_pipes; eauto. }
      split; [rewrite Hh, He, Htop, length_app; simpl; lia|].
      split.
      { intros h. unfold history_modules_live. rewrite Fh, Hh.
        intros [Hh1| ->%list_elem_of_singleton]%elem_of_app; [by apply Hlive1|done]. }
      split; [done|]. split; [done|].
      eexists. rewrite Hh, He, Htop. split; [apply g_list_nth_last|].
      split; [done|]. intros _. simpl. rewrite Hms, Hmp. apply take_memcpy_fresh.
Qed.

(** The clean-up leaves a stack alone whose cursor is at the top. *)
Lemma cleanup_history_top_at_top dev dev1 :
  history_modules_live dev ->
  dev_history_end dev = Z.of_nat (length (dev_history dev)) ->
  cleanup_history_top dev = Some dev1 ->
  dev_history dev1 = dev_history dev
  /\ dev_history_end dev1 = dev_history_end dev
  /\ dev_forms dev1 = dev_forms dev
  /\ dev_focus_hash dev1 = dev_focus_hash dev.
Proof.
  intros Hl Htop Hclean.
  rewrite cleanup_history_top_spec in Hclean
    by (done || unfold cursor_in_range; lia).
  injection Hclean as <-. simpl.
  assert (Hactive : active_entries dev = dev_history dev).
  { unfold active_entries. rewrite Htop, Nat2Z.id. apply firstn_all. }
  assert (Hredo : redo_tail dev = []).
  { unfold redo_tail. rewrite Htop, Nat2Z.id. apply drop_all. }
  rewrite Hredo, Hactive. simpl. rewrite app_nil_r. split; [done|].
  split; [lia|done].
Qed.

Lemma append_twice X dev g module m0 (enable1 new_item1 include_masks1 : bool)
    now1 after1 dev1 g1 (enable2 : bool) now2 after2 :
  cursor_in_range dev -> history_modules_live dev ->
  dev_store dev !! module = Some m0 ->
  (mod_params_size m0 <= length (mod_params m0))%nat ->
  _dev_add_history_item_ext X dev g module enable1 new_item1 false
    include_masks1 false now1 after1 = Some (dev1, g1) ->
  exists dev2 g2 hist m1,
    _dev_add_history_item_ext X dev1 g1 module enable2 false false false false
      now2 after2 = Some (dev2, g2)
    /\ dev_store dev1 !! module = Some m1
    /\ dev_history dev1 !! Z.to_nat (dev_history_end dev1 - 1) = Some hist
    /\ dev_history dev2 =
         <[Z.to_nat (dev_history_end dev1 - 1) :=
             updated_history_item X dev1
               (if enable2 then set_mod_enabled true m1 else m1) false hist]>
           (dev_history dev1)
    /\ dev_history_end dev2 = dev_history_end dev1
    /\ all_pipes_flagged DT_DEV_PIPE_TOP_CHANGED dev2.
Proof.
  intros Hc Hl Hm Hsize Hfirst.
  destruct (append_result X dev g module m0 enable1 new_item1 include_masks1
              now1 after1 Hc Hl Hm)
    as (dc & dev1' & g1' & _ & Hcall & _ & _ & Htop & Hlive1 & _ & Hstore & Hlast).
  rewrite Hfirst in Hcall. injection Hcall as <- <-.
  set (m1 := if mod_enabled (if enable1 then set_mod_enabled true m0 else m0)
             then set_mod_write_input_hint true
                    (if enable1 then set_mod_enabled true m0 else m0)
             else if enable1 then set_mod_enabled true m0 else m0) in Hstore.
  assert (Hm1 : dev_store dev1 !! module = Some m1)
    by (rewrite Hstore; apply lookup_insert_eq).
  assert (Hp1 : mod_params m1 = mod_params m0
                /\ mod_params_size m1 = mod_params_size m0).
  { subst m1. destruct enable1; simpl; [done|]. by destruct (mod_enabled m0). }
  destruct Hp1 as [Hp1 Hs1].
  destruct Hlast as (hist & Hnth & Hmod & Hparams).
  specialize (Hparams Hsize).
  assert (Hc1 : cursor_in_range dev1) by (unfold cursor_in_range; lia).
  destruct (append_result X dev1 g1 module m1 enable2 false false now2 after2
              Hc1 Hlive1 Hm1)
    as (dc2 & dev2 & g2 & Hclean & Hcall & _ & Hcase & _).
  exists dev2, g2, hist, m1. split; [done|]. split; [done|].
  destruct (cleanup_history_top_at_top dev1 dc2 Hlive1 Htop Hclean)
    as (Hh2 & He2 & Hf2 & Hfo2).
  unfold updates_in_place in Hcase. rewrite Hh2, He2, Hfo2, Hnth, Hmod in Hcase.
  rewrite bool_decide_eq_true_2 in Hcase by done. simpl in Hcase.
  assert (Hcmp : memcmp (hist_params hist)
                   (mod_params (if enable2 then set_mod_enabled true m1 else m1))
                   (mod_params_size (if enable2 then set_mod_enabled true m1 else m1))
                 = false).
  { unfold memcmp.
    replace (mod_params (if enable2 then set_mod_enabled true m1 else m1))
      with (mod_params m0) by (rewrite <- Hp1; by destruct enable2).
    replace (mod_params_size (if enable2 then set_mod_enabled true m1 else m1))
      with (mod_params_size m0) by (rewrite <- Hs1; by destruct enable2).
    by rewrite bool_decide_eq_true_2. }
  rewrite Hcmp in Hcase. simpl in Hcase. rewrite orb_true_r in Hcase.
  destruct Hcase as (hist' & Hlk & Hh & He & Hflag).
  apply g_list_nth_lookup in Hnth. rewrite Hnth in Hlk. injection Hlk as <-.
  split; [done|]. split; [exact Hh|]. split; [done|done].
Qed.

(** C1, as the code has it: an append first cleans the redo tail, which
    leaves the cursor at the top of the stack.  Then, if there is an entry at
    [history_end - 1], no new item is requested, the entry belongs to the
    module, and either the focus hash is the one of the entry or the masks
    are not included and the parameter bytes are those of the entry, this
    tail entry is updated in place: it takes the parameter bytes, the enabled
    flag, the rank, the instance priority and the label of the module (and
    the blend parameters and the forms as the code copies them), the other
    entries, the length of the history and [history_end] stay, and every
    pipeline is flagged [TOP_CHANGED]; otherwise a new entry with the fields
    of the module is pushed, [history_end] moves up by one and every pipeline
    is flagged [SYNCH].  A second append of the module, with the same
    parameters, is such an in-place update of the tail entry that the first
    one left. *)
Theorem append_updates_or_pushes X dev g module m0
    (enable new_item include_masks : bool) now now_after :
  cursor_in_range dev -> history_modules_live dev ->
  dev_store dev !! module = Some m0 ->
  let m := if enable then set_mod_enabled true m0 else m0 in
  exists dev1 dev' g',
    cleanup_history_top dev = Some dev1
    /\ _dev_add_history_item_ext X dev g module enable new_item false
         include_masks false now now_after = Some (dev', g')
    /\ dev_history_end dev1 = Z.of_nat (length (dev_history dev1))
    /\ (if updates_in_place dev1 module m new_item include_masks
        then exists hist top,
               dev_history dev1 !! Z.to_nat (dev_history_end dev1 - 1)
               = Some hist
               /\ dev_history dev' =
                    <[Z.to_nat (dev_history_end dev1 - 1) := top]>
                      (dev_history dev1)
               /\ top = updated_history_item X dev1 m include_masks hist
               /\ hist_params top
                  = memcpy (hist_params hist) (mod_params m0)
                      (mod_params_size m0)
               /\ hist_enabled top = enable || mod_enabled m0
               /\ hist_iop_order top = mod_iop_order m0
               /\ hist_multi_priority top = mod_multi_priority m0
               /\ hist_multi_name top = mod_multi_name m0
               /\ length (dev_history dev') = length (dev_history dev1)
               /\ dev_history_end dev' = dev_history_end dev1
               /\ all_pipes_flagged DT_DEV_PIPE_TOP_CHANGED dev'
        else dev_history dev' =
               dev_history dev1
               ++ [new_history_item X (store_module module m dev1) module m
                     include_masks]
             /\ dev_history_end dev' = dev_history_end dev1 + 1
             /\ all_pipes_flagged DT_DEV_PIPE_SYNCH dev')
    /\ ((mod_params_size m0 <= length (mod_params m0))%nat ->
        forall (enable2 : bool) now2 after2,
        exists dev2 g2 hist top,
          _dev_add_history_item_ext X dev' g' module enable2 false false false
            false now2 after2 = Some (dev2, g2)
          /\ dev_history dev' !! Z.to_nat (dev_history_end dev' - 1) = Some hist
          /\ dev_history dev2 =
               <[Z.to_nat (dev_history_end dev' - 1) := top]> (dev_history dev')
          /\ hist_params top
             = memcpy (hist_params hist) (mod_params m0) (mod_params_size m0)
          /\ hist_enabled top = enable2 || (enable || mod_enabled m0)
          /\ length (dev_history dev2) = length (dev_history dev')
          /\ dev_history_end dev2 = dev_history_end dev'
          /\ all_pipes_flagged DT_DEV_PIPE_TOP_CHANGED dev2).
Proof.
  intros Hc Hl Hm m.
  destruct (append_result X dev g module m0 enable new_item include_masks
              now now_after Hc Hl Hm)
    as (dev1 & dev' & g' & Hclean & Hcall & Htop1 & Hcase & _ & _ & _ & Hstore
        & _).
  fold m in Hcase, Hstore.
  exists dev1, dev', g'. split; [done|]. split; [done|]. split; [done|].
  split.
  { destruct (updates_in_place dev1 module m new_item include_masks); [|done].
    destruct Hcase as (hist & Hlk & Hh & He & Hflag).
    exists hist, (updated_history_item X dev1 m include_masks hist).
    split; [done|]. split; [done|]. split; [done|].
    subst m. split; [by destruct enable|]. split; [by destruct enable|].
    split; [by destruct enable|]. split; [by destruct enable|].
    split; [by destruct enable|].
    split; [by rewrite Hh, length_insert|]. done. }
  intros Hsize enable2 now2 after2.
  destruct (append_twice X dev g module m0 enable new_item include_masks now
              now_after dev' g' enable2 now2 after2 Hc Hl Hm Hsize Hcall)
    as (dev2 & g2 & hist & m1 & Hcall2 & Hm1 & Hlk & Hh & He & Hflag).
  exists dev2, g2, hist,
    (updated_history_item X dev'
       (if enable2 then set_mod_enabled true m1 else m1) false hist).
  split; [done|]. split; [done|]. split; [done|].
  rewrite Hstore, lookup_insert_eq in Hm1. injection Hm1 as <-.
  split.
  { subst m. destruct enable2, enable; simpl; try done;
      destruct (mod_enabled m0) eqn:E; simpl; by rewrite ?E. }
  split.
  { subst m. destruct enable2, enable; simpl; try done;
      destruct (mod_enabled m0) eqn:E; simpl; by rewrite ?E. }
  split; [by rewrite Hh, length_insert|]. done.
Qed.

Lemma append_updates_or_pushes_witness :
  let X := sample_externals 10 in
  let dev := sample_develop [sample_entry 1 "colorin" [x01; x02] true;
                             sample_entry 0 "exposure" [x05; x06] false] 2
               false in
  let g := sample_darktable [] in
  cursor_in_range dev
  /\ history_modules_live dev
  /\ dev_store dev !! 0%nat = Some (sample_module 0 "exposure" false false 0)
  /\ exists dev' g',
       _dev_add_history_item_ext X dev g 0%nat true false false false false
         1%Q 1%Q = Some (dev', g')
       /\ (hist_params <$> dev_history dev') = [[x01; x02]; [x01; x02]]
       /\ (hist_enabled <$> dev_history dev') = [true; true]
       /\ dev_history_end dev' = 2.
Proof.
  intros X dev g.
  assert (Hc : cursor_in_range dev) by (unfold cursor_in_range; simpl; lia).
  assert (Hl : history_modules_live dev)
    by (intros h Hh; simpl in Hh; sample_members; vm_compute; eauto).
  assert (Hm : dev_store dev !! 0%nat
               = Some (sample_module 0 "exposure" false false 0))
    by reflexivity.
  split; [exact Hc|]. split; [exact Hl|]. split; [exact Hm|].
  destruct (append_updates_or_pushes X dev g 0%nat _ true false false 1%Q 1%Q
              Hc Hl Hm)
    as (dev1 & dev' & g' & Hclean & Hcall & _ & Hcase & _).
  exists dev', g'. split; [exact Hcall|].
  vm_compute in Hclean. injection Hclean as <-.
  match type of Hcase with
  | if ?c then _ else _ =>
      assert (Hu : c = true) by (vm_compute; reflexivity); rewrite Hu in Hcase
  end.
  destruct Hcase as (hist & top & Hlk & Hh & _ & Hp & Hen & _ & _ & _ & _ & He
                     & _).
  vm_compute in Hlk. injection Hlk as <-.
  rewrite Hh. cbn in Hp, Hen. rewrite <- Hp, <- Hen.
  split; [reflexivity|]. split; [reflexivity|]. exact He.
Defined.

(** C1, as stated, fails: the tail entry belongs to the module and carries
    the focus hash of the develop state, but other parameter bytes than the
    module; the specification pushes a new entry, the code updates the tail
    entry in place. *)
Lemma append_changed_params_in_place :
  ~ (forall X dev g module m (enable include_masks : bool) now now_after
       dev' g',
       cursor_in_range dev -> history_modules_live dev ->
       dev_history_end dev = Z.of_nat (length (dev_history dev)) ->
       dev_store dev !! module = Some m ->
       _dev_add_history_item_ext X dev g module enable false false
         include_masks false now now_after = Some (dev', g') ->
       spec_replaces_tail dev module
         (if enable then set_mod_enabled true m else m) false include_masks
       = false ->
       dev_history_end dev' = dev_history_end dev + 1).
Proof.
  intros H.
  pose (X := sample_externals 10).
  pose (dev := sample_develop [sample_entry 0 "exposure" [x05; x06] false] 1
                 false).
  pose (g := sample_darktable []).
  pose (r := _dev_add_history_item_ext X dev g 0%nat false false false false
               false 1%Q 1%Q).
  specialize (H X dev g 0%nat (sample_module 0 "exposure" false false 0)
                false false 1%Q 1%Q (dev_after dev r) (darktable_after g r)).
  assert (He : dev_history_end (dev_after dev r) = dev_history_end dev + 1).
  { apply H.
    - unfold cursor_in_range. simpl. lia.
    - intros h Hh. simpl in Hh. sample_members. vm_compute. eauto.
    - reflexivity.
    - reflexivity.
    - vm_compute. reflexivity.
    - vm_compute. reflexivity. }
  vm_compute in He. discriminate He.
Qed.







Lemma ordering_effect_lookup f dev a :
  dev_store (ordering_effect f dev) !! a
  = (fun m => set_mod_iop_order
                (match dev_store (f dev) !! a with
                 | Some m' => mod_iop_order m'
                 | None => mod_iop_order m
                 end) m) <$> dev_store dev !! a.
Proof.
  unfold ordering_effect. simpl. rewrite map_lookup_imap.
  by destruct (dev_store dev !! a).
Qed.


Lemma ordering_effect_lookup_inv f dev a m' :
  dev_store (ordering_effect f dev) !! a = Some m' ->
  exists m r, dev_store dev !! a = Some m /\ m' = set_mod_iop_order r m.
Proof.
  rewrite ordering_effect_lookup. destruct (dev_store dev !! a) as [m|]; [|done].
  simpl. intros [= <-]. eauto.
Qed.


Lemma ordering_effect_iop f dev : dev_iop (ordering_effect f dev) = dev_iop (f dev).
Proof. done. Qed.






Lemma max_multi_priority_spec dev instance l : forall pmax0,
  modules_live dev l ->
  exists pmax,
    max_multi_priority dev instance l pmax0 = Some pmax
    /\ pmax0 <= pmax
    /\ (forall mc, instance_in dev instance l mc -> mod_multi_priority mc <= pmax)
    /\ (pmax = pmax0 \/ exists mc, instance_in dev instance l mc
                                  /\ mod_multi_priority mc = pmax).
Proof.
  induction l as [|a l IH]; intros pmax0 Hlive.
  - exists pmax0. split; [done|]. split; [lia|]. split; [|by left].
    intros mc (c & Hc & _). by apply elem_of_nil in Hc.
  - destruct (Hlive a) as [m Hm]; [left|].
    cbn [max_multi_priority]. rewrite Hm. cbn [mbind option_bind].
    set (p1 := if (mod_instance m =? instance) && (pmax0 <? mod_multi_priority m)
               then mod_multi_priority m else pmax0).
    destruct (IH p1) as (pmax & -> & Hle & Hall & Hex).
    { intros b Hb. apply Hlive. by right. }
    exists pmax. split; [done|].
    assert (Hp1 : pmax0 <= p1
                  /\ (mod_instance m = instance -> mod_multi_priority m <= p1)
                  /\ (p1 = pmax0 \/ (mod_instance m = instance /\ p1 = mod_multi_priority m))).
    { subst p1. destruct (mod_instance m =? instance) eqn:Ei;
        destruct (pmax0 <? mod_multi_priority m) eqn:Ep; simpl;
        rewrite ?Z.eqb_eq, ?Z.eqb_neq, ?Z.ltb_lt, ?Z.ltb_ge in *.
      - split; [lia|]. split; [lia|]. by right.
      - split; [lia|]. split; [lia|]. by left.
      - split; [lia|]. split; [done|]. by left.
      - split; [lia|]. split; [done|]. by left. }
    destruct Hp1 as (Hp1a & Hp1b & Hp1c).
    split; [lia|]. split.
    + intros mc (c & Hc & Hmc & Hi).
      apply elem_of_cons in Hc as [->|Hc].
      * rewrite Hm in Hmc. injection Hmc as <-. specialize (Hp1b Hi). lia.
      * apply Hall. exists c. done.
    + destruct Hex as [->|(mc & (c & Hc & Hmc & Hi) & Hp)].
      * destruct Hp1c as [->|[Hi ->]]; [by left|].
        right. exists m. split; [|done]. exists a. split; [left|done].
      * right. exists mc. split; [|done]. exists c. split; [by right|done].
Qed.








Lemma sample_ordering_reorders n : ordering_reorders (sample_externals n).
Proof. repeat split; intros; reflexivity. Qed.


(** The history stack under loads, pops and appends. *)

Section Kinds.
Variable track : bool.

Lemma keeps_kind_refl m : keeps_kind track m m.
Proof. done. Qed.

Lemma keeps_kind_trans m1 m2 m3 :
  keeps_kind track m1 m2 -> keeps_kind track m2 m3 -> keeps_kind track m1 m3.
Proof. intros [[? ?] ?] [[? ?] ?]. repeat split; [congruence..|auto]. Qed.

(** An operation that keeps [flags()], the operation name and the two
    booleans that make a module always-on keeps the kind. *)
Lemma keeps_kind_same m m' :
  mod_flags m' = mod_flags m -> mod_op m' = mod_op m ->
  mod_default_enabled m' = mod_default_enabled m ->
  mod_hide_enable_button m' = mod_hide_enable_button m ->
  keeps_kind track m m'.
Proof.
  intros Hf Ho Hd Hh. split; [done|]. unfold always_on. by rewrite Hd, Hh.
Qed.

Lemma store_le_refl s : store_le (keeps_kind track) s s.
Proof. intros a m H. eauto using keeps_kind_refl. Qed.

Lemma store_le_trans s1 s2 s3 :
  store_le (keeps_kind track) s1 s2 -> store_le (keeps_kind track) s2 s3 ->
  store_le (keeps_kind track) s1 s3.
Proof.
  intros H12 H23 a m H. destruct (H12 a m H) as (m2 & H2 & K2).
  destruct (H23 a m2 H2) as (m3 & H3 & K3). eauto using keeps_kind_trans.
Qed.

Lemma store_le_insert s a m m' :
  s !! a = Some m -> keeps_kind track m m' ->
  store_le (keeps_kind track) s (<[a := m']> s).
Proof.
  intros Ha K b mb Hb. destruct (decide (a = b)) as [->|Hne].
  - rewrite lookup_insert_eq. rewrite Ha in Hb. injection Hb as <-. eauto.
  - rewrite lookup_insert_ne by done. eauto using keeps_kind_refl.
Qed.

Lemma store_le_insert_fresh s a m' :
  s !! a = None -> store_le (keeps_kind track) s (<[a := m']> s).
Proof.
  intros Ha b mb Hb. destruct (decide (a = b)) as [->|Hne]; [congruence|].
  rewrite lookup_insert_ne by done. eauto using keeps_kind_refl.
Qed.

Lemma store_le_ordering_effect f dev :
  store_le (keeps_kind track) (dev_store dev)
    (dev_store (ordering_effect f dev)).
Proof.
  intros a m H. unfold ordering_effect. simpl. rewrite map_lookup_imap, H. simpl.
  eexists. split; [done|]. done.
Qed.

Variable barred : dt_iop_module_t -> bool.
Hypothesis barred_flags : bars_by_flags barred.

(** The stack invariant only depends on the stack and on the kind of the
    modules. *)
Lemma stack_invariant_transfer dev dev' :
  stack_invariant track barred dev ->
  dev_history dev' = dev_history dev ->
  store_le (keeps_kind track) (dev_store dev) (dev_store dev') ->
  stack_invariant track barred dev'.
Proof.
  intros (Hlive & Hon & Hfree) Hh Hs.
  assert (Hd : forall h, h ∈ dev_history dev ->
            exists m m', deref dev (hist_module h) = Some m
                         /\ deref dev' (hist_module h) = Some m'
                         /\ keeps_kind track m m').
  { intros h Hin. destruct (Hlive h Hin) as [m Hm].
    destruct (hist_module h) as [a|]; simpl in *; [|done].
    destruct (Hs a m Hm) as (m' & Hm' & K). eauto. }
  unfold stack_invariant, history_modules_live, always_on_entries_enabled.
  rewrite Hh.
  split; [|split].
  - intros h Hin. destruct (Hd h Hin) as (m & m' & _ & -> & _). eauto.
  - intros Ht h m' Hin Hm' Hon'.
    destruct (Hd h Hin) as (m & m2 & Hm & Hm2 & [_ K]).
    rewrite Hm' in Hm2. injection Hm2 as <-. apply (Hon Ht h m Hin Hm). auto.
  - intros h m' Hin Hm'. destruct (Hd h Hin) as (m & m2 & Hm & Hm2 & [[K _] _]).
    rewrite Hm' in Hm2. injection Hm2 as <-.
    rewrite (proj1 barred_flags m m' K). apply (Hfree h m Hin Hm).
Qed.

Lemma stack_invariant_push dev a m h e :
  stack_invariant track barred dev ->
  dev_store dev !! a = Some m ->
  hist_module h = Some a ->
  (track = true -> always_on m = true -> hist_enabled h = true) ->
  barred m = false ->
  stack_invariant track barred (set_dev_history (dev_history dev ++ [h])
                                  (set_dev_history_end e dev)).
Proof.
  intros (Hlive & Hon & Hfree) Hm Ha Hen Hno.
  unfold stack_invariant, history_modules_live, always_on_entries_enabled.
  simpl.
  split; [|split].
  - intros h' [Hin| ->%list_elem_of_singleton]%elem_of_app.
    + apply (Hlive h' Hin).
    + unfold deref. rewrite Ha. simpl. eauto.
  - intros Ht h' m' [Hin| ->%list_elem_of_singleton]%elem_of_app Hm'.
    + apply (Hon Ht h' m' Hin Hm').
    + unfold deref in Hm'. rewrite Ha in Hm'. simpl in Hm'.
      rewrite Hm in Hm'. injection Hm' as <-. auto.
  - intros h' m' [Hin| ->%list_elem_of_singleton]%elem_of_app Hm'.
    + apply (Hfree h' m' Hin Hm').
    + unfold deref in Hm'. rewrite Ha in Hm'. simpl in Hm'.
      rewrite Hm in Hm'. injection Hm' as <-. done.
Qed.

Lemma stack_invariant_empty dev :
  dev_history dev = [] -> stack_invariant track barred dev.
Proof.
  intros H. unfold stack_invariant, history_modules_live,
    always_on_entries_enabled. rewrite H.
  repeat split; intros; by match goal with H : _ ∈ [] |- _ => apply elem_of_nil in H end.
Qed.

(** The stack invariant carries over to a stack whose entries are old ones,
    or new ones that satisfy it. *)
Lemma stack_invariant_entries dev dev' :
  stack_invariant track barred dev ->
  store_le (keeps_kind track) (dev_store dev) (dev_store dev') ->
  (forall h, h ∈ dev_history dev' ->
     h ∈ dev_history dev
     \/ exists a m', hist_module h = Some a /\ dev_store dev' !! a = Some m'
          /\ (track = true -> always_on m' = true -> hist_enabled h = true)
          /\ barred m' = false) ->
  stack_invariant track barred dev'.
Proof.
  intros (Hlive & Hon & Hfree) Hle Hh.
  assert (Hd : forall h, h ∈ dev_history dev' ->
            exists m', deref dev' (hist_module h) = Some m'
              /\ (track = true -> always_on m' = true -> hist_enabled h = true)
              /\ barred m' = false).
  { intros h Hin. destruct (Hh h Hin) as [Hold|(a & m' & Ha & Hm' & ? & ?)].
    - destruct (Hlive h Hold) as [m Hm].
      destruct (hist_module h) as [a|] eqn:Ea; simpl in Hm; [|done].
      destruct (Hle a m Hm) as (m' & Hm' & [[K _] Kon]).
      exists m'. simpl. split; [done|]. split.
      + intros Ht Hon'. apply (Hon Ht h m); [done|by rewrite Ea|auto].
      + rewrite (proj1 barred_flags m m' K).
        apply (Hfree h m); [done|by rewrite Ea].
    - exists m'. rewrite Ha. simpl. done. }
  split; [|split].
  - intros h Hin. destruct (Hd h Hin) as (m' & -> & _). eauto.
  - intros Ht h m Hin Hm. destruct (Hd h Hin) as (m' & Hm' & K & _).
    rewrite Hm in Hm'. injection Hm' as <-. auto.
  - intros h m Hin Hm. destruct (Hd h Hin) as (m' & Hm' & _ & K).
    rewrite Hm in Hm'. by injection Hm' as <-.
Qed.

(** The row loop of [dt_dev_read_history_ext]. *)

Lemma find_row_module_live dev name prio l : forall find_op found find_op',
  find_row_module dev name prio l find_op = Some (found, find_op') ->
  (forall f, find_op = Some f -> is_Some (dev_store dev !! f)) ->
  (forall a, found = Some a -> is_Some (dev_store dev !! a))
  /\ (forall f, find_op' = Some f -> is_Some (dev_store dev !! f)).
Proof.
  induction l as [|a l IH]; intros find_op found find_op' H Hf; simpl in H.
  - injection H as <- <-. done.
  - destruct (dev_store dev !! a) as [m|] eqn:Hm; simpl in H; [|done].
    destruct (String.eqb (mod_op m) name).
    + destruct (_ || _).
      * injection H as <- <-. split; [|done]. intros ? [= <-]. eauto.
      * destruct (0 <? prio).
        -- apply IH in H; [done|]. intros ? [= <-]. eauto.
        -- by apply IH in H.
    + by apply IH in H.
Qed.

Lemma resolve_row_module_spec X dev row name iop_order dev1 hm :
  resolve_row_module X dev row name iop_order = Some (dev1, hm) ->
  dev_history dev1 = dev_history dev
  /\ dev_history_end dev1 = dev_history_end dev
  /\ store_le (keeps_kind track) (dev_store dev) (dev_store dev1)
  /\ (forall a, hm = Some a -> is_Some (dev_store dev1 !! a)).
Proof.
  unfold resolve_row_module. intros H.
  destruct (find_row_module _ _ _ _ _) as [[found find_op]|] eqn:Ef; simpl in H; [|done].
  apply find_row_module_live in Ef as [Hfound Hfind]; [|done].
  destruct found as [a|].
  - destruct (dev_store dev !! a) as [m|] eqn:Hm; simpl in H; [|done].
    injection H as <- <-. split; [done|]. split; [done|]. split.
    + by apply (store_le_insert _ a m).
    + intros ? [= <-]. simpl. rewrite lookup_insert_eq. eauto.
  - destruct find_op as [f|].
    + destruct (dev_store dev !! f) as [fm|] eqn:Hfm; simpl in H; [|done].
      destruct (dt_iop_load_module X (mod_so fm)) as [nm|].
      * injection H as <- <-. split; [done|]. split; [done|]. split.
        -- apply store_le_insert_fresh. apply not_elem_of_dom, is_fresh.
        -- intros ? [= <-]. simpl. rewrite lookup_insert_eq. eauto.
      * injection H as <- <-. split; [done|]. split; [done|].
        split; [apply store_le_refl|done].
    + injection H as <- <-. split; [done|]. split; [done|].
      split; [apply store_le_refl|done].
Qed.

Lemma is_white_balance_le s s' p :
  is_white_balance s p -> store_le (keeps_kind track) s s' ->
  is_white_balance s' p.
Proof.
  intros H Hle t Ht. destruct (H t Ht) as (m & Hm & Hop).
  destruct (Hle t m Hm) as (m' & Hm' & [[_ K] _]). exists m'. split; [done|congruence].
Qed.

Lemma read_history_row_invariant X imgid snapshot_id hec st row st' :
  read_history_row X imgid snapshot_id hec st row = Some st' ->
  stack_invariant track barred (rs_dev st) ->
  is_white_balance (dev_store (rs_dev st)) (rs_temperature st) ->
  stack_invariant track barred (rs_dev st')
  /\ is_white_balance (dev_store (rs_dev st')) (rs_temperature st').
Proof.
  unfold read_history_row. intros H Hinv Hwb.
  destruct (row_operation row) as [module_name|]; [|by injection H as <-].
  destruct (negb _); [by injection H as <-|].
  destruct (resolve_row_module _ _ _ _ _) as [[dev1 hm]|] eqn:Er; simpl in H; [|done].
  apply resolve_row_module_spec in Er as (Hh1 & He1 & Hle1 & Hlive1).
  pose proof (stack_invariant_transfer _ _ Hinv Hh1 Hle1) as Hinv1.
  pose proof (is_white_balance_le _ _ _ Hwb Hle1) as Hwb1.
  destruct hm as [a|]; [|by injection H as <-].
  destruct (dev_store dev1 !! a) as [m|] eqn:Hm; simpl in H; [|done].
  set (temperature := if _ && _ && String.eqb (mod_op m) "temperature"
                      then Some a else rs_temperature st) in H.
  set (channelmixerrgb := if _ && _ && String.eqb (mod_op m) "channelmixerrgb"
                          then Some a else rs_channelmixerrgb st) in H.
  assert (Hwbt : is_white_balance (dev_store dev1) temperature).
  { subst temperature. destruct (_ && _ && String.eqb (mod_op m) "temperature") eqn:E; [|done].
    intros t [= <-]. exists m. split; [done|].
    apply andb_true_iff in E as [_ E]. by apply String.eqb_eq in E. }
  destruct (has_flag (mod_flags m) IOP_FLAGS_NO_HISTORY_STACK) eqn:Eno;
    [by injection H as <-|].
  set (m' := if dev_history_end dev1 <? hec
             then set_mod_iop_order _ m else m) in H.
  assert (Hk : keeps_kind track m m') by (subst m'; by destruct (_ <? _)).
  set (dev2 := store_module a m' dev1) in H.
  assert (Hle2 : store_le (keeps_kind track) (dev_store dev1) (dev_store dev2))
    by (by apply (store_le_insert _ a m)).
  assert (Hinv2 : stack_invariant track barred dev2)
    by (by apply (stack_invariant_transfer dev1)).
  assert (Hwb2 : is_white_balance (dev_store dev2) temperature)
    by (by apply (is_white_balance_le (dev_store dev1))).
  destruct (match row_blendop_params row with Some _ => _ | None => _ end)
    as [blend legacy1].
  match type of H with
  | match ?c with Some _ => _ | None => _ end = _ => destruct c as [[[[params blend'] enabled'] legacy2]|]
  end; [|by injection H as <-].
  injection H as <-. simpl. split; [|done].
  apply (stack_invariant_push dev2 a m'); try done.
  - subst dev2. simpl. apply lookup_insert_eq.
  - simpl. unfold always_on in *. intros _ Hon. by rewrite Hon.
  - destruct Hk as [[Hk _] _]. rewrite (proj1 barred_flags m m' Hk).
    by apply (proj2 barred_flags).
Qed.

Lemma read_history_rows_invariant X imgid snapshot_id hec rows : forall st st',
  read_history_rows X imgid snapshot_id hec rows st = Some st' ->
  stack_invariant track barred (rs_dev st) ->
  is_white_balance (dev_store (rs_dev st)) (rs_temperature st) ->
  stack_invariant track barred (rs_dev st')
  /\ is_white_balance (dev_store (rs_dev st')) (rs_temperature st').
Proof.
  induction rows as [|row rows IH]; intros st st' H Hinv Hwb; simpl in H.
  - by injection H as <-.
  - destruct (read_history_row _ _ _ _ _ _) as [st1|] eqn:E; simpl in H; [|done].
    apply read_history_row_invariant in E as [Hinv1 Hwb1]; [|done..].
    by apply (IH st1).
Qed.

(** The load. *)

Lemma reload_modules_history X l : forall dev dev',
  reload_modules X l dev = Some dev' -> dev_history dev' = dev_history dev.
Proof.
  induction l as [|a l IH]; intros dev dev' H; simpl in H.
  - by injection H as <-.
  - destruct (dev_store dev !! a) as [m|]; simpl in H; [|done].
    by rewrite (IH _ _ H).
Qed.

Lemma recover_mandatory_modules_history X image imgid l : forall dev g dev' g',
  recover_mandatory_modules X image imgid l dev g = Some (dev', g') ->
  dev_history dev' = dev_history dev.
Proof.
  induction l as [|a l IH]; intros dev g dev' g' H; simpl in H.
  - by injection H as <- _.
  - destruct (dev_store dev !! a) as [m|]; simpl in H; [|done].
    destruct (_ && _ && _ && _ && _).
    + by rewrite (IH _ _ _ _ H).
    + by apply IH in H.
Qed.

Lemma auto_apply_presets_history X dev g fr dev' g' :
  _dev_auto_apply_presets X dev g = Some (fr, dev', g') ->
  dev_history dev' = dev_history dev.
Proof.
  unfold _dev_auto_apply_presets. intros H.
  destruct (negb (dt_is_valid_imgid X _)); [by injection H as _ <- _|].
  destruct (_ || _).
  - destruct (_ && _).
    + destruct (recover_mandatory_modules _ _ _ _ _ _) as [[dev1 g1]|] eqn:E;
        simpl in H; [|done].
      injection H as _ <- _. by apply recover_mandatory_modules_history in E.
    + simpl in H. by injection H as _ <- _.
  - by injection H as _ <- _.
Qed.

Lemma read_history_prelude_history X dev g imgid dev' g' fr n :
  read_history_prelude X dev g imgid = Some (dev', g', fr, n) ->
  dev_history dev' = dev_history dev.
Proof.
  unfold read_history_prelude, _dt_dev_load_pipeline_defaults. intros H.
  destruct (reload_modules _ _ _) as [dev0|] eqn:E0; simpl in H; [|done].
  destruct (_dev_add_default_modules _ _ _ _) as [g1|]; simpl in H; [|done].
  destruct (_dev_auto_apply_presets _ _ _) as [[[fr' dev1] g2]|] eqn:E1;
    simpl in H; [|done].
  injection H as <- _ _ _.
  apply auto_apply_presets_history in E1. apply reload_modules_history in E0.
  congruence.
Qed.

(** Reloading the defaults of a module keeps its type. *)
Lemma keeps_type_reload_defaults X workflow m :
  keeps_type m (reload_defaults X workflow m).
Proof. done. Qed.

Lemma read_history_invariant X dev g imgid no_image dev' g' :
  (track = true -> reload_keeps_white_balance_optional X) ->
  dev_history dev = [] ->
  dt_dev_read_history_ext X dev g imgid no_image = Some (dev', g') ->
  stack_invariant track barred dev'.
Proof.
  unfold dt_dev_read_history_ext. intros Hwb Hnil H.
  destruct (negb _); [injection H as <- _; by apply stack_invariant_empty|].
  destruct (dev_iop dev) as [|a0 l0] eqn:Eiop;
    [injection H as <- _; by apply stack_invariant_empty|].
  set (dev0 := ordering_effect _ dev) in H.
  match type of H with
  | (?c ≫= _) = _ => destruct c as [[[[dev1 g1] fr] n]|] eqn:Epre
  end; simpl in H; [|done].
  assert (Hh1 : dev_history dev1 = []).
  { destruct no_image.
    - by injection Epre as <- _ _ _.
    - apply read_history_prelude_history in Epre. by rewrite Epre. }
  destruct (read_history_rows _ _ _ _ _ _) as [st|] eqn:Erows; simpl in H; [|done].
  apply read_history_rows_invariant in Erows as [Hinv Hst];
    [|by apply stack_invariant_empty|done].
  match type of H with
  | (?c ≫= _) = _ => destruct c as [dev3|] eqn:E3
  end; simpl in H; [|done].
  assert (Hinv3 : stack_invariant track barred dev3).
  { destruct (rs_temperature st) as [t|] eqn:Et;
      [|injection E3 as <-; done].
    destruct (rs_channelmixerrgb st); [|injection E3 as <-; done].
    destruct (dev_store (rs_dev st) !! t) as [m|] eqn:Hm; simpl in E3; [|done].
    injection E3 as <-.
    destruct (Hst t eq_refl) as (m0 & Hm0 & Hop). rewrite Hm in Hm0.
    injection Hm0 as <-.
    apply (stack_invariant_transfer (rs_dev st)); [done..|].
    simpl. apply (store_le_insert _ t m); [done|].
    split; [apply keeps_type_reload_defaults|].
    intros Ht. by apply (Hwb Ht). }
  destruct (_dev_write_history _ _ _ _) as [g2|]; simpl in H; [|done].
  injection H as <- _.
  set (dev4 := ordering_effect _ dev3).
  assert (Hinv4 : stack_invariant track barred dev4).
  { apply (stack_invariant_transfer dev3); [done..|].
    apply store_le_ordering_effect. }
  destruct (_ && _).
  - apply (stack_invariant_transfer dev4); [done..|]. apply store_le_refl.
  - apply (stack_invariant_transfer dev4); [done..|]. apply store_le_refl.
Qed.

(** The pop: it leaves the stack as it is, and the kind of every module. *)

Lemma keeps_kind_reset X dev m : keeps_kind track m (reset_module X dev m).
Proof.
  apply keeps_kind_same; unfold reset_module; by destruct (_ =? 0).
Qed.

Lemma keeps_kind_replay hist m : keeps_kind track m (replay_item hist m).
Proof.
  apply keeps_kind_same; unfold replay_item; by destruct (bool_decide _).
Qed.

Lemma reset_modules_kind X l : forall dev dev',
  reset_modules X dev l = Some dev' ->
  dev_history dev' = dev_history dev
  /\ store_le (keeps_kind track) (dev_store dev) (dev_store dev').
Proof.
  induction l as [|a l IH]; intros dev dev' H; simpl in H.
  - injection H as <-. split; [done|apply store_le_refl].
  - destruct (dev_store dev !! a) as [m|] eqn:Hm; simpl in H; [|done].
    apply IH in H as (Hh & Hle). simpl in *. split; [done|].
    eapply store_le_trans; [|exact Hle].
    apply (store_le_insert _ a m); [done|apply keeps_kind_reset].
Qed.

Lemma replay_history_kind history : forall dev i cnt forms dev' forms',
  replay_history dev history i cnt forms = Some (dev', forms') ->
  dev_history dev' = dev_history dev
  /\ store_le (keeps_kind track) (dev_store dev) (dev_store dev').
Proof.
  induction history as [|hist next IH]; intros dev i cnt forms dev' forms' H;
    simpl in H.
  - injection H as <- _. split; [done|apply store_le_refl].
  - destruct (i <? cnt); [|injection H as <- _; split; [done|apply store_le_refl]].
    destruct (hist_module hist) as [a|] eqn:Ea; simpl in H; [|done].
    destruct (dev_store dev !! a) as [m|] eqn:Hm; simpl in H; [|done].
    apply IH in H as (Hh & Hle). simpl in *. split; [done|].
    eapply store_le_trans; [|exact Hle].
    apply (store_le_insert _ a m); [done|apply keeps_kind_replay].
Qed.

Lemma pop_ext_kind X dev cnt dev' :
  dt_dev_pop_history_items_ext X dev cnt = Some dev' ->
  dev_history dev' = dev_history dev
  /\ store_le (keeps_kind track) (dev_store dev) (dev_store dev').
Proof.
  intros H. unfold dt_dev_pop_history_items_ext in H.
  destruct (pop_reset_and_replay X dev cnt) as [[dev2 forms]|] eqn:E;
    simpl in H; [|done].
  unfold pop_reset_and_replay in E.
  destruct (reset_modules _ _ _) as [dev1|] eqn:E1; simpl in E; [|done].
  apply reset_modules_kind in E1 as (Hh1 & Hle1). simpl in Hh1, Hle1.
  apply replay_history_kind in E as (Hh2 & Hle2).
  assert (Hle4 : store_le (keeps_kind track) (dev_store dev)
                   (dev_store
                      (ordering_effect (dt_ioppr_check_duplicate_iop_order X)
                         (ordering_effect (dt_ioppr_resync_modules_order X)
                            dev2)))).
  { eapply store_le_trans; [exact Hle1|].
    eapply store_le_trans; [exact Hle2|].
    eapply store_le_trans; apply store_le_ordering_effect. }
  injection H as <-.
  destruct (masks_changed_loop _ _ _); (split; [simpl; congruence|exact Hle4]).
Qed.

Lemma pop_invariant X dev g cnt dev' g' :
  dt_dev_pop_history_items X dev g cnt = Some (dev', g') ->
  stack_invariant track barred dev -> stack_invariant track barred dev'.
Proof.
  intros H Hinv. unfold dt_dev_pop_history_items in H.
  destruct (dt_dev_pop_history_items_ext X dev cnt) as [dev1|] eqn:E;
    simpl in H; [|done].
  apply pop_ext_kind in E as (Hh & Hle).
  match type of H with
  | (?c ≫= _) = _ => destruct c as [changed|]
  end; simpl in H; [|done].
  injection H as <- _.
  apply (stack_invariant_transfer dev); [done| |]; by destruct (negb changed).
Qed.

(** The append. *)

Lemma elem_of_insert_inv {A} (l : list A) : forall i x y,
  y ∈ <[i := x]> l -> y = x \/ y ∈ l.
Proof.
  induction l as [|z l IH]; intros i x y H; [by right|].
  destruct i as [|i]; simpl in H.
  - apply elem_of_cons in H as [->|H]; [by left|right; by right].
  - apply elem_of_cons in H as [->|H]; [right; by left|].
    destruct (IH i x y H) as [->|H']; [by left|right; by right].
Qed.

Lemma drop_obsolete_subset dev history_end rest : forall done k history' k',
  drop_obsolete dev history_end done rest k = Some (history', k') ->
  forall h, h ∈ history' -> h ∈ done ++ rest.
Proof.
  induction rest as [|hist next IH]; intros done k history' k' H h Hh;
    cbn [drop_obsolete] in H.
  - injection H as <- _. by rewrite app_nil_r.
  - destruct (deref dev (hist_module hist)) as [hm|]; cbn [mbind option_bind] in H;
      [|done].
    destruct (earlier_entry _ _ _) as [earlier|]; cbn [mbind option_bind] in H;
      [|done].
    destruct (_ || earlier).
    + apply (IH _ _ _ _ H) in Hh. apply elem_of_app in Hh as [Hh|Hh].
      * apply elem_of_app. by left.
      * apply elem_of_app. right. by right.
    + apply (IH _ _ _ _ H) in Hh. rewrite <- app_assoc in Hh. done.
Qed.

Lemma cleanup_history_top_subset dev dev1 :
  cleanup_history_top dev = Some dev1 ->
  (forall h, h ∈ dev_history dev1 -> h ∈ dev_history dev)
  /\ dev_store dev1 = dev_store dev /\ dev_iop dev1 = dev_iop dev.
Proof.
  unfold cleanup_history_top. intros H.
  destruct (drop_obsolete _ _ _ _ _) as [[history' kept]|] eqn:E;
    cbn [mbind option_bind] in H; [|done].
  injection H as <-. split; [|done]. simpl. intros h Hh.
  apply (drop_obsolete_subset _ _ _ _ _ _ _ E) in Hh.
  apply elem_of_app in Hh as [Hh|Hh].
  - by apply elem_of_take_l in Hh.
  - unfold g_list_nth in Hh. destruct (_ <? 0).
    + by apply elem_of_nil in Hh.
    + by apply elem_of_drop_l in Hh.
Qed.

Lemma push_or_update_shape X dev module m0 (enable new_item no_image
    include_masks : bool) dev2 :
  dev_store dev !! module = Some m0 ->
  push_or_update X dev module enable new_item no_image include_masks
    = Some dev2 ->
  let m := if enable then set_mod_enabled true m0 else m0 in
  dev_iop dev2 = dev_iop dev
  /\ (dev_store dev2 = <[module := m]> (dev_store dev)
      \/ dev_store dev2
         = <[module := set_mod_write_input_hint true m]> (dev_store dev))
  /\ (forall h, h ∈ dev_history dev2 ->
        h ∈ dev_history dev
        \/ (hist_module h = Some module /\ hist_enabled h = mod_enabled m)).
Proof.
  intros Hm0 H m. unfold push_or_update in H. rewrite Hm0 in H.
  cbn [mbind option_bind] in H. fold m in H.
  set (devA := store_module module m dev) in H.
  set (push := if no_image then _ else or_changed_all DT_DEV_PIPE_SYNCH _) in H.
  assert (Hpush : dev_iop push = dev_iop dev
                  /\ dev_store push = <[module := m]> (dev_store dev)
                  /\ dev_history push
                     = dev_history dev
                       ++ [new_history_item X devA module m include_masks]).
  { subst push. by destruct no_image. }
  set (dev2x := match g_list_nth _ _ with [] => push | _ :: _ => _ end) in H.
  assert (H2x : dev_iop dev2x = dev_iop dev
                /\ dev_store dev2x = <[module := m]> (dev_store dev)
                /\ (forall h, h ∈ dev_history dev2x ->
                      h ∈ dev_history dev
                      \/ (hist_module h = Some module
                          /\ hist_enabled h = mod_enabled m))).
  { assert (Hp : dev_iop push = dev_iop dev
                /\ dev_store push = <[module := m]> (dev_store dev)
                /\ (forall h, h ∈ dev_history push ->
                      h ∈ dev_history dev
                      \/ (hist_module h = Some module
                          /\ hist_enabled h = mod_enabled m))).
    { destruct Hpush as (? & ? & Hh). split; [done|]. split; [done|].
      intros h Hin. rewrite Hh in Hin. apply elem_of_app in Hin as [Hin|Hin];
        [by left|]. apply list_elem_of_singleton in Hin as ->. by right. }
    subst dev2x. destruct (g_list_nth _ _) as [|hist tl]; [done|].
    destruct (needs_new_item _ _ _ _ _ _) eqn:En; [done|].
    unfold needs_new_item in En.
    apply orb_false_iff in En as [En _]. apply orb_false_iff in En as [_ En].
    apply negb_false_iff, bool_decide_eq_true in En.
    assert (Hu : forall h,
              h ∈ <[Z.to_nat (dev_history_end devA - 1) :=
                      updated_history_item X devA m include_masks hist]>
                    (dev_history devA) ->
              h ∈ dev_history dev
              \/ (hist_module h = Some module
                  /\ hist_enabled h = mod_enabled m)).
    { intros h Hin. apply elem_of_insert_inv in Hin as [->|Hin];
        [right|by left]. done. }
    by destruct no_image. }
  destruct H2x as (Hiop & Hst & Hh).
  injection H as <-. destruct (_ && _); simpl.
  - split; [done|]. split; [|done]. right. rewrite Hst.
    by rewrite insert_insert_eq.
  - split; [done|]. split; [by left|done].
Qed.

Lemma keeps_kind_label X m : keeps_kind track m (_dev_auto_module_label X m).
Proof.
  unfold _dev_auto_module_label. destruct (_ && _ && _); [|done].
  destruct (dt_presets_get_module_label _ _ _ _ _ _); [done|].
  by destruct (negb _).
Qed.

Lemma append_invariant X dev g module m
    (enable new_item no_image include_masks auto_name_module : bool)
    now now_after dev' g' :
  _dev_add_history_item_ext X dev g module enable new_item no_image
    include_masks auto_name_module now now_after = Some (dev', g') ->
  stack_invariant track barred dev ->
  dev_store dev !! module = Some m ->
  barred m = false ->
  (track = true -> appends_always_on_enabled enable m) ->
  stack_invariant track barred dev'.
Proof.
  intros H Hinv Hm Hbar Hen. unfold _dev_add_history_item_ext in H.
  rewrite Hm in H. cbn [mbind option_bind] in H.
  set (m1 := if auto_name_module then _dev_auto_module_label X m else m).
  set (devL := if auto_name_module
               then store_module module (_dev_auto_module_label X m) dev
               else dev) in H.
  assert (Hk1 : keeps_kind track m m1
                /\ always_on m1 = always_on m
                /\ mod_enabled m1 = mod_enabled m).
  { subst m1. destruct auto_name_module; [|done].
    split; [apply keeps_kind_label|].
    unfold _dev_auto_module_label. destruct (_ && _ && _); [|done].
    destruct (dt_presets_get_module_label _ _ _ _ _ _); [done|].
    by destruct (negb _). }
  destruct Hk1 as (Hk1 & Hon1 & Hen1).
  assert (HL : dev_history devL = dev_history dev /\ dev_iop devL = dev_iop dev
               /\ dev_store devL = <[module := m1]> (dev_store dev)).
  { subst devL m1. destruct auto_name_module; [done|].
    repeat split. by rewrite insert_id. }
  destruct HL as (HhL & HiopL & HstL).
  destruct (cleanup_history_top devL) as [dev1|] eqn:Ec;
    cbn [mbind option_bind] in H; [|done].
  apply cleanup_history_top_subset in Ec as (Hh1 & Hst1 & Hiop1).
  destruct (push_or_update _ _ _ _ _ _ _) as [dev2|] eqn:Ep;
    cbn [mbind option_bind] in H; [|done].
  apply (push_or_update_shape _ _ _ m1) in Ep;
    [|rewrite Hst1, HstL; apply lookup_insert_eq].
  cbn zeta in Ep. set (m2 := if enable then set_mod_enabled true m1 else m1) in Ep.
  destruct Ep as (Hiop2 & Hst2 & Hh2).
  assert (Hk2 : keeps_kind track m1 m2
                /\ always_on m2 = always_on m1
                /\ mod_enabled m2 = enable || mod_enabled m1)
    by (subst m2; by destruct enable).
  destruct Hk2 as (Hk2 & Hon2 & Hen2).
  assert (Hst : exists m3, dev_store dev2 = <[module := m3]> (dev_store dev)
                           /\ keeps_kind track m m3
                           /\ always_on m3 = always_on m).
  { destruct Hst2 as [Hst2|Hst2]; rewrite Hst2, Hst1, HstL, insert_insert_eq.
    - exists m2. split; [done|]. split; [by eapply keeps_kind_trans|congruence].
    - eexists. split; [done|]. split.
      + eapply keeps_kind_trans; [exact Hk1|].
        eapply keeps_kind_trans; [exact Hk2|]. done.
      + unfold always_on in *. simpl. congruence. }
  destruct Hst as (m3 & Hst & Hk3 & Hon3).
  assert (Hle : store_le (keeps_kind track) (dev_store dev) (dev_store dev2))
    by (rewrite Hst; by apply (store_le_insert _ module m)).
  assert (Hinv2 : stack_invariant track barred dev2).
  { apply (stack_invariant_entries dev); [done|done|].
    intros h Hh. destruct (Hh2 h Hh) as [Hold|[Ha He]].
    - left. rewrite <- HhL. by apply Hh1.
    - right. exists module, m3. split; [done|]. split.
      + rewrite Hst. apply lookup_insert_eq.
      + split.
        * intros Ht Ha3. rewrite He, Hen2, Hen1. apply (Hen Ht). congruence.
        * destruct Hk3 as [[K _] _]. by rewrite (proj1 barred_flags m m3 K). }
  destruct (dev_autosaving dev2); [|by injection H as <- _].
  unfold _dev_auto_save in H. destruct (auto_save_due _ _ _ _);
    [|by injection H as <- _].
  destruct (Qlt_bool _ _); injection H as <- _; [|done].
  apply (stack_invariant_entries dev2); [done|apply store_le_refl|].
  intros h Hh. by left.
Qed.

(** The invariant of the reachable states. *)
Lemma reachable_invariant X (may_append : bool -> dt_iop_module_t -> Prop) :
  (track = true -> reload_keeps_white_balance_optional X) ->
  (forall enable m, may_append enable m ->
     barred m = false
     /\ (track = true -> appends_always_on_enabled enable m)) ->
  forall dev, reachable X may_append dev -> stack_invariant track barred dev.
Proof.
  intros Hwb Hmay dev Hr. induction Hr as
    [dev g imgid no_image dev' g' Hnil Hload
    |dev g cnt dev' g' Hr IH Hpop
    |dev g module m enable new_item no_image include_masks auto_name_module
       now now_after dev' g' Hr IH Hm Hok Happ].
  - by eapply read_history_invariant.
  - by eapply pop_invariant.
  - destruct (Hmay enable m Hok) as [Hbar Hen].
    by eapply append_invariant.
Qed.

End Kinds.

Lemma bars_nothing : bars_by_flags (fun _ => false).
Proof. done. Qed.

Lemma bars_no_history_stack : bars_by_flags no_history_stack.
Proof.
  split; [|done]. intros m m' H. unfold no_history_stack. by rewrite H.
Qed.

Lemma sample_reload_keeps_white_balance_optional n :
  reload_keeps_white_balance_optional (sample_externals n).
Proof. intros workflow m _ H. exact H. Qed.

(** C5, as the code has it: in every develop state reached by a load into an
    empty stack, pops and appends, every history entry of a module with both
    [default_enabled] and [hide_enable_button] has [enabled] set, provided
    that each append of such a module enables it or finds its struct enabled,
    and that reloading the defaults of the white balance does not turn it
    into such a module.  The state that [dt_dev_read_history_ext] leaves is
    one of these states, whatever the database rows store. *)
Theorem always_on_entries_enabled_reachable X dev :
  reload_keeps_white_balance_optional X ->
  reachable X appends_always_on_enabled dev ->
  always_on_entries_enabled dev.
Proof.
  intros Hwb Hr.
  apply (reachable_invariant true _ bars_nothing X) in Hr as (_ & H & _);
    [by apply H|done|done].
Qed.

Lemma always_on_entries_enabled_witness :
  let X := sample_externals 10 in
  let dev := sample_develop_unpopped in
  let g := sample_darktable [sample_row 0 "colorin" 0; sample_row 1 "exposure" 1] in
  let r1 := dt_dev_read_history_ext X dev g 7 false in
  let loaded := dev_after dev r1 in
  let r2 := _dev_add_history_item_ext X loaded (darktable_after g r1) 1%nat
              true false false false false 1%Q 1%Q in
  let appended := dev_after loaded r2 in
  reload_keeps_white_balance_optional X
  /\ reachable X appends_always_on_enabled appended
  /\ (hist_op_name <$> dev_history appended)
     = ["colorin"; "highlights"; "colorin"; "exposure"; "colorin"]
  /\ (hist_enabled <$> dev_history appended) = [true; true; true; true; true]
  /\ always_on_entries_enabled appended.
Proof.
  intros X dev g r1 loaded r2 appended.
  assert (Hwb : reload_keeps_white_balance_optional X)
    by apply sample_reload_keeps_white_balance_optional.
  assert (Hr : reachable X appends_always_on_enabled appended).
  { apply (reach_append X _ loaded (darktable_after g r1) 1%nat
             (set_mod_enabled false (sample_module 1 "colorin" true true 0))
             true false false false false 1%Q 1%Q appended
             (darktable_after (darktable_after g r1) r2)).
    - apply (reach_load X _ dev g 7 false loaded (darktable_after g r1));
        [reflexivity|vm_compute; reflexivity].
    - vm_compute. reflexivity.
    - intros _. reflexivity.
    - vm_compute. reflexivity. }
  split; [exact Hwb|]. split; [exact Hr|].
  split; [vm_compute; reflexivity|]. split; [vm_compute; reflexivity|].
  exact (always_on_entries_enabled_reachable X appended Hwb Hr).
Defined.

(** C5, as stated, fails: the append copies [module->enabled] into the entry
    and does not look at the kind of the module.  A load leaves the struct of
    an always-on module as it finds it; appending the module right after the
    load, before any pop has switched it on, pushes a disabled entry for
    it. *)
Lemma append_copies_disabled_always_on :
  ~ (forall X dev,
       reload_keeps_white_balance_optional X ->
       reachable X (fun _ _ => True) dev ->
       always_on_entries_enabled dev).
Proof.
  intros H.
  pose (X := sample_externals 10).
  pose (dev := sample_develop_unpopped). pose (g := sample_darktable []).
  pose (r1 := dt_dev_read_history_ext X dev g 7 false).
  pose (dev1 := dev_after dev r1). pose (g1 := darktable_after g r1).
  pose (r2 := _dev_add_history_item_ext X dev1 g1 1%nat false false false false
                false 1%Q 1%Q).
  pose (dev2 := dev_after dev1 r2). pose (g2 := darktable_after g1 r2).
  pose (m1 := default module_inhabited.(inhabitant) (dev_store dev1 !! 1%nat)).
  pose (m2 := default module_inhabited.(inhabitant) (dev_store dev2 !! 1%nat)).
  pose (h := default (sample_entry 0 "exposure" [] true)
               (dev_history dev2 !! 2%nat)).
  assert (Hr : reachable X (fun _ _ => True) dev2).
  { apply (reach_append X _ dev1 g1 1%nat m1 false false false false false
             1%Q 1%Q dev2 g2).
    - apply (reach_load X _ dev g 7 false dev1 g1);
        [reflexivity|vm_compute; reflexivity].
    - vm_compute. reflexivity.
    - exact I.
    - vm_compute. reflexivity. }
  specialize (H X dev2 (sample_reload_keeps_white_balance_optional 10) Hr h m2).
  assert (He : hist_enabled h = true).
  { apply H.
    - apply (list_elem_of_lookup_2 _ 2%nat). vm_compute. reflexivity.
    - vm_compute. reflexivity.
    - vm_compute. reflexivity. }
  vm_compute in He. discriminate He.
Qed.

(** C6, as the code has it: in every develop state reached by a load into an
    empty stack, pops and appends of modules without [NO_HISTORY_STACK], no
    history entry belongs to a module that carries [NO_HISTORY_STACK]. *)
Theorem no_history_stack_reachable X dev :
  reachable X (fun _ m => no_history_stack m = false) dev ->
  history_free_of_no_history_stack dev.
Proof.
  intros Hr.
  apply (reachable_invariant false _ bars_no_history_stack X) in Hr
    as (_ & _ & H); done.
Qed.

Lemma no_history_stack_witness :
  let X := sample_externals 10 in
  let dev := sample_develop [] 0 false in
  let g := sample_darktable [sample_row 0 "overexposed" 1;
                             sample_row 1 "exposure" 1] in
  let r1 := dt_dev_read_history_ext X dev g 7 false in
  let loaded := dev_after dev r1 in
  let r2 := _dev_add_history_item_ext X loaded (darktable_after g r1) 3%nat
              true false false false false 1%Q 1%Q in
  let appended := dev_after loaded r2 in
  reachable X (fun _ m => no_history_stack m = false) appended
  /\ (hist_op_name <$> dev_history appended)
     = ["colorin"; "highlights"; "exposure"; "highlights"]
  /\ history_free_of_no_history_stack appended.
Proof.
  intros X dev g r1 loaded r2 appended.
  assert (Hr : reachable X (fun _ m => no_history_stack m = false) appended).
  { apply (reach_append X _ loaded (darktable_after g r1) 3%nat
             (sample_module 3 "highlights" true false 0)
             true false false false false 1%Q 1%Q appended
             (darktable_after (darktable_after g r1) r2)).
    - apply (reach_load X _ dev g 7 false loaded (darktable_after g r1));
        [reflexivity|vm_compute; reflexivity].
    - vm_compute. reflexivity.
    - reflexivity.
    - vm_compute. reflexivity. }
  split; [exact Hr|]. split; [vm_compute; reflexivity|].
  exact (no_history_stack_reachable X appended Hr).
Defined.

(** C6, as stated, fails: nothing in the append keeps a module that carries
    [NO_HISTORY_STACK] out of the stack.  After a load, the append of such a
    module pushes an entry for it. *)
Lemma append_ignores_no_history_stack :
  ~ (forall X dev,
       reachable X (fun _ _ => True) dev ->
       history_free_of_no_history_stack dev).
Proof.
  intros H.
  pose (X := sample_externals 10).
  pose (dev := sample_develop [] 0 false). pose (g := sample_darktable []).
  pose (r1 := dt_dev_read_history_ext X dev g 7 false).
  pose (dev1 := dev_after dev r1). pose (g1 := darktable_after g r1).
  pose (r2 := _dev_add_history_item_ext X dev1 g1 2%nat true false false false
                false 1%Q 1%Q).
  pose (dev2 := dev_after dev1 r2). pose (g2 := darktable_after g1 r2).
  pose (m1 := default module_inhabited.(inhabitant) (dev_store dev1 !! 2%nat)).
  pose (m2 := default module_inhabited.(inhabitant) (dev_store dev2 !! 2%nat)).
  pose (h := default (sample_entry 0 "exposure" [] false)
               (dev_history dev2 !! 2%nat)).
  assert (Hr : reachable X (fun _ _ => True) dev2).
  { apply (reach_append X _ dev1 g1 2%nat m1 true false false false false
             1%Q 1%Q dev2 g2).
    - apply (reach_load X _ dev g 7 false dev1 g1);
        [reflexivity|vm_compute; reflexivity].
    - vm_compute. reflexivity.
    - exact I.
    - vm_compute. reflexivity. }
  specialize (H X dev2 Hr h m2).
  assert (Hno : no_history_stack m2 = false).
  { apply H.
    - apply (list_elem_of_lookup_2 _ 2%nat). vm_compute. reflexivity.
    - vm_compute. reflexivity. }
  vm_compute in Hno. discriminate Hno.
Qed.

(** * Further properties of the engine *)

(** ** The pop leaves the stack alone *)

Lemma reset_modules_stack X l : forall dev dev',
  reset_modules X dev l = Some dev' ->
  dev_history dev' = dev_history dev
  /\ dev_history_end dev' = dev_history_end dev
  /\ dev_iop dev' = dev_iop dev
  /\ dom (dev_store dev') = dom (dev_store dev).
Proof.
  induction l as [|a l IH]; intros dev dev' H; simpl in H.
  - by injection H as <-.
  - destruct (dev_store dev !! a) as [m|] eqn:Hm; simpl in H; [|done].
    apply IH in H as (-> & -> & -> & ->). simpl. repeat split.
    apply dom_insert_lookup_L. eauto.
Qed.

Lemma replay_history_stack history : forall dev i cnt forms dev' forms',
  replay_history dev history i cnt forms = Some (dev', forms') ->
  dev_history dev' = dev_history dev
  /\ dev_history_end dev' = dev_history_end dev
  /\ dev_iop dev' = dev_iop dev
  /\ dom (dev_store dev') = dom (dev_store dev).
Proof.
  induction history as [|hist next IH]; intros dev i cnt forms dev' forms' H;
    simpl in H.
  - by injection H as <- _.
  - destruct (i <? cnt); [|by injection H as <- _].
    destruct (hist_module hist) as [a|]; simpl in H; [|done].
    destruct (dev_store dev !! a) as [m|] eqn:Hm; simpl in H; [|done].
    apply IH in H as (-> & -> & -> & ->). simpl. repeat split.
    apply dom_insert_lookup_L. eauto.
Qed.

Lemma ordering_effect_dom f dev :
  dom (dev_store (ordering_effect f dev)) = dom (dev_store dev).
Proof.
  unfold ordering_effect. simpl. apply set_eq. intros a.
  rewrite !elem_of_dom, map_lookup_imap.
  destruct (dev_store dev !! a); simpl; split; intros [? ?]; eauto; done.
Qed.

Lemma pop_ext_stack X dev cnt dev' :
  dt_dev_pop_history_items_ext X dev cnt = Some dev' ->
  dev_history dev' = dev_history dev
  /\ dev_history_end dev' = cnt
  /\ dom (dev_store dev') = dom (dev_store dev).
Proof.
  unfold dt_dev_pop_history_items_ext, pop_reset_and_replay. intros H.
  destruct (reset_modules _ _ _) as [dev1|] eqn:E1; simpl in H; [|done].
  destruct (replay_history _ _ _ _ _) as [[dev2 forms]|] eqn:E2; simpl in H;
    [|done].
  apply reset_modules_stack in E1 as (Hh1 & He1 & _ & Hd1).
  apply replay_history_stack in E2 as (Hh2 & He2 & _ & Hd2).
  injection H as <-. simpl in Hh1, He1, Hd1.
  assert (dom (dev_store
                 (ordering_effect (dt_ioppr_check_duplicate_iop_order X)
                    (ordering_effect (dt_ioppr_resync_modules_order X) dev2)))
          = dom (dev_store dev)) as Hd
    by (rewrite !ordering_effect_dom; congruence).
  destruct (masks_changed_loop _ _ _); simpl;
    (split; [congruence|split; [simpl in *; congruence|exact Hd]]).
Qed.

Lemma pop_stack X dev g cnt dev' g' :
  dt_dev_pop_history_items X dev g cnt = Some (dev', g') ->
  dev_history dev' = dev_history dev
  /\ dev_history_end dev' = cnt
  /\ dom (dev_store dev') = dom (dev_store dev)
  /\ dt_events g' = dt_events g ++ [EvRedrawCenter].
Proof.
  unfold dt_dev_pop_history_items. intros H.
  destruct (dt_dev_pop_history_items_ext X dev cnt) as [dev1|] eqn:E;
    simpl in H; [|done].
  apply pop_ext_stack in E as (Hh & He & Hd).
  match type of H with
  | (?c ≫= _) = _ => destruct c as [changed|]
  end; simpl in H; [|done].
  injection H as <- <-. by destruct (negb changed).
Qed.

(** The pop moves the cursor and nothing else of the stack: the entries stay
    as they are, above the cursor too, so that a later pop to a higher cursor
    brings them back; no module struct is created or freed; the cursor is the
    requested one, also beyond the ends of the stack; a redraw is queued. *)
Theorem pop_keeps_the_stack X dev g cnt dev' g' :
  dt_dev_pop_history_items X dev g cnt = Some (dev', g') ->
  dev_history dev' = dev_history dev
  /\ dev_history_end dev' = cnt
  /\ dom (dev_store dev') = dom (dev_store dev)
  /\ dt_events g' = dt_events g ++ [EvRedrawCenter].
Proof. apply pop_stack. Qed.

Lemma pop_keeps_the_stack_witness :
  let X := sample_externals 10 in
  let dev := sample_develop [sample_entry 0 "exposure" [x05; x06] true;
                             sample_entry 1 "colorin" [x01; x02] true] 2
               false in
  let g := sample_darktable [] in
  let r := dt_dev_pop_history_items X dev g 1 in
  r = Some (dev_after dev r, darktable_after g r)
  /\ dev_history (dev_after dev r) = dev_history dev
  /\ dev_history_end (dev_after dev r) = 1.
Proof.
  intros X dev g r.
  assert (Hr : r = Some (dev_after dev r, darktable_after g r))
    by (vm_compute; reflexivity).
  split; [exact Hr|].
  destruct (pop_keeps_the_stack X dev g 1 _ _ Hr) as (Hh & He & _).
  split; [exact Hh|exact He].
Defined.

(** ** What an append leaves below and at the top of the stack *)






(** ** Looking up and removing entries *)

Lemma history_item_walk_spec op items :
  match history_item_walk op items with
  | Some item =>
      exists nearer further,
        items = nearer ++ item :: further
        /\ hist_op_name item = op
        /\ forall h, h ∈ nearer -> hist_op_name h <> op
  | None => forall h, h ∈ items -> hist_op_name h <> op
  end.
Proof.
  induction items as [|item prev IH]; simpl.
  - intros h Hh. by apply elem_of_nil in Hh.
  - destruct (String.eqb (hist_op_name item) op) eqn:E.
    + apply String.eqb_eq in E. exists [], prev. split; [done|]. split; [done|].
      intros h Hh. by apply elem_of_nil in Hh.
    + apply String.eqb_neq in E.
      destruct (history_item_walk op prev) as [found|].
      * destruct IH as (nearer & further & -> & Hop & Hn).
        exists (item :: nearer), further. split; [done|]. split; [done|].
        intros h [->|Hh]%elem_of_cons; [done|by apply Hn].
      * intros h [->|Hh]%elem_of_cons; [done|by apply IH].
Qed.

(** [dt_dev_get_history_item] returns the last entry of the operation in the
    whole stack, the entries above [history_end] included, and [NULL] exactly
    when the stack has no entry of the operation. *)
Theorem get_history_item_is_last dev op :
  match dt_dev_get_history_item dev op with
  | Some item =>
      exists before after,
        dev_history dev = before ++ item :: after
        /\ hist_op_name item = op
        /\ forall h, h ∈ after -> hist_op_name h <> op
  | None => forall h, h ∈ dev_history dev -> hist_op_name h <> op
  end.
Proof.
  unfold dt_dev_get_history_item.
  pose proof (history_item_walk_spec op (reverse (dev_history dev))) as H.
  destruct (history_item_walk op (reverse (dev_history dev))) as [item|].
  - destruct H as (nearer & further & Hrev & Hop & Hn).
    exists (reverse further), (reverse nearer).
    split; [|split; [done|]].
    + apply (f_equal reverse) in Hrev.
      rewrite reverse_involutive, reverse_app, reverse_cons in Hrev.
      by rewrite Hrev, <- app_assoc.
    + intros h Hh. apply Hn. by apply elem_of_reverse.
  - intros h Hh. apply H. by apply elem_of_reverse.
Qed.

Lemma remove_module_items_spec module elems : forall history_end del,
  remove_module_items module elems history_end del
  = (filter (fun h => hist_module h <> Some module) elems,
     history_end
     - Z.of_nat (length (filter (fun h => hist_module h = Some module) elems)),
     del || bool_decide
              (0 < length (filter (fun h => hist_module h = Some module)
                             elems))%nat).
Proof.
  induction elems as [|hist next IH]; intros history_end del; simpl.
  - rewrite Z.sub_0_r. f_equal. by destruct del.
  - destruct (bool_decide (hist_module hist = Some module)) eqn:E.
    + apply bool_decide_eq_true in E. rewrite IH.
      rewrite filter_cons_False by (intros H; by apply H).
      rewrite filter_cons_True by done. cbn [length].
      f_equal; [f_equal; lia|].
      rewrite (bool_decide_eq_true_2 (0 < S _)%nat) by lia.
      by rewrite orb_true_r.
    + apply bool_decide_eq_false in E. rewrite IH.
      rewrite filter_cons_True by done. by rewrite filter_cons_False by done.
Qed.

Lemma remove_first_link_absent module modules :
  module ∉ modules -> remove_first_link module modules = modules.
Proof.
  induction modules as [|a next IH]; intros H; simpl; [done|].
  rewrite bool_decide_eq_false_2.
  - f_equal. apply IH. intros Hin. apply H. by right.
  - intros ->. apply H. by left.
Qed.

Lemma remove_first_link_present module l1 l2 :
  module ∉ l1 -> remove_first_link module (l1 ++ module :: l2) = l1 ++ l2.
Proof.
  induction l1 as [|a l1 IH]; intros H; simpl.
  - by rewrite bool_decide_eq_true_2.
  - rewrite bool_decide_eq_false_2.
    + f_equal. apply IH. intros Hin. apply H. by right.
    + intros ->. apply H. by left.
Qed.

(** With the GUI attached, [dt_dev_module_remove] deletes every entry of the
    module from the stack, above the cursor too, and keeps the other entries
    in order; the cursor goes down by the number of deleted entries, whether
    they were below it or not, so that a cursor at the top stays at the top.
    The first node of [dev->iop] that holds the module is unlinked; the
    module struct itself is left to the caller.  A redraw is queued when an
    entry was deleted. *)
Theorem module_remove_spec darkroom dev g module :
  dev_gui_attached dev = true ->
  let r := dt_dev_module_remove darkroom dev g module in
  let deleted :=
    filter (fun h => hist_module h = Some module) (dev_history dev) in
  dev_history r.1
  = filter (fun h => hist_module h <> Some module) (dev_history dev)
  /\ dev_history_end r.1 = dev_history_end dev - Z.of_nat (length deleted)
  /\ (dev_history_end dev = Z.of_nat (length (dev_history dev)) ->
      dev_history_end r.1 = Z.of_nat (length (dev_history r.1)))
  /\ dev_store r.1 = dev_store dev
  /\ (module ∉ dev_iop dev -> dev_iop r.1 = dev_iop dev)
  /\ (forall l1 l2, dev_iop dev = l1 ++ module :: l2 -> module ∉ l1 ->
        dev_iop r.1 = l1 ++ l2)
  /\ (deleted <> [] -> last (dt_events r.2) = Some EvRedrawCenter)
  /\ (deleted = [] ->
      r.2 = dt_dev_undo_start_record darkroom dev g).
Proof.
  intros Hgui r deleted. subst r. unfold dt_dev_module_remove.
  rewrite Hgui. rewrite remove_module_items_spec. cbn [orb].
  fold deleted.
  set (del := bool_decide (0 < length deleted)%nat).
  assert (Hdel : del = true <-> deleted <> []).
  { subst del. rewrite bool_decide_eq_true.
    destruct deleted; simpl; split; try done; try lia. }
  assert (Hlen : length (dev_history dev)
                 = (length (filter (fun h => hist_module h <> Some module)
                              (dev_history dev))
                    + length deleted)%nat).
  { subst deleted. clear. induction (dev_history dev) as [|h l IH]; [done|].
    destruct (decide (hist_module h = Some module)) as [E|E].
    - rewrite filter_cons_False by (intros H; by apply H).
      rewrite filter_cons_True by done. simpl. lia.
    - rewrite filter_cons_True by done.
      rewrite filter_cons_False by done. simpl. lia. }
  assert (Hcommon :
    forall g2 : darktable_t,
      let d := set_dev_iop (remove_first_link module (dev_iop dev))
                 (set_dev_history
                    (filter (fun h => hist_module h <> Some module)
                       (dev_history dev))
                    (set_dev_history_end
                       (dev_history_end dev - Z.of_nat (length deleted)) dev))
      in
      dev_history d
      = filter (fun h => hist_module h <> Some module) (dev_history dev)
      /\ dev_history_end d = dev_history_end dev - Z.of_nat (length deleted)
      /\ (dev_history_end dev = Z.of_nat (length (dev_history dev)) ->
          dev_history_end d = Z.of_nat (length (dev_history d)))
      /\ dev_store d = dev_store dev
      /\ (module ∉ dev_iop dev -> dev_iop d = dev_iop dev)
      /\ (forall l1 l2, dev_iop dev = l1 ++ module :: l2 -> module ∉ l1 ->
            dev_iop d = l1 ++ l2)).
  { intros _. simpl. split; [done|]. split; [done|]. split; [lia|].
    split; [done|]. split; [apply remove_first_link_absent|].
    intros l1 l2 -> Hl1. by apply remove_first_link_present. }
  simpl. rewrite Hgui. simpl. destruct del eqn:Ed.
  - destruct (Hcommon g) as (? & ? & ? & ? & ? & ?).
    repeat (split; [done|]). split.
    + intros _. simpl. by rewrite last_snoc.
    + intros E. apply Hdel in E; done.
  - destruct (Hcommon g) as (? & ? & ? & ? & ? & ?).
    repeat (split; [done|]). split; [|done].
    intros Hne. apply Hdel in Hne. done.
Qed.

Lemma module_remove_spec_witness :
  let dev := sample_develop [sample_entry 0 "exposure" [x05; x06] true;
                             sample_entry 1 "colorin" [x01; x02] true;
                             sample_entry 0 "exposure" [x07; x08] true] 1
               false in
  let r := dt_dev_module_remove true dev (sample_darktable []) 0%nat in
  dev_gui_attached dev = true
  /\ dev_history r.1 = [sample_entry 1 "colorin" [x01; x02] true]
  /\ dev_history_end r.1 = -1
  /\ dev_iop r.1 = [1; 2; 3]%nat.
Proof.
  intros dev r. split; [reflexivity|].
  destruct (module_remove_spec true dev (sample_darktable []) 0%nat eq_refl)
    as (Hh & He & _ & _ & _ & Hiop & _).
  subst r.
  split; [rewrite Hh; reflexivity|]. split; [rewrite He; reflexivity|].
  apply (Hiop [] [1; 2; 3]%nat); [reflexivity|]. apply not_elem_of_nil.
Defined.

(** After [dt_dev_invalidate_history_module] no item of the list points to
    the module; the items of other modules stay where and as they are. *)
Theorem invalidate_history_module_spec items module :
  let items' := dt_dev_invalidate_history_module items module in
  length items' = length items
  /\ (forall h, h ∈ items' -> hist_module h <> Some module)
  /\ (forall i h, items !! i = Some h -> hist_module h <> Some module ->
        items' !! i = Some h)
  /\ (forall i h, items !! i = Some h -> hist_module h = Some module ->
        items' !! i = Some (set_hist_module None h))
  /\ dt_dev_invalidate_history_module items' module = items'.
Proof.
  induction items as [|hitem next IH]; simpl.
  - split; [done|]. split; [intros h Hh; by apply elem_of_nil in Hh|].
    split; [done|]. split; [done|]. done.
  - destruct IH as (Hlen & Hnone & Hkeep & Hcut & Hidem).
    split; [by rewrite Hlen|]. split.
    { intros h [->|Hh]%elem_of_cons; [|by apply Hnone].
      destruct (bool_decide (hist_module hitem = Some module)) eqn:E; [done|].
      by apply bool_decide_eq_false in E. }
    split.
    { intros [|i] h Hi Hm; simpl in *; [|by apply Hkeep].
      injection Hi as ->. by rewrite bool_decide_eq_false_2. }
    split.
    { intros [|i] h Hi Hm; simpl in *; [|by apply Hcut].
      injection Hi as ->. by rewrite bool_decide_eq_true_2. }
    rewrite Hidem. f_equal.
    destruct (bool_decide (hist_module hitem = Some module)) eqn:E; simpl.
    + done.
    + by rewrite E.
Qed.

(** ** The rows of the database *)

#[global] Instance row_num_le_transitive : Transitive row_num_le.
Proof. intros a b c. unfold row_num_le. lia. Qed.

#[global] Instance row_num_le_total : Total row_num_le.
Proof. intros a b. unfold row_num_le. lia. Qed.

(** [ORDER BY num] returns a list that is sorted by [num] and in which [num]
    identifies the row: it is the only order the query can return. *)
Lemma order_by_num (l l' : list db_row) :
  l ≡ₚ l' -> Sorted row_num_le l' ->
  (forall x y, x ∈ l' -> y ∈ l' -> row_num x = row_num y -> x = y) ->
  merge_sort row_num_le l = l'.
Proof.
  intros Hp Hs Hinj. apply (Sorted_unique_strong row_num_le).
  - intros x y Hx Hy Hxy Hyx. apply Hinj; [|done|unfold row_num_le in *; lia].
    apply (elem_of_Permutation_proper _ _ _
             (merge_sort_Permutation row_num_le l)) in Hx.
    by rewrite <- Hp.
  - apply Sorted_merge_sort, _.
  - done.
  - by rewrite merge_sort_Permutation.
Qed.

Lemma numbered_sorted rows : forall i,
  numbered_from i rows ->
  Sorted row_num_le rows
  /\ (forall x y, x ∈ rows -> y ∈ rows -> row_num x = row_num y -> x = y).
Proof.
  intros i Hn. split.
  - revert i Hn. induction rows as [|r rows IH]; intros i Hn; [constructor|].
    constructor.
    + apply (IH (i + 1)). intros k r' Hk. rewrite (Hn (S k) r' Hk). lia.
    + destruct rows as [|r' rows']; constructor. unfold row_num_le.
      rewrite (Hn 0%nat r eq_refl), (Hn 1%nat r' eq_refl). lia.
  - intros x y [kx Hx]%list_elem_of_lookup [ky Hy]%list_elem_of_lookup Hxy.
    rewrite (Hn kx x Hx), (Hn ky y Hy) in Hxy.
    assert (kx = ky) as -> by lia. congruence.
Qed.

Lemma write_history_items_spec X dev imgid history : forall i rows,
  write_history_items X dev imgid i history = Some rows ->
  length rows = length history
  /\ numbered_from i rows
  /\ Forall (fun r => row_imgid r = imgid) rows
  /\ (forall k h, history !! k = Some h ->
        exists r, rows !! k = Some r
          /\ history_item_row X dev imgid (i + Z.of_nat k) h = Some r).
Proof.
  induction history as [|h history IH]; intros i rows H; simpl in H.
  - injection H as <-. repeat split; [done|constructor|done].
  - destruct (history_item_row X dev imgid i h) as [r|] eqn:Er; simpl in H;
      [|done].
    destruct (write_history_items X dev imgid (i + 1) history) as [rs|] eqn:Ers;
      simpl in H; [|done].
    injection H as <-. apply IH in Ers as (Hlen & Hnum & Hid & Hrows).
    split; [simpl; by rewrite Hlen|]. split.
    { intros [|k] r' Hk; simpl in Hk.
      - injection Hk as <-. unfold history_item_row in Er.
        destruct (deref dev (hist_module h)); simpl in Er; [|done].
        injection Er as <-. simpl. lia.
      - rewrite (Hnum k r' Hk). lia. }
    split.
    { constructor; [|done]. unfold history_item_row in Er.
      destruct (deref dev (hist_module h)); simpl in Er; [|done].
      by injection Er as <-. }
    intros [|k] h' Hk; simpl in Hk.
    + injection Hk as <-. exists r. split; [done|]. by rewrite Z.add_0_r.
    + destruct (Hrows k h' Hk) as (r' & Hr' & Hrow). exists r'.
      split; [done|]. rewrite <- Hrow. f_equal. lia.
Qed.

Lemma filter_filter_other (imgid other : Z) (main : list db_row) :
  other <> imgid ->
  filter (fun r => row_imgid r = other)
    (filter (fun r => row_imgid r ≠ imgid) main)
  = filter (fun r => row_imgid r = other) main.
Proof.
  intros Hne. induction main as [|r main IH]; [done|].
  destruct (decide (row_imgid r = imgid)) as [E|E].
  - rewrite (filter_cons_False (fun r => row_imgid r ≠ imgid))
      by (intros H; by apply H).
    rewrite (filter_cons_False (fun r => row_imgid r = other)) by congruence.
    done.
  - rewrite (filter_cons_True (fun r => row_imgid r ≠ imgid)) by done.
    destruct (decide (row_imgid r = other)) as [E'|E'].
    + rewrite !(filter_cons_True (fun r => row_imgid r = other)) by done.
      by rewrite IH.
    + rewrite !(filter_cons_False (fun r => row_imgid r = other)) by done.
      done.
Qed.

Lemma filter_filter_same (imgid : Z) (main : list db_row) :
  filter (fun r => row_imgid r = imgid)
    (filter (fun r => row_imgid r ≠ imgid) main) = [].
Proof.
  induction main as [|r main IH]; [done|].
  destruct (decide (row_imgid r = imgid)) as [E|E].
  - by rewrite (filter_cons_False (fun r => row_imgid r ≠ imgid))
      by (intros H; by apply H).
  - rewrite (filter_cons_True (fun r => row_imgid r ≠ imgid)) by done.
    by rewrite (filter_cons_False (fun r => row_imgid r = imgid)) by done.
Qed.

Lemma filter_all (imgid : Z) (rows : list db_row) :
  Forall (fun r => row_imgid r = imgid) rows ->
  filter (fun r => row_imgid r = imgid) rows = rows.
Proof.
  induction 1 as [|r rows Hr _ IH]; [done|].
  by rewrite filter_cons_True, IH.
Qed.

Lemma filter_none (imgid other : Z) (rows : list db_row) :
  other <> imgid ->
  Forall (fun r => row_imgid r = imgid) rows ->
  filter (fun r => row_imgid r = other) rows = [].
Proof.
  intros Hne. induction 1 as [|r rows Hr _ IH]; [done|].
  rewrite filter_cons_False by congruence. exact IH.
Qed.

(** What a rewrite of the rows of an image leaves to the queries. *)
Lemma select_after_rewrite g g' imgid rows :
  dt_main_history g'
  = filter (fun r => row_imgid r ≠ imgid) (dt_main_history g) ++ rows ->
  numbered_from 0 rows ->
  Forall (fun r => row_imgid r = imgid) rows ->
  select_history g' imgid = rows
  /\ forall other, other <> imgid ->
       select_history g' other = select_history g other.
Proof.
  intros Hmain Hnum Hid. unfold select_history. rewrite Hmain. split.
  - rewrite filter_app, filter_filter_same, filter_all by done. simpl.
    destruct (numbered_sorted rows 0 Hnum) as [Hs Hinj].
    by apply order_by_num.
  - intros other Hne.
    rewrite filter_app. rewrite (filter_filter_other imgid other _ Hne).
    rewrite (filter_none imgid other rows Hne Hid). by rewrite app_nil_r.
Qed.

(** Writing the stack and reading the rows back: after
    [dt_dev_write_history_ext] the query of the load returns one row for each
    entry of the stack, in stack order and numbered from 0, each the row of
    its entry; the rows of the other images are what they were; and
    [history_end] of the edited image is the cursor. *)
Theorem write_history_then_select X dev g imgid g' :
  dt_dev_write_history_ext X dev g imgid = Some g' ->
  let rows := select_history g' imgid in
  length rows = length (dev_history dev)
  /\ (forall k h, dev_history dev !! k = Some h ->
        exists r, rows !! k = Some r
          /\ history_item_row X dev imgid (Z.of_nat k) h = Some r
          /\ row_num r = Z.of_nat k)
  /\ (forall other, other <> imgid ->
        select_history g' other = select_history g other)
  /\ (imgid = img_id (dt_image_cache g) ->
      dt_images_history_end g' = dev_history_end dev).
Proof.
  unfold dt_dev_write_history_ext. intros H.
  destruct (write_history_items X dev imgid 0 (dev_history dev)) as [rows|]
    eqn:Ew; simpl in H; [|done].
  apply write_history_items_spec in Ew as (Hlen & Hnum & Hid & Hrows).
  assert (Hmain : dt_main_history g'
                  = filter (fun r => row_imgid r ≠ imgid) (dt_main_history g)
                    ++ rows).
  { injection H as <-. by destruct (imgid =? _). }
  destruct (select_after_rewrite g g' imgid rows Hmain Hnum Hid) as [Hsel Hoth].
  cbn zeta. rewrite Hsel. split; [done|]. split.
  { intros k h Hk. destruct (Hrows k h Hk) as (r & Hr & Hrow).
    exists r. split; [done|]. split; [by rewrite Z.add_0_l in Hrow|].
    rewrite (Hnum k r Hr). lia. }
  split; [done|].
  intros ->. injection H as <-. simpl. by rewrite Z.eqb_refl.
Qed.

Lemma write_history_then_select_witness :
  let X := sample_externals 10 in
  let dev := sample_develop [sample_entry 0 "exposure" [x05; x06] true;
                             sample_entry 1 "colorin" [x01; x02] true] 2
               false in
  let g := sample_darktable [sample_row 0 "highlights" 1] in
  let g' := default g (dt_dev_write_history_ext X dev g 7) in
  dt_dev_write_history_ext X dev g 7 = Some g'
  /\ length (select_history g' 7) = 2%nat
  /\ dt_images_history_end g' = 2.
Proof.
  intros X dev g g'.
  assert (Hw : dt_dev_write_history_ext X dev g 7 = Some g')
    by (vm_compute; reflexivity).
  split; [exact Hw|].
  destruct (write_history_then_select X dev g 7 g' Hw) as (Hlen & _ & _ & He).
  split; [exact Hlen|]. by apply He.
Defined.

(** After a load the database holds the loaded stack: the query of the load,
    run again, returns one row for each entry, in stack order, each the row
    of its entry. *)
Theorem read_history_syncs_database X dev g imgid no_image dev' g' :
  dt_is_valid_imgid X imgid = true ->
  dev_iop dev <> [] ->
  dt_dev_read_history_ext X dev g imgid no_image = Some (dev', g') ->
  let rows := select_history g' imgid in
  length rows = length (dev_history dev')
  /\ (forall k h, dev_history dev' !! k = Some h ->
        exists r, rows !! k = Some r
          /\ history_item_row X dev' imgid (Z.of_nat k) h = Some r).
Proof.
  unfold dt_dev_read_history_ext. intros Hv Hiop H. rewrite Hv in H.
  simpl in H. destruct (dev_iop dev) as [|a0 l0]; [done|].
  match type of H with
  | (?c ≫= _) = _ => destruct c as [[[[dev1 g1] fr] cnt]|]
  end; simpl in H; [|done].
  destruct (read_history_rows _ _ _ _ _ _) as [st|]; simpl in H; [|done].
  match type of H with
  | (?c ≫= _) = _ => destruct c as [dev3|]
  end; simpl in H; [|done].
  destruct (_dev_write_history _ _ _ _) as [g2|] eqn:Ew; simpl in H; [|done].
  injection H as <- <-.
  unfold _dev_write_history in Ew.
  destruct (write_history_items _ _ _ _ _) as [rows|] eqn:Er; simpl in Ew;
    [|done].
  injection Ew as <-.
  apply write_history_items_spec in Er as (Hlen & Hnum & Hid & Hrows).
  destruct (select_after_rewrite g1 (set_dt_main_history
              (filter (fun r => row_imgid r ≠ imgid) (dt_main_history g1)
               ++ rows) g1) imgid rows eq_refl Hnum Hid) as [Hsel _].
  cbn zeta. rewrite Hsel. split; [done|].
  intros k h Hk. destruct (Hrows k h Hk) as (r & Hr & Hrow).
  exists r. split; [done|]. by rewrite Z.add_0_l in Hrow.
Qed.

Lemma read_history_syncs_database_witness :
  let X := sample_externals 10 in
  let dev := sample_develop [] 0 false in
  let g := sample_darktable [sample_row 0 "colorin" 0;
                             sample_row 1 "exposure" 1] in
  let r := dt_dev_read_history_ext X dev g 7 false in
  dt_is_valid_imgid X 7 = true
  /\ r = Some (dev_after dev r, darktable_after g r)
  /\ length (select_history (darktable_after g r) 7) = 4%nat.
Proof.
  intros X dev g r.
  assert (Hr : r = Some (dev_after dev r, darktable_after g r))
    by (vm_compute; reflexivity).
  split; [reflexivity|]. split; [exact Hr|].
  destruct (read_history_syncs_database X dev g 7 false _ _ eq_refl
              ltac:(discriminate) Hr) as [Hlen _].
  rewrite Hlen. vm_compute. reflexivity.
Defined.

(** ** Default modules *)

Lemma add_default_modules_loop_rows X dev hide imgid modules : forall g g',
  add_default_modules_loop X dev hide imgid modules g = Some g' ->
  dt_main_history g' = dt_main_history g
  /\ exists rows,
       dt_memory_history g' = dt_memory_history g ++ rows
       /\ Forall (fun r =>
            exists a m,
              a ∈ modules /\ dev_store dev !! a = Some m
              /\ r = default_module_row X m imgid
              /\ mod_default_enabled m = true
              /\ mod_hide_enable_button m = hide
              /\ no_history_stack m = false) rows.
Proof.
  induction modules as [|a next IH]; intros g g' H; simpl in H.
  - injection H as <-. split; [done|]. exists []. by rewrite app_nil_r.
  - destruct (dev_store dev !! a) as [m|] eqn:Hm; simpl in H; [|done].
    apply IH in H as [Hmain (rows & Hmem & Hrows)].
    assert (Hnext : Forall (fun r =>
              exists a0 m0,
                a0 ∈ a :: next /\ dev_store dev !! a0 = Some m0
                /\ r = default_module_row X m0 imgid
                /\ mod_default_enabled m0 = true
                /\ mod_hide_enable_button m0 = hide
                /\ no_history_stack m0 = false) rows).
    { eapply Forall_impl; [exact Hrows|].
      intros r (a0 & m0 & Ha0 & ?). exists a0, m0. split; [by right|done]. }
    destruct (_ && _ && _ && _) eqn:E.
    + rewrite !andb_true_iff in E. destruct E as [[[_ Hde] Hhide] Hno].
      split; [done|]. simpl in Hmem. rewrite <- app_assoc in Hmem.
      eexists. split; [exact Hmem|]. constructor; [|exact Hnext].
      exists a, m. split; [by left|]. split; [done|]. split; [done|].
      split; [done|]. split; [by apply eqb_prop in Hhide|].
      unfold no_history_stack. by apply negb_true_iff in Hno.
    + split; [done|]. exists rows. split; [done|exact Hnext].
Qed.

(** [_dev_add_default_modules] only appends to [memory.history], and only
    default rows of modules of [dev->iop] that are enabled by default and do
    not carry [NO_HISTORY_STACK]; the rows of the modules that hide their
    enable button come first. *)
Theorem add_default_modules_rows X dev g imgid g' :
  _dev_add_default_modules X dev g imgid = Some g' ->
  dt_main_history g' = dt_main_history g
  /\ exists hidden shown,
       dt_memory_history g' = dt_memory_history g ++ hidden ++ shown
       /\ Forall (fun r =>
            exists a m,
              a ∈ dev_iop dev /\ dev_store dev !! a = Some m
              /\ r = default_module_row X m imgid
              /\ mod_default_enabled m = true
              /\ mod_hide_enable_button m = true
              /\ no_history_stack m = false) hidden
       /\ Forall (fun r =>
            exists a m,
              a ∈ dev_iop dev /\ dev_store dev !! a = Some m
              /\ r = default_module_row X m imgid
              /\ mod_default_enabled m = true
              /\ mod_hide_enable_button m = false
              /\ no_history_stack m = false) shown.
Proof.
  unfold _dev_add_default_modules. intros H.
  destruct (add_default_modules_loop X dev true imgid (dev_iop dev) g)
    as [g1|] eqn:E1; simpl in H; [|done].
  apply add_default_modules_loop_rows in E1 as [Hm1 (hidden & Hmem1 & Hh)].
  apply add_default_modules_loop_rows in H as [Hm2 (shown & Hmem2 & Hs)].
  split; [congruence|]. exists hidden, shown.
  split; [by rewrite Hmem2, Hmem1, <- app_assoc|]. done.
Qed.

Lemma add_default_modules_rows_witness :
  let X := sample_externals 10 in
  let dev := sample_develop [] 0 false in
  let g := sample_darktable [] in
  let g' := default g (_dev_add_default_modules X dev g 7) in
  _dev_add_default_modules X dev g 7 = Some g'
  /\ row_operation <$> dt_memory_history g'
     = [Some "colorin"; Some "highlights"]
  /\ dt_main_history g' = dt_main_history g.
Proof.
  intros X dev g g'.
  assert (Hd : _dev_add_default_modules X dev g 7 = Some g')
    by (vm_compute; reflexivity).
  split; [exact Hd|]. split; [vm_compute; reflexivity|].
  exact (proj1 (add_default_modules_rows X dev g 7 g' Hd)).
Defined.

(** ** The merge of [memory.history] *)

Lemma set_row_num_imgid v r : row_imgid (set_row_num v r) = row_imgid r.
Proof. done. Qed.

Lemma set_row_num_same r : set_row_num (row_num r) r = r.
Proof. by destruct r. Qed.

Lemma filter_shifted imgid cnt (main : list db_row) :
  filter (fun r => row_imgid r = imgid)
    (map (fun r => if row_imgid r =? imgid
                   then set_row_num (row_num r + cnt) r else r) main)
  = map (fun r => set_row_num (row_num r + cnt) r)
      (filter (fun r => row_imgid r = imgid) main).
Proof.
  induction main as [|r main IH]; [done|]. simpl.
  destruct (decide (row_imgid r = imgid)) as [E|E].
  - rewrite (proj2 (Z.eqb_eq _ _) E).
    rewrite filter_cons_True by done. rewrite filter_cons_True by done.
    simpl. by rewrite IH.
  - rewrite (proj2 (Z.eqb_neq _ _) E).
    rewrite filter_cons_False by done. by rewrite filter_cons_False by done.
Qed.

Lemma filter_shifted_other imgid other cnt (main : list db_row) :
  other <> imgid ->
  filter (fun r => row_imgid r = other)
    (map (fun r => if row_imgid r =? imgid
                   then set_row_num (row_num r + cnt) r else r) main)
  = filter (fun r => row_imgid r = other) main.
Proof.
  intros Hne. induction main as [|r main IH]; [done|]. simpl.
  destruct (decide (row_imgid r = imgid)) as [E|E].
  - rewrite (proj2 (Z.eqb_eq _ _) E).
    rewrite filter_cons_False by (simpl; congruence).
    by rewrite filter_cons_False by congruence.
  - rewrite (proj2 (Z.eqb_neq _ _) E).
    destruct (decide (row_imgid r = other)) as [E'|E'].
    + rewrite !filter_cons_True by done. by rewrite IH.
    + by rewrite !filter_cons_False by done.
Qed.

Lemma renumbered_spec (memory : list db_row) :
  let memory' := imap (fun i r => set_row_num (Z.of_nat i) r) memory in
  length memory' = length memory
  /\ numbered_from 0 memory'
  /\ (forall imgid, Forall (fun r => row_imgid r = imgid) memory ->
        Forall (fun r => row_imgid r = imgid) memory').
Proof.
  cbn zeta. split; [by rewrite length_imap|]. split.
  - intros k r Hk. rewrite list_lookup_imap in Hk.
    destruct (memory !! k); simpl in Hk; [|done]. injection Hk as <-.
    simpl. lia.
  - intros imgid H. apply Forall_lookup. intros k r Hk.
    rewrite list_lookup_imap in Hk.
    destruct (memory !! k) as [r0|] eqn:E; simpl in Hk; [|done].
    injection Hk as <-. simpl. by apply (Forall_lookup_1 _ _ _ _ H E).
Qed.

Lemma Sorted_shift cnt (l : list db_row) :
  Sorted row_num_le l ->
  Sorted row_num_le (map (fun r => set_row_num (row_num r + cnt) r) l).
Proof.
  induction 1 as [|r l Hs IH Hhd]; simpl; constructor; [done|].
  destruct Hhd; simpl; constructor. unfold row_num_le in *. simpl. lia.
Qed.

(** The rows of [memory.history] are prepended to the rows of the image: the
    query of the load returns them first, in insertion order and numbered
    from 0, then the rows the image had, in their order, each moved up by the
    number of prepended rows; [history_end] of the image moves up by the same
    number; the rows of the other images are left alone.  The rows of the
    image must not have negative or repeated numbers. *)
Theorem merge_history_prepends g imgid :
  Forall (fun r => row_imgid r = imgid) (dt_memory_history g) ->
  (forall r, r ∈ select_history g imgid -> 0 <= row_num r) ->
  (forall x y, x ∈ select_history g imgid -> y ∈ select_history g imgid ->
     row_num x = row_num y -> x = y) ->
  let cnt := Z.of_nat (length (dt_memory_history g)) in
  let g' := _dev_merge_history g imgid in
  select_history g' imgid
  = imap (fun i r => set_row_num (Z.of_nat i) r) (dt_memory_history g)
    ++ map (fun r => set_row_num (row_num r + cnt) r) (select_history g imgid)
  /\ dt_images_history_end g' = dt_images_history_end g + cnt
  /\ (forall other, other <> imgid ->
        select_history g' other = select_history g other)
  /\ (numbered_from 0 (select_history g imgid) ->
      numbered_from 0 (select_history g' imgid)).
Proof.
  intros Hmem Hpos Hinj cnt g'.
  pose proof (renumbered_spec (dt_memory_history g)) as Hren.
  cbn zeta in Hren.
  set (memory' := imap (fun i r => set_row_num (Z.of_nat i) r)
                    (dt_memory_history g)) in *.
  destruct Hren as (Hlen' & Hnum' & Hid').
  specialize (Hid' imgid Hmem).
  assert (Hsel : select_history g' imgid
                 = memory' ++ map (fun r => set_row_num (row_num r + cnt) r)
                                (select_history g imgid)).
  { subst g'. unfold _dev_merge_history. fold cnt.
    destruct (0 <? cnt) eqn:Ecnt.
    - unfold select_history at 1. simpl. fold memory'.
      rewrite filter_app, filter_shifted, (filter_all imgid memory') by done.
      apply order_by_num.
      + rewrite Permutation_app_comm. apply Permutation_app; [done|].
        apply fmap_Permutation. symmetry. apply merge_sort_Permutation.
      + apply StronglySorted_Sorted.
        apply StronglySorted_app_2.
        * intros x1 x2 [k Hk]%list_elem_of_lookup Hx2.
          apply list_elem_of_fmap in Hx2 as (r0 & -> & Hr0).
          unfold row_num_le. simpl. rewrite (Hnum' k x1 Hk).
          apply lookup_lt_Some in Hk. specialize (Hpos r0 Hr0). lia.
        * apply Sorted_StronglySorted; [apply _|].
          apply (numbered_sorted memory' 0 Hnum').
        * apply Sorted_StronglySorted; [apply _|]. apply Sorted_shift.
          apply Sorted_merge_sort, _.
      + intros x y Hx Hy Hxy.
        apply elem_of_app in Hx as [Hx|Hx]; apply elem_of_app in Hy as [Hy|Hy].
        * by apply (proj2 (numbered_sorted memory' 0 Hnum')).
        * apply list_elem_of_lookup in Hx as [k Hk].
          apply list_elem_of_fmap in Hy as (r0 & -> & Hr0).
          simpl in Hxy. rewrite (Hnum' k x Hk) in Hxy.
          apply lookup_lt_Some in Hk. specialize (Hpos r0 Hr0). lia.
        * apply list_elem_of_lookup in Hy as [k Hk].
          apply list_elem_of_fmap in Hx as (r0 & -> & Hr0).
          simpl in Hxy. rewrite (Hnum' k y Hk) in Hxy.
          apply lookup_lt_Some in Hk. specialize (Hpos r0 Hr0). lia.
        * apply list_elem_of_fmap in Hx as (x0 & -> & Hx0).
          apply list_elem_of_fmap in Hy as (y0 & -> & Hy0).
          simpl in Hxy. assert (x0 = y0) as -> by (apply Hinj; [done..|lia]).
          done.
    - assert (dt_memory_history g = []) as Hnil.
      { destruct (dt_memory_history g); [done|]. apply Z.ltb_ge in Ecnt.
        subst cnt. simpl in Ecnt. lia. }
      subst memory' cnt. rewrite Hnil. simpl.
      rewrite <- (map_id (select_history g imgid)) at 1.
      apply map_ext. intros r. rewrite Z.add_0_r. by rewrite set_row_num_same. }
  split; [exact Hsel|]. split.
  { subst g'. unfold _dev_merge_history. fold cnt.
    destruct (0 <? cnt) eqn:Ecnt; [done|]. apply Z.ltb_ge in Ecnt.
    subst cnt. lia. }
  split.
  { intros other Hne. subst g'. unfold _dev_merge_history. fold cnt.
    destruct (0 <? cnt); [|done]. unfold select_history. simpl. fold memory'.
    rewrite filter_app, filter_shifted_other by done.
    rewrite (filter_none imgid other memory' Hne Hid'). by rewrite app_nil_r. }
  intros Hold k r Hk. rewrite Hsel in Hk.
  destruct (decide (k < length memory')%nat) as [Hlt|Hge].
  - rewrite lookup_app_l in Hk by done. by apply Hnum'.
  - rewrite lookup_app_r in Hk by lia.
    rewrite list_lookup_fmap in Hk.
    destruct (select_history g imgid !! (k - length memory')%nat) as [r0|]
      eqn:E; simpl in Hk; [|done].
    injection Hk as <-. simpl. rewrite (Hold _ _ E). subst cnt. lia.
Qed.

Lemma merge_history_prepends_witness :
  let g := Build_darktable sample_image
             [sample_row 0 "exposure" 1; sample_row 1 "highlights" 1]
             [sample_row 5 "colorin" 1] 2 0%Q [] in
  Forall (fun r => row_imgid r = 7) (dt_memory_history g)
  /\ row_operation <$> select_history (_dev_merge_history g 7) 7
     = [Some "colorin"; Some "exposure"; Some "highlights"]
  /\ row_num <$> select_history (_dev_merge_history g 7) 7 = [0; 1; 2]
  /\ dt_images_history_end (_dev_merge_history g 7) = 3.
Proof.
  intros g.
  assert (Hmem : Forall (fun r => row_imgid r = 7) (dt_memory_history g))
    by (by repeat constructor).
  assert (Hsel : select_history g 7
                 = [sample_row 0 "exposure" 1; sample_row 1 "highlights" 1])
    by (vm_compute; reflexivity).
  assert (Hpos : forall r, r ∈ select_history g 7 -> 0 <= row_num r).
  { intros r Hr. rewrite Hsel in Hr. sample_members; simpl; lia. }
  assert (Hinj : forall x y, x ∈ select_history g 7 -> y ∈ select_history g 7 ->
                   row_num x = row_num y -> x = y).
  { intros x y Hx Hy. rewrite Hsel in Hx, Hy.
    sample_members; simpl; intros; try done; lia. }
  split; [exact Hmem|].
  destruct (merge_history_prepends g 7 Hmem Hpos Hinj) as (Hs & He & _).
  split; [rewrite Hs, Hsel; reflexivity|].
  split; [rewrite Hs, Hsel; reflexivity|]. rewrite He. reflexivity.
Defined.

(** ** The pace of the autosave *)

(** An autosave that writes remembers its time, and the next one that writes
    comes more than the configured interval later, whatever happens to the
    develop state in between: two writes are never closer than the interval.
    An autosave that does not write leaves the remembered time alone. *)
Theorem autosave_spacing X dev g now now_after :
  let g' := (_dev_auto_save X dev g now now_after).2 in
  (auto_save_due X dev g now = true ->
   dt_autosave_last g' = now
   /\ forall dev2 now2,
        auto_save_due X dev2 g' now2 = true ->
        (inject_Z (conf_autosave_interval X) < now2 - now)%Q)
  /\ (auto_save_due X dev g now = false -> g' = g).
Proof.
  cbn zeta. unfold _dev_auto_save. split.
  - intros Hdue. rewrite Hdue.
    assert (Hlast : dt_autosave_last
                      (if Qlt_bool (1 # 2) (now_after - now)
                       then (set_dev_autosaving false dev,
                             emit (EvControlLog slow_drive_notice)
                               (set_dt_autosave_last now
                                  (emit (EvWriteSidecar
                                           (img_id (dev_image_storage dev)))
                                     (emit (EvWriteHistory
                                              (img_id (dev_image_storage dev)))
                                        g))))
                       else (dev,
                             set_dt_autosave_last now
                               (emit (EvWriteSidecar
                                        (img_id (dev_image_storage dev)))
                                  (emit (EvWriteHistory
                                           (img_id (dev_image_storage dev)))
                                     g)))).2 = now)
      by (by destruct (Qlt_bool _ _)).
    split; [exact Hlast|].
    intros dev2 now2 H2. apply auto_save_due_iff in H2 as (_ & H2 & _).
    by rewrite Hlast in H2.
  - by intros ->.
Qed.

Lemma autosave_spacing_witness :
  let X := sample_externals 10 in
  let dev := sample_develop [] 0 false in
  let g := sample_darktable [] in
  auto_save_due X dev g 11%Q = true
  /\ dt_autosave_last (_dev_auto_save X dev g 11%Q 11%Q).2 = 11%Q
  /\ auto_save_due X dev (_dev_auto_save X dev g 11%Q 11%Q).2 21%Q = false.
Proof.
  intros X dev g.
  destruct (autosave_spacing X dev g 11%Q 11%Q) as [H _].
  destruct (H eq_refl) as [Hlast Hnext].
  split; [reflexivity|]. split; [exact Hlast|].
  destruct (auto_save_due X dev (_dev_auto_save X dev g 11 11).2 21) eqn:E;
    [|reflexivity].
  apply Hnext in E. vm_compute in E. discriminate E.
Defined.

(** ** What a finished render job has done *)

Lemma process_image_restart_valid X fuel : forall dev g dev' g',
  process_image_restart X fuel dev g = Some (dev', g') ->
  dev_image_status dev' = DT_DEV_PIXELPIPE_VALID ->
  pipe_changed (dev_pipe dev') = DT_DEV_PIPE_UNCHANGED
  /\ dev_image_loading dev' = false
  /\ dev_image_invalid_cnt dev' = 0
  /\ is_Some (pipe_backbuf (dev_pipe dev')).
Proof.
  induction fuel as [|fuel IH]; intros dev g dev' g' H Hv; simpl in H; [done|].
  destruct (dev_gui_leaving dev); [by injection H as <- _|].
  destruct (dt_dev_pixelpipe_process X Full _) as [interrupted dev3].
  destruct interrupted.
  - destruct (dev_image_force_reload dev3); [by injection H as <- _|].
    by apply IH in H.
  - destruct (negb (pipe_changed (dev_pipe dev3) =? DT_DEV_PIPE_UNCHANGED))
      eqn:E; [by apply IH in H|].
    apply negb_false_iff, Z.eqb_eq in E.
    injection H as <- _. simpl. eauto.
Qed.

(** The full-pipe job publishes [VALID] only when the run was not
    interrupted and left no change pending on the pipe; by then it has
    published a back buffer and cleared [image_loading] and the count of
    failed loads. *)
Theorem image_job_valid X fuel dev g dev' g' :
  dev_gui_leaving dev = false ->
  dt_dev_process_image_job X fuel dev g = Some (dev', g') ->
  dev_image_status dev' = DT_DEV_PIXELPIPE_VALID ->
  pipe_changed (dev_pipe dev') = DT_DEV_PIPE_UNCHANGED
  /\ dev_image_loading dev' = false
  /\ dev_image_invalid_cnt dev' = 0
  /\ is_Some (pipe_backbuf (dev_pipe dev')).
Proof.
  unfold dt_dev_process_image_job. intros Hl H Hv. rewrite Hl in H.
  destruct (negb (dt_mipmap_cache_get X Full _)); [by injection H as <- _|].
  by apply process_image_restart_valid in H.
Qed.

Lemma image_job_valid_witness :
  let X := sample_externals 10 in
  let dev := sample_develop [] 0 false in
  let g := sample_darktable [] in
  let r := dt_dev_process_image_job X 3 dev g in
  dev_gui_leaving dev = false
  /\ r = Some (dev_after dev r, darktable_after g r)
  /\ dev_image_status (dev_after dev r) = DT_DEV_PIXELPIPE_VALID
  /\ dev_image_loading (dev_after dev r) = false.
Proof.
  intros X dev g r.
  assert (Hr : r = Some (dev_after dev r, darktable_after g r))
    by (vm_compute; reflexivity).
  assert (Hv : dev_image_status (dev_after dev r) = DT_DEV_PIXELPIPE_VALID)
    by (vm_compute; reflexivity).
  split; [reflexivity|]. split; [exact Hr|]. split; [exact Hv|].
  exact (proj1 (proj2 (image_job_valid X 3 dev g _ _ eq_refl Hr Hv))).
Defined.

(** ** Masks history items *)




Lemma find_mask_manager_spec dev modules found :
  find_mask_manager dev modules = Some found ->
  match found with
  | Some a =>
      exists before after m,
        modules = before ++ a :: after
        /\ dev_store dev !! a = Some m /\ mod_op m = "mask_manager"
  | None =>
      forall a m, a ∈ modules -> dev_store dev !! a = Some m ->
        mod_op m <> "mask_manager"
  end.
Proof.
  revert found. induction modules as [|a next IH]; intros found H; simpl in H.
  - injection H as <-. intros a m Ha. by apply elem_of_nil in Ha.
  - destruct (dev_store dev !! a) as [md|] eqn:Hmd; simpl in H; [|done].
    destruct (String.eqb (mod_op md) "mask_manager") eqn:E.
    + injection H as <-. apply String.eqb_eq in E.
      exists [], next, md. done.
    + apply String.eqb_neq in E. apply IH in H.
      destruct found as [b|].
      * destruct H as (before & after & m & -> & Hm & Hop).
        exists (a :: before), after, m. done.
      * intros b m [->|Hb]%elem_of_cons Hm; [congruence|by eapply H].
Qed.



(** ** The modules after a pop *)

Lemma keeps_enabled_refl m : keeps_enabled m m.
Proof. done. Qed.

Lemma keeps_enabled_trans m1 m2 m3 :
  keeps_enabled m1 m2 -> keeps_enabled m2 m3 -> keeps_enabled m1 m3.
Proof. intros [K1 E1] [K2 E2]. split; [by eapply (keeps_kind_trans true)|auto]. Qed.

Lemma store_le_mono (R R' : dt_iop_module_t -> dt_iop_module_t -> Prop) s s' :
  (forall m m', R m m' -> R' m m') -> store_le R s s' -> store_le R' s s'.
Proof. intros HR H a m Ha. destruct (H a m Ha) as (m' & ? & ?). eauto. Qed.

Lemma store_le_enabled_refl s : store_le keeps_enabled s s.
Proof. intros a m H. eauto using keeps_enabled_refl. Qed.

Lemma store_le_enabled_trans s1 s2 s3 :
  store_le keeps_enabled s1 s2 -> store_le keeps_enabled s2 s3 ->
  store_le keeps_enabled s1 s3.
Proof.
  intros H12 H23 a m H. destruct (H12 a m H) as (m2 & H2 & K2).
  destruct (H23 a m2 H2) as (m3 & H3 & K3). eauto using keeps_enabled_trans.
Qed.

Lemma store_le_enabled_insert s a m m' :
  s !! a = Some m -> keeps_enabled m m' ->
  store_le keeps_enabled s (<[a := m']> s).
Proof.
  intros Ha K b mb Hb. destruct (decide (a = b)) as [->|Hne].
  - rewrite lookup_insert_eq. rewrite Ha in Hb. injection Hb as <-. eauto.
  - rewrite lookup_insert_ne by done. eauto using keeps_enabled_refl.
Qed.

Lemma store_le_enabled_ordering_effect f dev :
  store_le keeps_enabled (dev_store dev) (dev_store (ordering_effect f dev)).
Proof.
  intros a m H. unfold ordering_effect. simpl. rewrite map_lookup_imap, H. simpl.
  eexists. split; [done|]. done.
Qed.

Lemma keeps_enabled_kind s s' :
  store_le keeps_enabled s s' -> store_le (keeps_kind true) s s'.
Proof. apply store_le_mono. by intros m m' [? _]. Qed.

(** The invariant of the modules depends on [dev->iop] and on the kind and
    the enabled state of the modules. *)
Lemma popped_invariant_transfer dev dev' :
  popped_invariant dev ->
  (forall a, a ∈ dev_iop dev' -> a ∈ dev_iop dev) ->
  store_le keeps_enabled (dev_store dev) (dev_store dev') ->
  popped_invariant dev'.
Proof.
  intros [Hlive Hen] Hiop Hle. split.
  - intros a Ha. destruct (Hlive a (Hiop a Ha)) as [m Hm].
    destruct (Hle a m Hm) as (m' & -> & _). eauto.
  - intros a m' Ha Hm'. destruct (Hlive a (Hiop a Ha)) as [m Hm].
    destruct (Hle a m Hm) as (m2 & Hm2 & [_ K]). rewrite Hm' in Hm2.
    injection Hm2 as <-. apply K. exact (Hen a m (Hiop a Ha) Hm).
Qed.

(** The pop. *)

Lemma keeps_enabled_reset X dev m : keeps_enabled m (reset_module X dev m).
Proof.
  unfold reset_module. destruct (_ =? 0); repeat split; simpl; try done.
  - unfold enabled_if_always_on, always_on. simpl. intros _ H.
    by apply andb_true_iff in H as [-> _].
  - unfold enabled_if_always_on, always_on. simpl. intros _ H.
    by apply andb_true_iff in H as [-> _].
Qed.

Lemma enabled_reset X dev m : enabled_if_always_on (reset_module X dev m).
Proof.
  unfold reset_module, enabled_if_always_on, always_on.
  destruct (_ =? 0); simpl; intros H; by apply andb_true_iff in H as [-> _].
Qed.

Lemma reset_modules_invariant X l : forall dev dev',
  reset_modules X dev l = Some dev' ->
  dev_history dev' = dev_history dev
  /\ dev_iop dev' = dev_iop dev
  /\ store_le keeps_enabled (dev_store dev) (dev_store dev')
  /\ (forall a, a ∈ l ->
        exists m', dev_store dev' !! a = Some m' /\ enabled_if_always_on m').
Proof.
  induction l as [|a l IH]; intros dev dev' H; simpl in H.
  - injection H as <-. repeat split; [apply store_le_enabled_refl|].
    intros a Ha. by apply elem_of_nil in Ha.
  - destruct (dev_store dev !! a) as [m|] eqn:Hm; simpl in H; [|done].
    apply IH in H as (Hh & Hiop & Hle & Hl). simpl in *.
    split; [done|]. split; [done|]. split.
    + eapply store_le_enabled_trans; [|exact Hle].
      apply (store_le_enabled_insert _ a m); [done|apply keeps_enabled_reset].
    + intros b Hb. apply elem_of_cons in Hb as [->|Hb]; [|by apply Hl].
      destruct (Hle a (reset_module X dev m)) as (m' & Hm' & [_ K]).
      { apply lookup_insert_eq. }
      exists m'. split; [done|]. apply K, enabled_reset.
Qed.

Lemma replay_history_invariant history : forall dev i cnt forms dev' forms',
  replay_history dev history i cnt forms = Some (dev', forms') ->
  (forall h m, h ∈ history -> deref dev (hist_module h) = Some m ->
     always_on m = true -> hist_enabled h = true) ->
  dev_history dev' = dev_history dev
  /\ dev_iop dev' = dev_iop dev
  /\ store_le keeps_enabled (dev_store dev) (dev_store dev').
Proof.
  induction history as [|hist next IH]; intros dev i cnt forms dev' forms' H Hon;
    simpl in H.
  - injection H as <- _. repeat split. apply store_le_enabled_refl.
  - destruct (i <? cnt); [|injection H as <- _; repeat split;
                            apply store_le_enabled_refl].
    destruct (hist_module hist) as [a|] eqn:Ea; simpl in H; [|done].
    destruct (dev_store dev !! a) as [m|] eqn:Hm; simpl in H; [|done].
    assert (Hk : keeps_enabled m (replay_item hist m)).
    { assert (Ha : always_on (replay_item hist m) = always_on m)
        by (unfold replay_item, always_on; by destruct (bool_decide _)).
      split; [split; [split|]|].
      - unfold replay_item; by destruct (bool_decide _).
      - unfold replay_item; by destruct (bool_decide _).
      - by rewrite Ha.
      - intros _ Ham. rewrite Ha in Ham.
        assert (He : mod_enabled (replay_item hist m) = hist_enabled hist)
          by (unfold replay_item; by destruct (bool_decide _)).
        rewrite He. apply (Hon hist m); [by left|by rewrite Ea|done]. }
    apply IH in H as (Hh & Hiop & Hle).
    + simpl in *. split; [done|]. split; [done|].
      eapply store_le_enabled_trans; [|exact Hle].
      by apply (store_le_enabled_insert _ a m).
    + intros h m2 Hin Hd Ham.
      destruct (hist_module h) as [b|] eqn:Eb; simpl in Hd; [|done].
      destruct (decide (a = b)) as [<-|Hne].
      * rewrite lookup_insert_eq in Hd. injection Hd as <-.
        apply (Hon h m); [by right|by rewrite Eb|].
        by apply Hk.
      * rewrite lookup_insert_ne in Hd by done.
        apply (Hon h m2); [by right|by rewrite Eb|done].
Qed.

Lemma pop_ext_invariant X dev cnt dev' :
  ordering_reorders X ->
  dt_dev_pop_history_items_ext X dev cnt = Some dev' ->
  history_modules_live dev ->
  always_on_entries_enabled dev ->
  dev_history dev' = dev_history dev
  /\ store_le keeps_enabled (dev_store dev) (dev_store dev')
  /\ popped_invariant dev'.
Proof.
  intros (Hsync & Hdup & _) H Hlive Hon.
  unfold dt_dev_pop_history_items_ext in H.
  destruct (pop_reset_and_replay X dev cnt) as [[dev2 forms]|] eqn:E;
    simpl in H; [|done].
  unfold pop_reset_and_replay in E.
  destruct (reset_modules _ _ _) as [dev1|] eqn:E1; simpl in E; [|done].
  apply reset_modules_invariant in E1 as (Hh1 & Hiop1 & Hle1 & Hl1).
  simpl in Hh1, Hiop1, Hle1, Hl1.
  apply replay_history_invariant in E as (Hh2 & Hiop2 & Hle2).
  2:{ intros h m1 Hin Hd Ham. rewrite Hh1 in Hin.
      destruct (hist_module h) as [a|] eqn:Ea; simpl in Hd; [|done].
      destruct (Hlive h Hin) as [m Hm]. rewrite Ea in Hm. simpl in Hm.
      destruct (Hle1 a m Hm) as (m' & Hm' & [[_ K] _]).
      rewrite Hd in Hm'. injection Hm' as <-.
      apply (Hon h m); [done|by rewrite Ea|by apply K]. }
  set (dev3 := ordering_effect (dt_ioppr_resync_modules_order X) dev2) in H.
  set (dev4 := ordering_effect (dt_ioppr_check_duplicate_iop_order X) dev3) in H.
  assert (Hle4 : store_le keeps_enabled (dev_store dev2) (dev_store dev4)).
  { eapply store_le_enabled_trans; apply store_le_enabled_ordering_effect. }
  assert (Hiop4 : forall a, a ∈ dev_iop dev4 -> a ∈ dev_iop dev).
  { intros a Ha. subst dev4 dev3. unfold ordering_effect in Ha at 1. simpl in Ha.
    rewrite Hdup in Ha. unfold ordering_effect in Ha. simpl in Ha.
    rewrite Hsync in Ha. congruence. }
  assert (Hinv4 : dev_history dev4 = dev_history dev
                  /\ store_le keeps_enabled (dev_store dev) (dev_store dev4)
                  /\ popped_invariant dev4).
  { split; [simpl; congruence|]. split.
    - eapply store_le_enabled_trans; [exact Hle1|].
      eapply store_le_enabled_trans; [exact Hle2|exact Hle4].
    - split.
      + intros a Ha. destruct (Hl1 a (Hiop4 a Ha)) as (m1 & Hm1 & _).
        destruct (Hle2 a m1 Hm1) as (m2 & Hm2 & _).
        destruct (Hle4 a m2 Hm2) as (m4 & -> & _). eauto.
      + intros a m Ha Hm. destruct (Hl1 a (Hiop4 a Ha)) as (m1 & Hm1 & Q1).
        destruct (Hle2 a m1 Hm1) as (m2 & Hm2 & [_ K2]).
        destruct (Hle4 a m2 Hm2) as (m4 & Hm4 & [_ K4]).
        rewrite Hm in Hm4. injection Hm4 as <-. apply K4, K2, Q1. }
  injection H as <-. by destruct (masks_changed_loop _ _ _).
Qed.

Lemma pop_popped_invariant X dev g cnt dev' g' :
  ordering_reorders X ->
  dt_dev_pop_history_items X dev g cnt = Some (dev', g') ->
  history_modules_live dev -> always_on_entries_enabled dev ->
  popped_invariant dev'.
Proof.
  intros HX H Hlive Hon. unfold dt_dev_pop_history_items in H.
  destruct (dt_dev_pop_history_items_ext X dev cnt) as [dev1|] eqn:E;
    simpl in H; [|done].
  apply pop_ext_invariant in E as (Hh & Hle & Hpop); [|done..].
  match type of H with
  | (?c ≫= _) = _ => destruct c as [changed|]
  end; simpl in H; [|done].
  injection H as <- _.
  apply (popped_invariant_transfer dev1); [done| |].
  - by destruct (negb changed).
  - destruct (negb changed); apply store_le_enabled_refl.
Qed.

(** A pop switches the always-on modules on: the entries pointing to module
    structs and those of always-on modules being enabled, after
    [dt_dev_pop_history_items] every always-on module of [dev->iop] is
    enabled, whatever the cursor.  An append that follows a pop therefore
    pushes an enabled entry for such a module, also without [enable]. *)
Theorem pop_switches_always_on X dev g cnt dev' g' :
  ordering_reorders X ->
  history_modules_live dev -> always_on_entries_enabled dev ->
  dt_dev_pop_history_items X dev g cnt = Some (dev', g') ->
  always_on_modules_enabled dev'
  /\ forall a m enable,
       a ∈ dev_iop dev' -> dev_store dev' !! a = Some m ->
       appends_always_on_enabled enable m.
Proof.
  intros HX Hlive Hon H.
  destruct (pop_popped_invariant X dev g cnt dev' g' HX H Hlive Hon)
    as [_ Hen].
  split; [exact Hen|]. intros a m enable Ha Hm Ham.
  rewrite (Hen a m Ha Hm Ham). apply orb_true_r.
Qed.

Lemma pop_switches_always_on_witness :
  let X := sample_externals 10 in
  let dev := set_dev_history [sample_entry 0 "exposure" [x05; x06] true]
               sample_develop_unpopped in
  let g := sample_darktable [] in
  let r := dt_dev_pop_history_items X dev g 0 in
  ordering_reorders X
  /\ history_modules_live dev
  /\ always_on_entries_enabled dev
  /\ mod_enabled <$> dev_store dev !! 1%nat = Some false
  /\ r = Some (dev_after dev r, darktable_after g r)
  /\ always_on_modules_enabled (dev_after dev r).
Proof.
  intros X dev g r.
  assert (HX : ordering_reorders X) by apply sample_ordering_reorders.
  assert (Hl : history_modules_live dev)
    by (intros h Hh; simpl in Hh; sample_members; vm_compute; eauto).
  assert (Hon : always_on_entries_enabled dev)
    by (intros h m Hh Hm _; simpl in Hh; sample_members; reflexivity).
  assert (Hr : r = Some (dev_after dev r, darktable_after g r))
    by (vm_compute; reflexivity).
  split; [exact HX|]. split; [exact Hl|]. split; [exact Hon|].
  split; [reflexivity|]. split; [exact Hr|].
  exact (proj1 (pop_switches_always_on X dev g 0 _ _ HX Hl Hon Hr)).
Defined.

(** ** Reloading the history *)

Lemma forget_labels_spec items : forall dev dev',
  forget_labels dev items = Some dev' ->
  dev_history dev' = dev_history dev
  /\ dev_iop dev' = dev_iop dev
  /\ dev_image_storage dev' = dev_image_storage dev.
Proof.
  induction items as [|hist next IH]; intros dev dev' H; simpl in H.
  - by injection H as <-.
  - destruct (hist_module hist) as [a|]; simpl in H; [|done].
    destruct (dev_store dev !! a) as [m|]; simpl in H; [|done].
    by apply IH in H as (-> & -> & ->).
Qed.

Lemma add_new_instances_spec X modules : forall dev expanders dev' expanders',
  (forall w m, always_on (reload_defaults X w m) = true -> always_on m = true) ->
  add_new_instances X modules dev expanders = Some (dev', expanders') ->
  dev_history dev' = dev_history dev
  /\ dev_history_end dev' = dev_history_end dev
  /\ dev_iop dev' = dev_iop dev
  /\ store_le (keeps_kind true) (dev_store dev) (dev_store dev')
  /\ expanders ⊆ expanders'.
Proof.
  induction modules as [|a next IH]; intros dev expanders dev' expanders' Hre H;
    simpl in H.
  - injection H as <- <-. repeat split; [apply store_le_refl|done].
  - destruct (dev_store dev !! a) as [m|] eqn:Hm; simpl in H; [|done].
    destruct (_ && _ && _).
    + apply IH in H as (-> & -> & -> & Hle & Hsub); [|done]. simpl.
      repeat split.
      * eapply store_le_trans; [|exact Hle]. simpl.
        apply (store_le_insert _ _ a m); [done|]. split; [done|].
        intros _. apply Hre.
      * intros b Hb. apply Hsub, elem_of_union. by right.
    + by apply IH in H.
Qed.

(** Whatever the stack holds when [dt_dev_reload_history_items] is called,
    the function empties it before it reads the rows of the image, and it
    leaves a state that satisfies the invariants of the stack: the entries
    point to module structs, the entries of always-on modules are enabled, no
    entry belongs to a module that carries [NO_HISTORY_STACK], and the
    always-on modules of [dev->iop] are enabled.  The ordering code is
    taken to reorder [dev->iop], and a reload of defaults not to make a
    module always-on. *)
Theorem reload_history_items_invariants X resync_iop_list dev g expanders
    dev' g' expanders' :
  ordering_reorders X ->
  (forall d, dev_iop (resync_iop_list d) ≡ₚ dev_iop d) ->
  (forall w m, always_on (reload_defaults X w m) = true -> always_on m = true) ->
  dt_dev_reload_history_items X resync_iop_list dev g expanders
  = Some (dev', g', expanders') ->
  history_modules_live dev'
  /\ always_on_entries_enabled dev'
  /\ history_free_of_no_history_stack dev'
  /\ always_on_modules_enabled dev'
  /\ expanders ⊆ expanders'.
Proof.
  intros HX Hresync Hre H. unfold dt_dev_reload_history_items in H.
  set (dev1 := ordering_effect _ (set_dev_focus_hash 0 dev)) in H.
  destruct (dt_dev_pop_history_items X dev1 g 0) as [[dev2 g2]|] eqn:Epop;
    simpl in H; [|done].
  apply pop_stack in Epop as (_ & He2 & _).
  rewrite He2 in H. rewrite g_list_nth_drop in H by lia.
  change (drop (Z.to_nat 0) (dev_history dev2)) with (dev_history dev2) in H.
  destruct (forget_labels dev2 (dev_history dev2)) as [dev3|] eqn:Ef;
    simpl in H; [|done].
  apply forget_labels_spec in Ef as (Hh3 & _).
  rewrite Hh3, Nat.sub_diag, take_0 in H.
  set (dev4 := set_dev_history [] dev3) in H.
  destruct (dt_dev_read_history X dev4 g2) as [[dev5 g5]|] eqn:Er; simpl in H;
    [|done].
  unfold dt_dev_read_history in Er.
  apply (read_history_invariant true no_history_stack bars_no_history_stack)
    in Er; [|intros _ w m _; apply Hre|done].
  destruct (add_new_instances X (dev_iop dev5) dev5 expanders)
    as [[dev6 expanders6]|] eqn:Ea; simpl in H; [|done].
  apply add_new_instances_spec in Ea as (Hh6 & _ & _ & Hle6 & Hsub); [|done].
  pose proof (stack_invariant_transfer true no_history_stack
                bars_no_history_stack dev5 dev6 Er Hh6 Hle6) as Hinv6.
  destruct (dt_dev_pop_history_items X dev6 g5 (dev_history_end dev6))
    as [[dev7 g7]|] eqn:Epop2; simpl in H; [|done].
  pose proof (pop_invariant true no_history_stack bars_no_history_stack
                X dev6 g5 _ dev7 g7 Epop2 Hinv6) as Hinv7.
  assert (Hpop7 : popped_invariant dev7).
  { destruct Hinv6 as (Hl6 & Hon6 & _).
    apply (pop_popped_invariant X dev6 g5 _ dev7 g7 HX Epop2 Hl6).
    by apply Hon6. }
  injection H as <- <- <-.
  assert (Hinv : stack_invariant true no_history_stack
                   (ordering_effect resync_iop_list dev7)).
  { apply (stack_invariant_transfer true no_history_stack
             bars_no_history_stack dev7); [done..|apply store_le_ordering_effect]. }
  assert (Hpop : popped_invariant (ordering_effect resync_iop_list dev7)).
  { apply (popped_invariant_transfer dev7); [done| |].
    - intros a Ha. rewrite ordering_effect_iop, Hresync in Ha. done.
    - apply store_le_enabled_ordering_effect. }
  destruct Hinv as (? & Hon & ?). destruct Hpop as [_ ?].
  split; [done|]. split; [by apply Hon|]. done.
Qed.

Lemma reload_history_items_witness :
  let X := sample_externals 10 in
  let dev := sample_develop [sample_entry 2 "overexposed" [x01; x02] true] 1
               false in
  let g := sample_darktable [sample_row 0 "colorin" 0;
                             sample_row 1 "exposure" 1] in
  let r := dt_dev_reload_history_items X (fun d => d) dev g ∅ in
  let dev' := default dev ((fun r => r.1.1) <$> r) in
  ordering_reorders X
  /\ is_Some r
  /\ hist_op_name <$> dev_history dev'
     = ["colorin"; "highlights"; "colorin"; "exposure"]
  /\ always_on_entries_enabled dev'.
Proof.
  intros X dev g r dev'.
  assert (HX : ordering_reorders X) by apply sample_ordering_reorders.
  assert (Hh : hist_op_name <$> dev_history dev'
               = ["colorin"; "highlights"; "colorin"; "exposure"])
    by (vm_compute; reflexivity).
  subst dev' r.
  destruct (dt_dev_reload_history_items X (fun d => d) dev g ∅)
    as [[[d g'] e]|] eqn:Er; [|discriminate Hh].
  split; [exact HX|]. split; [eauto|]. split; [exact Hh|].
  apply (reload_history_items_invariants X (fun d => d) dev g ∅ d g' e HX);
    [done|intros w m H; exact H|exact Er].
Defined.

(** ** Render jobs and the shutdown protocol *)

Lemma render_restart_leaving X k : forall fuel dev g dev' g',
  interrupts_when_leaving X ->
  render_restart X k fuel dev g = Some (dev', g') ->
  dev_gui_leaving dev' = true ->
  dev_status_of k dev' = DT_DEV_PIXELPIPE_INVALID.
Proof.
  intros fuel dev g dev' g' HX. revert dev g.
  induction fuel as [|fuel IH]; intros dev g H Hl; [by destruct k|].
  destruct k; cbn [render_restart] in *.
  - cbn [process_image_restart] in H.
    destruct (dev_gui_leaving dev); [by injection H as <- _|].
    cbv zeta in H.
    match type of H with
    | context [dt_dev_pixelpipe_process X Full ?d] =>
        pose proof (HX Full d) as Hp;
        destruct (dt_dev_pixelpipe_process X Full d) as [interrupted dev3]
    end.
    simpl in Hp. destruct interrupted.
    + destruct (dev_image_force_reload dev3); [by injection H as <- _|].
      by apply (IH dev3 g).
    + destruct (negb _); [by apply (IH dev3 g)|].
      injection H as <- _. simpl in Hl. by specialize (Hp Hl).
  - cbn [process_preview_restart] in H.
    destruct (dev_gui_leaving dev); [by injection H as <- _|].
    cbv zeta in H.
    match type of H with
    | context [dt_dev_pixelpipe_process X Preview ?d] =>
        pose proof (HX Preview d) as Hp;
        destruct (dt_dev_pixelpipe_process X Preview d) as [interrupted dev2]
    end.
    simpl in Hp. destruct interrupted.
    + destruct (_ || _); [by injection H as <- _|]. by apply (IH dev2 g).
    + injection H as <- _. simpl in Hl. by specialize (Hp Hl).
  - cbn [process_preview2_restart] in H.
    destruct (dev_gui_leaving dev); [by injection H as <- _|].
    cbv zeta in H.
    match type of H with
    | context [dt_dev_pixelpipe_process X Secondary ?d] =>
        pose proof (HX Secondary d) as Hp;
        destruct (dt_dev_pixelpipe_process X Secondary d) as [interrupted dev2]
    end.
    simpl in Hp. destruct interrupted.
    + destruct (_ || _); [by injection H as <- _|]. by apply (IH dev2 g).
    + injection H as <- _. simpl in Hl. by specialize (Hp Hl).
Qed.

(** Where P9 holds: if the pipelines follow the shutdown protocol, a render
    job that returns with [gui_leaving] set has either returned on entry,
    with the develop state as it was, or marked the status of its pipeline
    [INVALID]; it has not published [VALID]. *)
Theorem leaving_run_never_publishes X k fuel dev g dev' g' :
  interrupts_when_leaving X ->
  render_job X k fuel dev g = Some (dev', g') ->
  dev_gui_leaving dev' = true ->
  dev' = dev \/ dev_status_of k dev' = DT_DEV_PIXELPIPE_INVALID.
Proof.
  intros HX H Hl. destruct k; cbn [render_job] in H.
  - unfold dt_dev_process_image_job in H.
    destruct (dev_gui_leaving dev) eqn:E; [left; by injection H as <- _|].
    destruct (negb _).
    { injection H as <- _. simpl in Hl. congruence. }
    right. by apply (render_restart_leaving X Full) in H.
  - unfold dt_dev_process_preview_job in H.
    destruct (dev_image_loading dev); [left; by injection H as <- _|].
    destruct (dev_gui_leaving dev) eqn:E; [left; by injection H as <- _|].
    destruct (negb _).
    { injection H as <- _. simpl in Hl. congruence. }
    right. by apply (render_restart_leaving X Preview) in H.
  - unfold dt_dev_process_preview2_job in H.
    destruct (dev_image_loading dev); [left; by injection H as <- _|].
    destruct (negb (dev_second_window_widget dev));
      [left; by injection H as <- _|].
    destruct (dev_gui_leaving dev) eqn:E; [left; by injection H as <- _|].
    destruct (negb _).
    { injection H as <- _. simpl in Hl. congruence. }
    right. by apply (render_restart_leaving X Secondary) in H.
Qed.

Lemma leaving_run_never_publishes_witness :
  let X := leaving_while_processing true (sample_externals 10) in
  let dev := sample_develop [] 0 false in
  let g := sample_darktable [] in
  let r := render_job X Full 3 dev g in
  interrupts_when_leaving X
  /\ r = Some (dev_after dev r, darktable_after g r)
  /\ dev_gui_leaving (dev_after dev r) = true
  /\ dev_image_status (dev_after dev r) = DT_DEV_PIXELPIPE_INVALID.
Proof.
  intros X dev g r.
  assert (HX : interrupts_when_leaving X) by (intros k d _; reflexivity).
  assert (Hr : r = Some (dev_after dev r, darktable_after g r))
    by (vm_compute; reflexivity).
  assert (Hl : dev_gui_leaving (dev_after dev r) = true)
    by (vm_compute; reflexivity).
  split; [exact HX|]. split; [exact Hr|]. split; [exact Hl|].
  destruct (leaving_run_never_publishes X Full 3 dev g _ _ HX Hr Hl)
    as [He|Hs]; [|exact Hs].
  rewrite He in Hl. discriminate Hl.
Defined.

(** ** Duplicating at the end of the range *)

(** When an instance of the operation has the priority [INT_MAX],
    [pmax += 1] overflows: the duplication has no defined result. *)
Theorem module_duplicate_overflow X fuel dev g base b module0
    (reorder_iop : bool) :
  dev_store dev !! base = Some b ->
  base ∈ dev_iop dev ->
  modules_live dev (dev_iop dev) ->
  dt_iop_load_module X (mod_so b) = Some module0 ->
  mod_multi_priority b = INT_MAX ->
  dt_dev_module_duplicate_ext X fuel dev g base reorder_iop = None.
Proof.
  intros Hb Hbase Hlive Hload Hmax.
  unfold dt_dev_module_duplicate_ext. rewrite Hb. cbn [mbind option_bind].
  rewrite Hload.
  destruct (max_multi_priority_spec dev (mod_instance b) (dev_iop dev) 0 Hlive)
    as (pmax & -> & _ & Hpall & _).
  cbn [mbind option_bind].
  assert (Hle : INT_MAX <= pmax).
  { rewrite <- Hmax. apply Hpall. exists base. done. }
  unfold int_add. cbn zeta.
  destruct (pmax + 1 <=? INT_MAX) eqn:E; [apply Z.leb_le in E; lia|].
  by rewrite andb_false_r.
Qed.

Lemma module_duplicate_overflow_witness :
  let X := sample_externals 10 in
  let b := set_mod_multi_priority INT_MAX
             (sample_module 0 "exposure" false false 0) in
  let dev := store_module 0 b (sample_develop [] 0 false) in
  dev_store dev !! 0%nat = Some b
  /\ modules_live dev (dev_iop dev)
  /\ mod_multi_priority b = INT_MAX
  /\ dt_dev_module_duplicate_ext X 5 dev (sample_darktable []) 0%nat false
     = None.
Proof.
  intros X b dev.
  assert (Hb : dev_store dev !! 0%nat = Some b) by reflexivity.
  assert (Hin : 0%nat ∈ dev_iop dev) by (by left).
  assert (Hm : modules_live dev (dev_iop dev))
    by (intros a Ha; simpl in Ha; sample_members; vm_compute; eauto).
  split; [exact Hb|]. split; [exact Hm|]. split; [reflexivity|].
  exact (module_duplicate_overflow X 5 dev (sample_darktable []) 0%nat b
           (sample_module 0 "exposure" false false 0) false
           Hb Hin Hm eq_refl eq_refl).
Defined.
